(** * generatedata: chunked fake-data generation and Iceberg registration

    A shallow embedding of the two generator scripts of the repository,

      - [generate_benchmark_data.py]  (module [Benchmark] below), and
      - [generate_iceberg_tables.py]  (module [Iceberg] below),

    together with the properties of their chunk arithmetic, their per-chunk
    error handling, the Arrow-to-Iceberg type mapping and the selection of
    partition transforms.

    Conventions.  Python integers are [Z]; [//] is [Z.div] (floor division).
    Sizes in GB, size ratios and success rates, which are floats in Python,
    are exact rationals ([Q]); [binary64_threshold_agrees] compares the
    success test with its binary64 evaluation.
    Python code that may raise returns an [outcome].  Code that also talks to
    the outside world (parquet writer, S3, catalog, console) lives in the
    monad [Py], which threads the history of effects performed so far.
    Third-party libraries are not part of the repository: their calls are
    oracles of an environment record or small contract models, each marked
    as such where it is introduced. *)

From Stdlib Require Import ZArith QArith Qround List String Bool Lia Permutation.
From Stdlib Require Import DecimalString DecimalZ DecimalPos FinFun Floats.SpecFloat Sorted.
Import ListNotations.

Local Open Scope Z_scope.
Local Open Scope string_scope.

(* ===================================================================== *)
(** ** Python values shared by both scripts *)
(* ===================================================================== *)

(** The exception classes the scripts raise or catch.  All of them derive
    from Python's [Exception], so every [except Exception] handler below
    catches every constructor of [exn]. *)
Inductive exn : Type :=
| ValueError (msg : string)
| ImportError (msg : string)
| KeyError (key : string)
| AttributeError (attr : string)
| StopIteration
| LibraryError (msg : string).   (* any exception coming out of a library call *)

Inductive outcome (A : Type) : Type :=
| Ret (a : A)
| Raise (e : exn).
Arguments Ret {A} a.
Arguments Raise {A} e.

Definition obind {A B} (c : outcome A) (k : A -> outcome B) : outcome B :=
match c with
| Ret a => k a
| Raise e => Raise e
end.

Declare Scope outcome_scope.
Delimit Scope outcome_scope with outcome.
Notation "'let?' x ':=' c 'in' k" := (obind c (fun x => k))
(at level 10, x name, c at level 100, k at level 200) : outcome_scope.
Local Open Scope outcome_scope.

Module py.

(** [str(n)] for an integer. *)
Definition str (n : Z) : string := NilZero.string_of_int (Z.to_int n).

(** [f"{n:06d}"]: at least six characters, zero-padded after the sign. *)
Fixpoint zeros (k : nat) : string :=
match k with
| O => ""
| S k' => "0" ++ zeros k'
end.

Definition format_06d (n : Z) : string :=
let digits := str (Z.abs n) in
let sign := if (n <? 0)%Z then "-" else "" in
sign ++ zeros (6 - String.length sign - String.length digits) ++ digits.

(** [s.endswith(suffix)] *)
Definition endswith (s suffix : string) : bool :=
    let n := String.length s in
    let k := String.length suffix in
    (k <=? n)%nat && String.eqb (substring (n - k) k s) suffix.

(** [x in l] for a list of strings. *)
Definition str_in (x : string) (l : list string) : bool :=
    existsb (String.eqb x) l.

(** [list(range(start, stop))], empty when [stop <= start]. *)
Definition range (start stop : Z) : list Z :=
    map (fun k => start + Z.of_nat k) (seq 0 (Z.to_nat (stop - start))).

(** [list(range(n))] *)
Definition range0 (n : Z) : list Z := range 0 n.

(** [enumerate(l)] *)
Fixpoint enumerate_from {A} (i : Z) (l : list A) : list (Z * A) :=
    match l with
    | [] => []
    | x :: r => (i, x) :: enumerate_from (i + 1) r
    end.
Definition enumerate {A} (l : list A) : list (Z * A) := enumerate_from 0 l.

(** [int(q)] for a non-integral number: truncation toward zero. *)
Definition int (q : Q) : Z := Z.quot (Qnum q) (Zpos (Qden q)).

(** [d.get(k, default)] and [d[k]] on a dictionary kept in insertion order. *)
Fixpoint dict_find {V} (d : list (string * V)) (k : string) : option V :=
    match d with
    | [] => None
    | (k', v) :: r => if String.eqb k' k then Some v else dict_find r k
    end.

Definition dict_get {V} (d : list (string * V)) (k : string) (default : V) : V :=
    match dict_find d k with Some v => v | None => default end.

Definition dict_item {V} (d : list (string * V)) (k : string) : outcome V :=
    match dict_find d k with Some v => Ret v | None => Raise (KeyError k) end.

Definition keys {V} (d : list (string * V)) : list string := map fst d.

End py.

(* ===================================================================== *)
(** ** pyarrow data types and pyiceberg types (library data, by contract) *)
(* ===================================================================== *)

(** The part of [pyarrow]'s type universe the scripts can meet: every
    primitive type, the parametrised ones and two nested ones ([list_], [map_]).  The
    predicates of [pa.types] follow pyarrow's documentation: each tests the
    type id, [is_timestamp] accepts every unit and time zone, [is_decimal]
    accepts both decimal widths, [is_string] accepts only [utf8]. *)
Module pa.

Inductive TimeUnit : Type := s | ms | us | ns.

Inductive DataType : Type :=
| null
| bool_
| int8 | int16 | int32 | int64
| uint8 | uint16 | uint32 | uint64
| float16 | float32 | float64
| date32 | date64
| time32 (unit : TimeUnit)
| time64 (unit : TimeUnit)
| timestamp (unit : TimeUnit) (tz : option String.string)
| duration (unit : TimeUnit)
| binary
| string
| large_binary
| large_string
| decimal128 (precision scale : Z)
| decimal256 (precision scale : Z)
| list_ (value_type : DataType)
| map_ (key_type item_type : DataType).

(** [arrow_type.precision] and [arrow_type.scale]: attributes of decimal
      types only; on any other type the attribute access raises. *)
Definition precision (t : DataType) : outcome Z :=
    match t with
    | decimal128 p _ | decimal256 p _ => Ret p
    | _ => Raise (AttributeError "precision")
    end.

Definition scale (t : DataType) : outcome Z :=
    match t with
    | decimal128 _ sc | decimal256 _ sc => Ret sc
    | _ => Raise (AttributeError "scale")
    end.

Module types.
Definition is_int64 (t : DataType) : bool :=
      match t with int64 => true | _ => false end.
Definition is_int32 (t : DataType) : bool :=
      match t with int32 => true | _ => false end.
Definition is_string (t : DataType) : bool :=
      match t with string => true | _ => false end.
Definition is_boolean (t : DataType) : bool :=
      match t with bool_ => true | _ => false end.
Definition is_float32 (t : DataType) : bool :=
      match t with float32 => true | _ => false end.
Definition is_float64 (t : DataType) : bool :=
      match t with float64 => true | _ => false end.
Definition is_date32 (t : DataType) : bool :=
      match t with date32 => true | _ => false end.
Definition is_timestamp (t : DataType) : bool :=
      match t with timestamp _ _ => true | _ => false end.
Definition is_decimal (t : DataType) : bool :=
      match t with decimal128 _ _ | decimal256 _ _ => true | _ => false end.
End types.

(** [pa.field(name, type)]: nullable unless said otherwise. *)
Record Field : Type := field_ { name : String.string; type : DataType; nullable : bool }.
Definition field (n : String.string) (t : DataType) : Field :=
    {| name := n; type := t; nullable := true |}.

Definition schema (fs : list Field) : list Field := fs.

End pa.

(** [pyiceberg.types] *)
Module types.
Inductive IcebergType : Type :=
| LongType
| IntegerType
| StringType
| BooleanType
| FloatType
| DoubleType
| DateType
| TimestampType
| DecimalType (precision scale : Z).
End types.

(** [pyiceberg.schema] *)
Module schema.
Record NestedField : Type := {
  field_id : Z;
  name : string;
  field_type : types.IcebergType;
  required : bool
}.
Record Schema : Type := { fields : list NestedField }.
End schema.

(** [pyiceberg.transforms], as the script imports them.  A partition field
    built with [transform=None] is what the script calls the identity
    transform. *)
Inductive Transform : Type :=
| days
| hours
| bucket (num_buckets : Z)
| truncate (width : Z).

(** [pyiceberg.partitioning] *)
Record PartitionField : Type := {
  source_id : Z;
  field_id : Z;
  transform : option Transform;
  name : string
}.
Record PartitionSpec : Type := { spec_fields : list PartitionField }.

(* ===================================================================== *)
(** ** pandas and numpy (library data, by contract) *)
(* ===================================================================== *)

(** A column keeps the values the scripts compute themselves (identifier
    ranges, formatted names).  Values drawn by a library (random numbers,
    date ranges, timestamps) are kept by their count only.  The library
    calls that build columns are modelled by their contract on the size
    argument alone: a negative size is refused, any other size yields that
    many values.  What else a library version may refuse (a frequency
    alias, a date range past the last representable timestamp) is not
    modelled. *)
Module pd.

Inductive Column : Type :=
| Ints (values : list Z)
| Strs (values : list string)
| Drawn (n : Z).

Definition col_len (c : Column) : Z :=
match c with
| Ints v => Z.of_nat (List.length v)
| Strs v => Z.of_nat (List.length v)
| Drawn n => n
end.

Record DataFrame : Type := { columns : list (string * Column) }.

(** [len(df)]: the number of rows. *)
Definition len (df : DataFrame) : Z :=
match columns df with
| [] => 0
| (_, c) :: _ => col_len c
end.

(** [df.empty]: no column, or no row. *)
Definition empty (df : DataFrame) : bool :=
match columns df with
| [] => true
| _ => (len df =? 0)%Z
end.

(** A dictionary display evaluates its values from top to bottom; the
    first one that raises aborts the display. *)
Fixpoint eval_dict (d : list (string * outcome Column)) : outcome (list (string * Column)) :=
match d with
| [] => Ret []
| (k, c) :: r =>
    let? v := c in
    let? vs := eval_dict r in
    Ret ((k, v) :: vs)
end.

Definition same_length (cols : list (string * Column)) : bool :=
match cols with
| [] => true
| (_, c) :: r => forallb (fun kc => (col_len (snd kc) =? col_len c)%Z) r
end.

(** [pd.DataFrame({...})]: all columns must have one length. *)
Definition DataFrame_ (d : list (string * outcome Column)) : outcome DataFrame :=
let? cols := eval_dict d in
if same_length cols then Ret {| columns := cols |}
else Raise (ValueError "All arrays must be of the same length").

(** [pd.DataFrame()] *)
Definition DataFrame_empty : DataFrame := {| columns := [] |}.

(** [pd.date_range(start=..., periods=n, freq=...)] (and its [.date]). *)
Definition date_range (periods : Z) : outcome Column :=
if (periods <? 0)%Z then Raise (ValueError "Number of samples must be non-negative")
else Ret (Drawn periods).

(** [df[name]] *)
Definition column (df : DataFrame) (name : string) : option Column :=
py.dict_find (columns df) name.

End pd.

(** numpy's random generators take the number of values to draw; a negative
    size is refused with [ValueError], and nothing can be drawn from an
    empty population. *)
Module np.

Definition random_sized (size : Z) : outcome pd.Column :=
if (size <? 0)%Z then Raise (ValueError "negative dimensions are not allowed")
else Ret (pd.Drawn size).

(** [np.random.choice(a, size)], [a] given by its length. *)
Definition random_choice (len_a : Z) (size : Z) : outcome pd.Column :=
if (size <? 0)%Z then Raise (ValueError "negative dimensions are not allowed")
else if (len_a <=? 0)%Z && (0 <? size)%Z
then Raise (ValueError "a cannot be empty unless no samples are taken")
else Ret (pd.Drawn size).

Definition random_normal := random_sized.
Definition random_exponential := random_sized.
Definition random_uniform := random_sized.
Definition random_randint := random_sized.

End np.

(** [[f(...) for _ in range(size)]] with random content. *)
Definition drawn_comprehension (size : Z) : outcome pd.Column :=
Ret (pd.Drawn (Z.max 0 size)).

(** [len(l)] for the constant lists of the scripts. *)
Definition len {A} (l : list A) : Z := Z.of_nat (List.length l).

(* ===================================================================== *)
(** ** Effects: the history of calls to the outside world *)
(* ===================================================================== *)

Inductive Event : Type :=
| EPrint (msg : string)
| ESubmit (table_name : string) (chunk_id : Z)
| EToParquet (df : pd.DataFrame) (local_path : string)
| EUploadFile (local_path bucket key : string)
| ERemove (path : string)
| ELoadCatalog (name : string) (config : list (string * option string))
| ECreateNamespace (name : string)
| ECreateTable (identifier : string) (table_schema : schema.Schema)
    (partition_spec : PartitionSpec) (location : string)
| ELoadTable (identifier : string)
| EFromPandas (df : pd.DataFrame)
| EAppend (identifier : string) (df : pd.DataFrame)
| ETableInfo (identifier : string).

(** The environment the scripts run in: whether the optional Databricks
    SDK could be imported, the number of processors, and for every library
    call, given everything that happened before, whether it raises. *)
Record Env : Type := {
  DATABRICKS_AVAILABLE : bool;
  cpu_count : Z;
  fails : list Event -> Event -> option exn
}.

Definition Py (A : Type) : Type := list Event -> outcome A * list Event.

Definition ret {A} (a : A) : Py A := fun h => (Ret a, h).

Definition bind {A B} (c : Py A) (k : A -> Py B) : Py B :=
fun h => match c h with
         | (Ret a, h') => k a h'
         | (Raise e, h') => (Raise e, h')
         end.

Definition raise {A} (e : exn) : Py A := fun h => (Raise e, h).

(** [try: c  except Exception as e: handler(e)] *)
Definition try_except {A} (c : Py A) (handler : exn -> Py A) : Py A :=
fun h => match c h with
         | (Ret a, h') => (Ret a, h')
         | (Raise e, h') => handler e h'
         end.

Definition lift {A} (c : outcome A) : Py A := fun h => (c, h).

Definition print (msg : string) : Py unit := fun h => (Ret tt, (h ++ [EPrint msg])%list).

(** A call into a library: it is recorded, and it returns or raises as the
    environment decides. *)
Definition call (env : Env) (ev : Event) : Py unit :=
fun h => match fails env h ev with
         | None => (Ret tt, (h ++ [ev])%list)
         | Some e => (Raise e, (h ++ [ev])%list)
         end.

Declare Scope py_scope.
Delimit Scope py_scope with py.
Notation "x <- c ;; k" := (bind c (fun x => k))
(at level 61, c at next level, right associativity) : py_scope.
Notation "c ;; k" := (bind c (fun _ => k))
(at level 61, right associativity) : py_scope.

(** [str(e)] *)
Definition exn_str (e : exn) : string :=
match e with
| ValueError m => m
| ImportError m => m
| KeyError k => "'" ++ k ++ "'"
| AttributeError a => a
| StopIteration => ""
| LibraryError m => m
end.

(** [np_array * np_array], elementwise. *)
Definition np_multiply (a b : outcome pd.Column) : outcome pd.Column :=
let? x := a in
let? y := b in
if (pd.col_len x =? pd.col_len y)%Z then Ret (pd.Drawn (pd.col_len x))
else Raise (ValueError "operands could not be broadcast together").

(** [executor.submit(task)]: the task runs in the pool; what it returns or
    raises is kept in the future and surfaces at [future.result()].  Tasks
    of one table write to files and rows of their own, so the pool is
    modelled as running them in submission order. *)
Definition submit {A} (table_name : string) (chunk_id : Z) (task : Py A) : Py (outcome A) :=
fun h => let (r, h') := task (h ++ [ESubmit table_name chunk_id])%list in (Ret r, h').

(** [for x in xs: ys.append(body(x))] *)
Fixpoint for_each {A B} (xs : list A) (body : A -> Py B) : Py (list B) :=
match xs with
| [] => ret []
| x :: r => (y <- body x ;; ys <- for_each r body ;; ret (y :: ys))%py
end.

(* ===================================================================== *)
(** ** generate_benchmark_data.py *)
(* ===================================================================== *)

Module Benchmark.

Definition CHUNK_SIZE : Z := 1000000.
Definition S3_BUCKET : string := "benchmark-data-bucket".
Definition S3_PREFIX : string := "benchmark-data".

Definition TABLE_SIZES : list (string * Q) :=
[ ("lineitem", 60 # 100);
  ("events", 20 # 100);
  ("orders", 8 # 100);
  ("customers", 5 # 100);
  ("products", 3 # 100);
  ("suppliers", 2 # 100);
  ("inventory", 2 # 100) ]%Q.

Definition COUNTRIES : list string :=
["US"; "CA"; "GB"; "DE"; "FR"; "IT"; "ES"; "AU"; "JP"; "KR"; "CN"; "IN"; "BR"; "MX"].
Definition REGIONS : list string :=
["North America"; "Europe"; "Asia Pacific"; "South America"; "Middle East"; "Africa"].
Definition PRODUCT_CATEGORIES : list string :=
["Electronics"; "Clothing"; "Books"; "Home & Garden"; "Sports"; "Automotive"; "Beauty"; "Toys"].
Definition ORDER_STATUSES : list string :=
["pending"; "processing"; "shipped"; "delivered"; "cancelled"; "returned"].
Definition PAYMENT_METHODS : list string :=
["credit_card"; "debit_card"; "paypal"; "bank_transfer"; "cash_on_delivery"].

(** The attributes of a [DataGenerator] object. *)
Record DataGenerator : Type := {
  s3_bucket : string;
  s3_prefix : string;
  num_workers : Z;
  num_customers : Z;
  num_products : Z;
  num_suppliers : Z;
  num_orders : Z
}.

Definition customer_ids (self : DataGenerator) : list Z := py.range 1 (num_customers self + 1).
Definition product_ids (self : DataGenerator) : list Z := py.range 1 (num_products self + 1).
Definition supplier_ids (self : DataGenerator) : list Z := py.range 1 (num_suppliers self + 1).
Definition order_ids (self : DataGenerator) : list Z := py.range 1 (num_orders self + 1).

(** [__init__] followed by [setup_lookup_data]. *)
Definition __init__ (env : Env) (bucket prefix : string) (workers : option Z) : DataGenerator :=
{| s3_bucket := bucket;
   s3_prefix := prefix;
   num_workers := match workers with Some n => n | None => cpu_count env end;
   num_customers := 10000000;
   num_products := 1000000;
   num_suppliers := 100000;
   num_orders := 100000000 |}.

Definition generate_fake_data (data_type : string) (size : Z) : outcome pd.Column :=
if data_type =? "name" then drawn_comprehension size
else if data_type =? "email" then
  Ret (pd.Strs (map (fun i => "user" ++ py.str i ++ "@example.com") (py.range0 size)))
else if data_type =? "phone" then drawn_comprehension size
else if data_type =? "address" then drawn_comprehension size
else if data_type =? "description" then
  Ret (pd.Strs (map (fun i => "Description for item " ++ py.str i) (py.range0 size)))
else if data_type =? "comment" then drawn_comprehension size
else Ret (pd.Strs (map (fun i => "data_" ++ py.str i) (py.range0 size))).

Definition generate_customers_chunk (self : DataGenerator) (chunk_id chunk_size : Z)
  : outcome pd.DataFrame :=
let start_id := chunk_id * chunk_size + 1 in
let end_id := Z.min (start_id + chunk_size) (num_customers self + 1) in
let actual_size := end_id - start_id in
if (actual_size <=? 0)%Z then Ret pd.DataFrame_empty
else pd.DataFrame_
  [ ("customer_id", Ret (pd.Ints (py.range start_id end_id)));
    ("customer_name", generate_fake_data "name" actual_size);
    ("email", generate_fake_data "email" actual_size);
    ("phone", generate_fake_data "phone" actual_size);
    ("address", generate_fake_data "address" actual_size);
    ("country", np.random_choice (len COUNTRIES) actual_size);
    ("region", np.random_choice (len REGIONS) actual_size);
    ("registration_date", pd.date_range actual_size);
    ("credit_score", np.random_normal actual_size);
    ("lifetime_value", np.random_exponential actual_size);
    ("is_premium", np.random_choice (len [true; false]) actual_size);
    ("last_login", pd.date_range actual_size) ].

Definition generate_products_chunk (self : DataGenerator) (chunk_id chunk_size : Z)
  : outcome pd.DataFrame :=
let start_id := chunk_id * chunk_size + 1 in
let end_id := Z.min (start_id + chunk_size) (num_products self + 1) in
let actual_size := end_id - start_id in
pd.DataFrame_
  [ ("product_id", Ret (pd.Ints (py.range start_id end_id)));
    ("product_name", Ret (pd.Strs (map (fun i => "Product_" ++ py.str i) (py.range start_id end_id))));
    ("category", np.random_choice (len PRODUCT_CATEGORIES) actual_size);
    ("brand", drawn_comprehension actual_size);
    ("price", np.random_exponential actual_size);
    ("cost", np_multiply (np.random_exponential actual_size) (np.random_uniform actual_size));
    ("weight", np.random_exponential actual_size);
    ("dimensions", drawn_comprehension actual_size);
    ("description", generate_fake_data "description" actual_size);
    ("supplier_id", np.random_choice (len (supplier_ids self)) actual_size);
    ("created_date", pd.date_range actual_size);
    ("is_active", np.random_choice (len [true; false]) actual_size) ].

Definition generate_suppliers_chunk (self : DataGenerator) (chunk_id chunk_size : Z)
  : outcome pd.DataFrame :=
let start_id := chunk_id * chunk_size + 1 in
let end_id := Z.min (start_id + chunk_size) (num_suppliers self + 1) in
let actual_size := end_id - start_id in
pd.DataFrame_
  [ ("supplier_id", Ret (pd.Ints (py.range start_id end_id)));
    ("supplier_name", Ret (pd.Strs (map (fun i => "Supplier_" ++ py.str i) (py.range start_id end_id))));
    ("contact_name", generate_fake_data "name" actual_size);
    ("email", generate_fake_data "email" actual_size);
    ("phone", generate_fake_data "phone" actual_size);
    ("address", generate_fake_data "address" actual_size);
    ("country", np.random_choice (len COUNTRIES) actual_size);
    ("region", np.random_choice (len REGIONS) actual_size);
    ("rating", np.random_uniform actual_size);
    ("established_date", pd.date_range actual_size);
    ("is_verified", np.random_choice (len [true; false]) actual_size) ].

Definition generate_orders_chunk (self : DataGenerator) (chunk_id chunk_size : Z)
  : outcome pd.DataFrame :=
let start_id := chunk_id * chunk_size + 1 in
let end_id := Z.min (start_id + chunk_size) (num_orders self + 1) in
let actual_size := end_id - start_id in
pd.DataFrame_
  [ ("order_id", Ret (pd.Ints (py.range start_id end_id)));
    ("customer_id", np.random_choice (len (customer_ids self)) actual_size);
    ("order_date", pd.date_range actual_size);
    ("ship_date", pd.date_range actual_size);
    ("delivery_date", pd.date_range actual_size);
    ("order_status", np.random_choice (len ORDER_STATUSES) actual_size);
    ("payment_method", np.random_choice (len PAYMENT_METHODS) actual_size);
    ("total_amount", np.random_exponential actual_size);
    ("tax_amount", np.random_exponential actual_size);
    ("shipping_amount", np.random_exponential actual_size);
    ("discount_amount", np.random_exponential actual_size);
    ("country", np.random_choice (len COUNTRIES) actual_size);
    ("region", np.random_choice (len REGIONS) actual_size) ].

Definition generate_lineitem_chunk (self : DataGenerator) (chunk_id chunk_size : Z)
  : outcome pd.DataFrame :=
let actual_size := chunk_size in
pd.DataFrame_
  [ ("lineitem_id",
     Ret (pd.Ints (py.range (chunk_id * chunk_size + 1) (chunk_id * chunk_size + actual_size + 1))));
    ("order_id", np.random_choice (len (order_ids self)) actual_size);
    ("product_id", np.random_choice (len (product_ids self)) actual_size);
    ("quantity", np.random_randint actual_size);
    ("unit_price", np.random_exponential actual_size);
    ("discount", np.random_uniform actual_size);
    ("tax", np.random_uniform actual_size);
    ("extended_price", np_multiply (np.random_randint actual_size) (np.random_exponential actual_size));
    ("discount_amount", np_multiply (np.random_exponential actual_size) (np.random_uniform actual_size));
    ("tax_amount", np_multiply (np.random_exponential actual_size) (np.random_uniform actual_size));
    ("net_amount", np_multiply (np.random_exponential actual_size) (np.random_uniform actual_size));
    ("line_status", np.random_choice (len ["pending"; "confirmed"; "shipped"; "delivered"]) actual_size);
    ("ship_date", pd.date_range actual_size);
    ("comment", generate_fake_data "comment" actual_size) ].

Definition generate_inventory_chunk (self : DataGenerator) (chunk_id chunk_size : Z)
  : outcome pd.DataFrame :=
let actual_size := chunk_size in
pd.DataFrame_
  [ ("inventory_id",
     Ret (pd.Ints (py.range (chunk_id * chunk_size + 1) (chunk_id * chunk_size + actual_size + 1))));
    ("product_id", np.random_choice (len (product_ids self)) actual_size);
    ("supplier_id", np.random_choice (len (supplier_ids self)) actual_size);
    ("warehouse_location", np.random_choice (len COUNTRIES) actual_size);
    ("quantity_on_hand", np.random_randint actual_size);
    ("quantity_allocated", np.random_randint actual_size);
    ("reorder_point", np.random_randint actual_size);
    ("reorder_quantity", np.random_randint actual_size);
    ("unit_cost", np.random_exponential actual_size);
    ("last_updated", pd.date_range actual_size) ].

Definition generate_events_chunk (self : DataGenerator) (chunk_id chunk_size : Z)
  : outcome pd.DataFrame :=
let actual_size := chunk_size in
let event_types :=
  ["page_view"; "click"; "purchase"; "add_to_cart"; "remove_from_cart"; "search"; "login"; "logout"] in
pd.DataFrame_
  [ ("event_id",
     Ret (pd.Ints (py.range (chunk_id * chunk_size + 1) (chunk_id * chunk_size + actual_size + 1))));
    ("customer_id", np.random_choice (len (customer_ids self)) actual_size);
    ("event_type", np.random_choice (len event_types) actual_size);
    ("event_timestamp", pd.date_range actual_size);
    ("page_url", drawn_comprehension actual_size);
    ("user_agent", drawn_comprehension actual_size);
    ("ip_address", drawn_comprehension actual_size);
    ("country", np.random_choice (len COUNTRIES) actual_size);
    ("device_type", np.random_choice (len ["desktop"; "mobile"; "tablet"]) actual_size);
    ("session_id", drawn_comprehension actual_size);
    ("product_id", np.random_choice (len (product_ids self) + 1) actual_size);
    ("search_query", drawn_comprehension actual_size) ].

Definition generate_funcs (self : DataGenerator)
  : list (string * (Z -> Z -> outcome pd.DataFrame)) :=
[ ("customers", generate_customers_chunk self);
  ("products", generate_products_chunk self);
  ("suppliers", generate_suppliers_chunk self);
  ("orders", generate_orders_chunk self);
  ("lineitem", generate_lineitem_chunk self);
  ("inventory", generate_inventory_chunk self);
  ("events", generate_events_chunk self) ].

(** Calculate number of chunks needed. *)
Definition target_rows_of (target_size_gb : Q) : Z :=
let estimated_rows_per_gb := 1000000 in
py.int (target_size_gb * inject_Z estimated_rows_per_gb).

Definition num_chunks_of (target_size_gb : Q) : Z :=
let target_rows := target_rows_of target_size_gb in
(target_rows + CHUNK_SIZE - 1) / CHUNK_SIZE.

Section WithEnv.
Variable env : Env.
Local Open Scope py_scope.

(** Process a single chunk: generate data, save to parquet, upload to S3. *)
Definition process_chunk (self : DataGenerator) (table_name : string) (chunk_id chunk_size : Z)
  (generate_func : Z -> Z -> outcome pd.DataFrame) : Py bool :=
try_except
  (df <- lift (generate_func chunk_id chunk_size) ;;
   let filename := table_name ++ "_chunk_" ++ py.format_06d chunk_id ++ ".parquet" in
   let local_path := "/tmp/" ++ filename in
   call env (EToParquet df local_path) ;;
   let s3_key := s3_prefix self ++ "/" ++ table_name ++ "/" ++ filename in
   call env (EUploadFile local_path (s3_bucket self) s3_key) ;;
   call env (ERemove local_path) ;;
   ret true)
  (fun e =>
   print ("Error processing chunk " ++ py.str chunk_id ++ " for " ++ table_name ++ ": " ++ exn_str e) ;;
   ret false).

(** The loop that hands every chunk of the table to the pool. *)
Definition submit_chunks (self : DataGenerator) (table_name : string)
  (generate_func : Z -> Z -> outcome pd.DataFrame) (num_chunks : Z) : Py (list (outcome bool)) :=
for_each (py.range0 num_chunks)
  (fun chunk_id =>
     submit table_name chunk_id
       (process_chunk self table_name chunk_id CHUNK_SIZE generate_func)).

(** The loop over [as_completed(futures)].  It only counts, so the order in
    which the futures complete does not matter (see [monitor_Permutation]);
    they are taken in submission order. *)
Fixpoint monitor (futures : list (outcome bool)) (completed : Z) : Py Z :=
match futures with
| [] => ret completed
| future :: rest =>
    completed' <-
      try_except
        (result <- lift future ;;
         ret (if result : bool then completed + 1 else completed))
        (fun e => print ("Error processing chunk: " ++ exn_str e) ;; ret completed) ;;
    monitor rest completed'
end.

(** Generate and upload a complete table to S3.  Progress output is left
    out; the error reports of the handlers are kept. *)
Definition generate_and_upload_table (self : DataGenerator) (table_name : string)
  (target_size_gb : Q) : Py bool :=
let num_chunks := num_chunks_of target_size_gb in
generate_func <- lift (py.dict_item (generate_funcs self) table_name) ;;
futures <- submit_chunks self table_name generate_func num_chunks ;;
completed <- monitor futures 0 ;;
ret (completed =? num_chunks)%Z.

(** Generate all tables: the first table that fails ends the run. *)
Fixpoint generate_tables (self : DataGenerator) (target_size : Z) (tables : list (string * Q))
  : Py bool :=
match tables with
| [] => ret true
| (table_name, size_ratio) :: rest =>
    let table_size_gb := (inject_Z target_size * size_ratio)%Q in
    success <- generate_and_upload_table self table_name table_size_gb ;;
    if success : bool then generate_tables self target_size rest
    else (print ("Failed to generate " ++ table_name ++ " table") ;; ret false)
end.

Definition generate_all_tables (self : DataGenerator) (target_size : Z) : Py bool :=
generate_tables self target_size TABLE_SIZES.

End WithEnv.

End Benchmark.

(* ===================================================================== *)
(** ** generate_iceberg_tables.py *)
(* ===================================================================== *)

Module Iceberg.

Definition CHUNK_SIZE : Z := 500000.
Definition S3_BUCKET : string := "iceberg-data-bucket".
Definition S3_PREFIX : string := "iceberg-tables".

Record TableConfig : Type := {
  size_ratio : Q;
  partition_spec : list string;
  sort_order : list string;
  schema : list pa.Field
}.

Definition ICEBERG_TABLES : list (string * TableConfig) :=
[ ("customers",
   {| size_ratio := 5 # 100;
      partition_spec := ["country"; "registration_date"];
      sort_order := ["customer_id"];
      schema := pa.schema
        [ pa.field "customer_id" pa.int64;
          pa.field "customer_name" pa.string;
          pa.field "email" pa.string;
          pa.field "phone" pa.string;
          pa.field "address" pa.string;
          pa.field "country" pa.string;
          pa.field "region" pa.string;
          pa.field "registration_date" pa.date32;
          pa.field "credit_score" pa.int32;
          pa.field "lifetime_value" pa.float64;
          pa.field "is_premium" pa.bool_;
          pa.field "last_login" (pa.timestamp pa.us None);
          pa.field "created_at" (pa.timestamp pa.us None);
          pa.field "updated_at" (pa.timestamp pa.us None) ] |});
  ("products",
   {| size_ratio := 3 # 100;
      partition_spec := ["category"; "created_date"];
      sort_order := ["product_id"];
      schema := pa.schema
        [ pa.field "product_id" pa.int64;
          pa.field "product_name" pa.string;
          pa.field "category" pa.string;
          pa.field "brand" pa.string;
          pa.field "price" (pa.decimal128 10 2);
          pa.field "cost" (pa.decimal128 10 2);
          pa.field "weight" pa.float32;
          pa.field "dimensions" pa.string;
          pa.field "description" pa.string;
          pa.field "supplier_id" pa.int64;
          pa.field "created_date" pa.date32;
          pa.field "is_active" pa.bool_;
          pa.field "created_at" (pa.timestamp pa.us None);
          pa.field "updated_at" (pa.timestamp pa.us None) ] |});
  ("orders",
   {| size_ratio := 8 # 100;
      partition_spec := ["country"; "order_date"];
      sort_order := ["order_id"; "order_date"];
      schema := pa.schema
        [ pa.field "order_id" pa.int64;
          pa.field "customer_id" pa.int64;
          pa.field "order_date" pa.date32;
          pa.field "ship_date" pa.date32;
          pa.field "delivery_date" pa.date32;
          pa.field "order_status" pa.string;
          pa.field "payment_method" pa.string;
          pa.field "total_amount" (pa.decimal128 12 2);
          pa.field "tax_amount" (pa.decimal128 10 2);
          pa.field "shipping_amount" (pa.decimal128 8 2);
          pa.field "discount_amount" (pa.decimal128 8 2);
          pa.field "country" pa.string;
          pa.field "region" pa.string;
          pa.field "created_at" (pa.timestamp pa.us None);
          pa.field "updated_at" (pa.timestamp pa.us None) ] |});
  ("lineitem",
   {| size_ratio := 60 # 100;
      partition_spec := ["ship_date"];
      sort_order := ["order_id"; "lineitem_id"];
      schema := pa.schema
        [ pa.field "lineitem_id" pa.int64;
          pa.field "order_id" pa.int64;
          pa.field "product_id" pa.int64;
          pa.field "quantity" pa.int32;
          pa.field "unit_price" (pa.decimal128 10 2);
          pa.field "discount" pa.float32;
          pa.field "tax" pa.float32;
          pa.field "extended_price" (pa.decimal128 12 2);
          pa.field "discount_amount" (pa.decimal128 10 2);
          pa.field "tax_amount" (pa.decimal128 10 2);
          pa.field "net_amount" (pa.decimal128 12 2);
          pa.field "line_status" pa.string;
          pa.field "ship_date" pa.date32;
          pa.field "comment" pa.string;
          pa.field "created_at" (pa.timestamp pa.us None);
          pa.field "updated_at" (pa.timestamp pa.us None) ] |});
  ("events",
   {| size_ratio := 20 # 100;
      partition_spec := ["event_date"; "event_type"];
      sort_order := ["event_timestamp"; "customer_id"];
      schema := pa.schema
        [ pa.field "event_id" pa.int64;
          pa.field "customer_id" pa.int64;
          pa.field "event_type" pa.string;
          pa.field "event_timestamp" (pa.timestamp pa.us None);
          pa.field "event_date" pa.date32;
          pa.field "page_url" pa.string;
          pa.field "user_agent" pa.string;
          pa.field "ip_address" pa.string;
          pa.field "country" pa.string;
          pa.field "device_type" pa.string;
          pa.field "session_id" pa.string;
          pa.field "product_id" pa.int64;
          pa.field "search_query" pa.string;
          pa.field "created_at" (pa.timestamp pa.us None) ] |});
  ("inventory",
   {| size_ratio := 2 # 100;
      partition_spec := ["warehouse_location"; "last_updated_date"];
      sort_order := ["product_id"; "supplier_id"];
      schema := pa.schema
        [ pa.field "inventory_id" pa.int64;
          pa.field "product_id" pa.int64;
          pa.field "supplier_id" pa.int64;
          pa.field "warehouse_location" pa.string;
          pa.field "quantity_on_hand" pa.int32;
          pa.field "quantity_allocated" pa.int32;
          pa.field "reorder_point" pa.int32;
          pa.field "reorder_quantity" pa.int32;
          pa.field "unit_cost" (pa.decimal128 10 2);
          pa.field "last_updated" (pa.timestamp pa.us None);
          pa.field "last_updated_date" pa.date32;
          pa.field "created_at" (pa.timestamp pa.us None) ] |});
  ("suppliers",
   {| size_ratio := 2 # 100;
      partition_spec := ["country"; "established_year"];
      sort_order := ["supplier_id"];
      schema := pa.schema
        [ pa.field "supplier_id" pa.int64;
          pa.field "supplier_name" pa.string;
          pa.field "contact_name" pa.string;
          pa.field "email" pa.string;
          pa.field "phone" pa.string;
          pa.field "address" pa.string;
          pa.field "country" pa.string;
          pa.field "region" pa.string;
          pa.field "rating" pa.float32;
          pa.field "established_date" pa.date32;
          pa.field "established_year" pa.int32;
          pa.field "is_verified" pa.bool_;
          pa.field "created_at" (pa.timestamp pa.us None);
          pa.field "updated_at" (pa.timestamp pa.us None) ] |}) ]%Q.

Definition COUNTRIES : list string :=
["US"; "CA"; "GB"; "DE"; "FR"; "IT"; "ES"; "AU"; "JP"; "KR"; "CN"; "IN"; "BR"; "MX"].
Definition REGIONS : list string :=
["North America"; "Europe"; "Asia Pacific"; "South America"; "Middle East"; "Africa"].
Definition PRODUCT_CATEGORIES : list string :=
["Electronics"; "Clothing"; "Books"; "Home & Garden"; "Sports"; "Automotive"; "Beauty"; "Toys"].
Definition ORDER_STATUSES : list string :=
["pending"; "processing"; "shipped"; "delivered"; "cancelled"; "returned"].
Definition PAYMENT_METHODS : list string :=
["credit_card"; "debit_card"; "paypal"; "bank_transfer"; "cash_on_delivery"].
Definition EVENT_TYPES : list string :=
["page_view"; "click"; "purchase"; "add_to_cart"; "remove_from_cart"; "search"; "login"; "logout"].

(** Convert PyArrow type to Iceberg type. *)
Definition _convert_arrow_type_to_iceberg (arrow_type : pa.DataType) : outcome types.IcebergType :=
if pa.types.is_int64 arrow_type then Ret types.LongType
else if pa.types.is_int32 arrow_type then Ret types.IntegerType
else if pa.types.is_string arrow_type then Ret types.StringType
else if pa.types.is_boolean arrow_type then Ret types.BooleanType
else if pa.types.is_float32 arrow_type then Ret types.FloatType
else if pa.types.is_float64 arrow_type then Ret types.DoubleType
else if pa.types.is_date32 arrow_type then Ret types.DateType
else if pa.types.is_timestamp arrow_type then Ret types.TimestampType
else if pa.types.is_decimal arrow_type then
  let? p := pa.precision arrow_type in
  let? sc := pa.scale arrow_type in
  Ret (types.DecimalType p sc)
else Ret types.StringType.

(** What [__init__] has assigned when it calls [_setup_catalog]. *)
Record Settings : Type := {
  catalog_type : string;
  catalog_config : list (string * option string);
  s3_bucket : string;
  s3_prefix : string;
  target_size_gb : Z;
  num_workers : Z
}.

(** The handle [load_catalog] returns. *)
Record Catalog : Type := {
  catalog_name : string;
  properties : list (string * option string)
}.

(** The attributes of an [IcebergTableGenerator] object. *)
Record IcebergTableGenerator : Type := {
  settings : Settings;
  catalog : Catalog;
  num_customers : Z;
  num_products : Z;
  num_suppliers : Z;
  num_orders : Z
}.

Definition customer_ids (self : IcebergTableGenerator) : list Z := py.range 1 (num_customers self + 1).
Definition product_ids (self : IcebergTableGenerator) : list Z := py.range 1 (num_products self + 1).
Definition supplier_ids (self : IcebergTableGenerator) : list Z := py.range 1 (num_suppliers self + 1).
Definition order_ids (self : IcebergTableGenerator) : list Z := py.range 1 (num_orders self + 1).

(** The handle of an Iceberg table in the catalog. *)
Record Table : Type := { identifier : string }.

(** [d.get(k, default)] where the stored value may itself be [None]. *)
Definition config_get (d : list (string * option string)) (k : string) (default : option string)
  : option string :=
py.dict_get d k default.

(** [{k: v for k, v in d.items() if v is not None}] *)
Definition drop_none (d : list (string * option string)) : list (string * option string) :=
filter (fun kv => match snd kv with Some _ => true | None => false end) d.

Definition warehouse (self : Settings) : string :=
"s3://" ++ s3_bucket self ++ "/" ++ s3_prefix self ++ "/".

(** The Iceberg schema of a table: field ids count from 1 in schema order. *)
Fixpoint convert_fields (fields : list (Z * pa.Field)) : outcome (list schema.NestedField) :=
match fields with
| [] => Ret []
| (i, field) :: rest =>
    let? ty := _convert_arrow_type_to_iceberg (pa.type field) in
    let? fs := convert_fields rest in
    Ret ({| schema.field_id := i + 1;
            schema.name := pa.name field;
            schema.field_type := ty;
            schema.required := negb (pa.nullable field) |} :: fs)
end.

Definition iceberg_schema_of (arrow_schema : list pa.Field) : outcome schema.Schema :=
let? fs := convert_fields (py.enumerate arrow_schema) in
Ret {| schema.fields := fs |}.

(** [next(f.field_id for f in iceberg_schema.fields if f.name == partition_col)] *)
Definition source_id_of (iceberg_schema : schema.Schema) (partition_col : string) : outcome Z :=
match find (fun f => schema.name f =? partition_col) (schema.fields iceberg_schema) with
| Some f => Ret (schema.field_id f)
| None => Raise StopIteration
end.

Definition IDENTITY_COLUMNS : list string :=
["country"; "region"; "category"; "event_type"; "warehouse_location"].

(** One turn of the loop that creates the partition spec. *)
Definition partition_step (iceberg_schema : schema.Schema) (i : Z) (partition_col : string)
  (partition_fields : list PartitionField) : outcome (list PartitionField) :=
if py.endswith partition_col "_date" then
  (* Daily partitioning for date columns *)
  let? sid := source_id_of iceberg_schema partition_col in
  Ret (partition_fields ++
       [ {| source_id := sid; field_id := 1000 + i; transform := Some days;
            name := partition_col ++ "_day" |} ])%list
else if py.str_in partition_col IDENTITY_COLUMNS then
  (* Identity partitioning for categorical columns *)
  let? sid := source_id_of iceberg_schema partition_col in
  Ret (partition_fields ++
       [ {| source_id := sid; field_id := 1000 + i; transform := None;
            name := partition_col |} ])%list
else if partition_col =? "customer_id" then
  (* Bucket partitioning for high cardinality columns *)
  let? sid := source_id_of iceberg_schema partition_col in
  Ret (partition_fields ++
       [ {| source_id := sid; field_id := 1000 + i; transform := Some (bucket 100);
            name := partition_col ++ "_bucket" |} ])%list
else Ret partition_fields.

Fixpoint partition_loop (iceberg_schema : schema.Schema) (cols : list (Z * string))
  (partition_fields : list PartitionField) : outcome (list PartitionField) :=
match cols with
| [] => Ret partition_fields
| (i, partition_col) :: rest =>
    let? partition_fields' := partition_step iceberg_schema i partition_col partition_fields in
    partition_loop iceberg_schema rest partition_fields'
end.

(** The schema and the partition spec [create_iceberg_table] builds before
    it talks to the catalog. *)
Definition build_partition_spec (table_config : TableConfig) : outcome (schema.Schema * PartitionSpec) :=
let arrow_schema := schema table_config in
let? iceberg_schema := iceberg_schema_of arrow_schema in
let? partition_fields :=
  partition_loop iceberg_schema (py.enumerate (partition_spec table_config)) [] in
Ret (iceberg_schema, {| spec_fields := partition_fields |}).

Section WithEnv.
Variable env : Env.
Local Open Scope py_scope.

(** [load_catalog(name, **config)] *)
Definition load_catalog (name : string) (config : list (string * option string)) : Py Catalog :=
call env (ELoadCatalog name config) ;;
ret {| catalog_name := name; properties := config |}.

(** Setup Hive catalog for Trino. *)
Definition _setup_hive_catalog (self : Settings) : Py Catalog :=
let config :=
  [ ("type", Some "hive");
    ("uri", config_get (catalog_config self) "hive_metastore_uri" (Some "thrift://localhost:9083"));
    ("warehouse", Some (warehouse self));
    ("s3.endpoint", config_get (catalog_config self) "s3_endpoint" None);
    ("s3.access-key-id", config_get (catalog_config self) "aws_access_key_id" None);
    ("s3.secret-access-key", config_get (catalog_config self) "aws_secret_access_key" None);
    ("s3.region", config_get (catalog_config self) "aws_region" (Some "us-east-1")) ] in
let config := drop_none config in
load_catalog "hive_catalog" config.

(** Setup Databricks Unity Catalog for Firebolt. *)
Definition _setup_databricks_catalog (self : Settings) : Py Catalog :=
if negb (DATABRICKS_AVAILABLE env) then
  raise (ImportError "Databricks SDK not available. Install with: pip install databricks-sdk")
else
  let config :=
    [ ("type", Some "rest");
      ("uri", config_get (catalog_config self) "catalog_uri" None);
      ("credential", config_get (catalog_config self) "credential" None);
      ("warehouse", Some (warehouse self)) ] in
  load_catalog "unity_catalog" config.

(** Setup the appropriate catalog based on type. *)
Definition _setup_catalog (self : Settings) : Py Catalog :=
if catalog_type self =? "hive" then _setup_hive_catalog self
else if catalog_type self =? "databricks" then _setup_databricks_catalog self
else raise (ValueError ("Unsupported catalog type: " ++ catalog_type self)).

(** [IcebergTableGenerator(...)]: the constructor, with [setup_lookup_data].
    Creating the S3 client touches nothing the script observes. *)
Definition __init__ (catalog_type : string) (catalog_config : list (string * option string))
  (s3_bucket s3_prefix : string) (target_size_gb : Z) (num_workers : option Z)
  : Py IcebergTableGenerator :=
let self :=
  {| catalog_type := catalog_type;
     catalog_config := catalog_config;
     s3_bucket := s3_bucket;
     s3_prefix := s3_prefix;
     target_size_gb := target_size_gb;
     num_workers := match num_workers with Some n => n | None => cpu_count env end |} in
catalog <- _setup_catalog self ;;
ret {| settings := self;
       catalog := catalog;
       num_customers := 10000000;
       num_products := 1000000;
       num_suppliers := 100000;
       num_orders := 100000000 |}.

(** Create database/schema if it doesn't exist.  Every pyiceberg catalog
    has [create_namespace], so the [hasattr] test is taken. *)
Definition create_database_if_not_exists (self : IcebergTableGenerator) (database_name : string)
  : Py unit :=
try_except
  (call env (ECreateNamespace database_name) ;;
   print ("Created namespace: " ++ database_name))
  (fun e =>
   print ("Namespace " ++ database_name ++ " might already exist or creation failed: "
          ++ exn_str e)).


(** Create an Iceberg table with optimized schema and partitioning. *)
Definition create_iceberg_table (self : IcebergTableGenerator) (table_name database_name : string)
  : Py Table :=
table_config <- lift (py.dict_item ICEBERG_TABLES table_name) ;;
built <- lift (build_partition_spec table_config) ;;
let iceberg_schema := fst built in
let partition_spec := snd built in
let table_identifier := database_name ++ "." ++ table_name in
try_except
  (call env (ECreateTable table_identifier iceberg_schema partition_spec
               ("s3://" ++ s3_bucket (settings self) ++ "/" ++ s3_prefix (settings self) ++ "/"
                ++ database_name ++ "/" ++ table_name ++ "/")) ;;
   print ("Created Iceberg table: " ++ table_identifier) ;;
   ret {| identifier := table_identifier |})
  (fun e =>
   print ("Error creating table " ++ table_identifier ++ ": " ++ exn_str e) ;;
   try_except
     (call env (ELoadTable table_identifier) ;;
      print ("Loaded existing table: " ++ table_identifier) ;;
      ret {| identifier := table_identifier |})
     (fun load_error =>
      print ("Error loading existing table: " ++ exn_str load_error) ;;
      raise e)).

(** Generate fake data based on type: every known kind is random. *)
Definition generate_fake_data (data_type : string) (size : Z) : outcome pd.Column :=
if py.str_in data_type
     ["name"; "email"; "phone"; "address"; "description"; "comment"; "brand";
      "supplier_name"; "product_name"]
then drawn_comprehension size
else Ret (pd.Strs (map (fun i => "data_" ++ py.str i) (py.range0 size))).

(** [[current_time] * n] *)
Definition repeated (n : Z) : outcome pd.Column := Ret (pd.Drawn (Z.max 0 n)).

(** [[f(d) for d in column]] *)
Definition mapped (c : pd.Column) : outcome pd.Column := Ret (pd.Drawn (pd.col_len c)).

Definition _generate_customers_data (self : IcebergTableGenerator) (chunk_id chunk_size : Z)
  : outcome pd.DataFrame :=
let start_id := chunk_id * chunk_size + 1 in
let actual_size := Z.min chunk_size (num_customers self - chunk_id * chunk_size) in
if (actual_size <=? 0)%Z then Ret pd.DataFrame_empty
else pd.DataFrame_
  [ ("customer_id", Ret (pd.Ints (py.range start_id (start_id + actual_size))));
    ("customer_name", generate_fake_data "name" actual_size);
    ("email", generate_fake_data "email" actual_size);
    ("phone", generate_fake_data "phone" actual_size);
    ("address", generate_fake_data "address" actual_size);
    ("country", np.random_choice (len COUNTRIES) actual_size);
    ("region", np.random_choice (len REGIONS) actual_size);
    ("registration_date", pd.date_range actual_size);
    ("credit_score", np.random_normal actual_size);
    ("lifetime_value", np.random_exponential actual_size);
    ("is_premium", np.random_choice (len [true; false]) actual_size);
    ("last_login", pd.date_range actual_size);
    ("created_at", repeated actual_size);
    ("updated_at", repeated actual_size) ].

Definition _generate_products_data (self : IcebergTableGenerator) (chunk_id chunk_size : Z)
  : outcome pd.DataFrame :=
let start_id := chunk_id * chunk_size + 1 in
let actual_size := Z.min chunk_size (num_products self - chunk_id * chunk_size) in
if (actual_size <=? 0)%Z then Ret pd.DataFrame_empty
else pd.DataFrame_
  [ ("product_id", Ret (pd.Ints (py.range start_id (start_id + actual_size))));
    ("product_name", generate_fake_data "product_name" actual_size);
    ("category", np.random_choice (len PRODUCT_CATEGORIES) actual_size);
    ("brand", generate_fake_data "brand" actual_size);
    ("price", np.random_exponential actual_size);
    ("cost", np_multiply (np.random_exponential actual_size) (np.random_uniform actual_size));
    ("weight", np.random_exponential actual_size);
    ("dimensions", drawn_comprehension actual_size);
    ("description", generate_fake_data "description" actual_size);
    ("supplier_id", np.random_choice (len (supplier_ids self)) actual_size);
    ("created_date", pd.date_range actual_size);
    ("is_active", np.random_choice (len [true; false]) actual_size);
    ("created_at", repeated actual_size);
    ("updated_at", repeated actual_size) ].

Definition _generate_suppliers_data (self : IcebergTableGenerator) (chunk_id chunk_size : Z)
  : outcome pd.DataFrame :=
let start_id := chunk_id * chunk_size + 1 in
let actual_size := Z.min chunk_size (num_suppliers self - chunk_id * chunk_size) in
if (actual_size <=? 0)%Z then Ret pd.DataFrame_empty
else
  let? established_dates := pd.date_range actual_size in
  pd.DataFrame_
  [ ("supplier_id", Ret (pd.Ints (py.range start_id (start_id + actual_size))));
    ("supplier_name", generate_fake_data "supplier_name" actual_size);
    ("contact_name", generate_fake_data "name" actual_size);
    ("email", generate_fake_data "email" actual_size);
    ("phone", generate_fake_data "phone" actual_size);
    ("address", generate_fake_data "address" actual_size);
    ("country", np.random_choice (len COUNTRIES) actual_size);
    ("region", np.random_choice (len REGIONS) actual_size);
    ("rating", np.random_uniform actual_size);
    ("established_date", Ret established_dates);
    ("established_year", mapped established_dates);
    ("is_verified", np.random_choice (len [true; false]) actual_size);
    ("created_at", repeated actual_size);
    ("updated_at", repeated actual_size) ].

Definition _generate_orders_data (self : IcebergTableGenerator) (chunk_id chunk_size : Z)
  : outcome pd.DataFrame :=
let actual_size := chunk_size in
let start_id := chunk_id * chunk_size + 1 in
let? order_dates := pd.date_range actual_size in
pd.DataFrame_
  [ ("order_id", Ret (pd.Ints (py.range start_id (start_id + actual_size))));
    ("customer_id", np.random_choice (len (customer_ids self)) actual_size);
    ("order_date", Ret order_dates);
    ("ship_date", mapped order_dates);
    ("delivery_date", mapped order_dates);
    ("order_status", np.random_choice (len ORDER_STATUSES) actual_size);
    ("payment_method", np.random_choice (len PAYMENT_METHODS) actual_size);
    ("total_amount", np.random_exponential actual_size);
    ("tax_amount", np.random_exponential actual_size);
    ("shipping_amount", np.random_exponential actual_size);
    ("discount_amount", np.random_exponential actual_size);
    ("country", np.random_choice (len COUNTRIES) actual_size);
    ("region", np.random_choice (len REGIONS) actual_size);
    ("created_at", repeated actual_size);
    ("updated_at", repeated actual_size) ].

Definition _generate_lineitem_data (self : IcebergTableGenerator) (chunk_id chunk_size : Z)
  : outcome pd.DataFrame :=
let actual_size := chunk_size in
let start_id := chunk_id * chunk_size + 1 in
let? ship_dates := pd.date_range actual_size in
let? quantities := np.random_randint actual_size in
let? unit_prices := np.random_exponential actual_size in
pd.DataFrame_
  [ ("lineitem_id", Ret (pd.Ints (py.range start_id (start_id + actual_size))));
    ("order_id", np.random_choice (len (order_ids self)) actual_size);
    ("product_id", np.random_choice (len (product_ids self)) actual_size);
    ("quantity", Ret quantities);
    ("unit_price", Ret unit_prices);
    ("discount", np.random_uniform actual_size);
    ("tax", np.random_uniform actual_size);
    ("extended_price", np_multiply (Ret quantities) (Ret unit_prices));
    ("discount_amount",
     np_multiply (np_multiply (Ret quantities) (Ret unit_prices)) (np.random_uniform actual_size));
    ("tax_amount",
     np_multiply (np_multiply (Ret quantities) (Ret unit_prices)) (np.random_uniform actual_size));
    ("net_amount",
     np_multiply (np_multiply (Ret quantities) (Ret unit_prices)) (np.random_uniform actual_size));
    ("line_status", np.random_choice (len ["pending"; "confirmed"; "shipped"; "delivered"]) actual_size);
    ("ship_date", Ret ship_dates);
    ("comment", generate_fake_data "comment" actual_size);
    ("created_at", repeated actual_size);
    ("updated_at", repeated actual_size) ].

Definition _generate_inventory_data (self : IcebergTableGenerator) (chunk_id chunk_size : Z)
  : outcome pd.DataFrame :=
let actual_size := chunk_size in
let start_id := chunk_id * chunk_size + 1 in
let? last_updated := pd.date_range actual_size in
pd.DataFrame_
  [ ("inventory_id", Ret (pd.Ints (py.range start_id (start_id + actual_size))));
    ("product_id", np.random_choice (len (product_ids self)) actual_size);
    ("supplier_id", np.random_choice (len (supplier_ids self)) actual_size);
    ("warehouse_location", np.random_choice (len COUNTRIES) actual_size);
    ("quantity_on_hand", np.random_randint actual_size);
    ("quantity_allocated", np.random_randint actual_size);
    ("reorder_point", np.random_randint actual_size);
    ("reorder_quantity", np.random_randint actual_size);
    ("unit_cost", np.random_exponential actual_size);
    ("last_updated", Ret last_updated);
    ("last_updated_date", mapped last_updated);
    ("created_at", repeated actual_size) ].

Definition _generate_events_data (self : IcebergTableGenerator) (chunk_id chunk_size : Z)
  : outcome pd.DataFrame :=
let actual_size := chunk_size in
let start_id := chunk_id * chunk_size + 1 in
let? event_timestamps := pd.date_range actual_size in
pd.DataFrame_
  [ ("event_id", Ret (pd.Ints (py.range start_id (start_id + actual_size))));
    ("customer_id", np.random_choice (len (customer_ids self)) actual_size);
    ("event_type", np.random_choice (len EVENT_TYPES) actual_size);
    ("event_timestamp", Ret event_timestamps);
    ("event_date", mapped event_timestamps);
    ("page_url", drawn_comprehension actual_size);
    ("user_agent", drawn_comprehension actual_size);
    ("ip_address", drawn_comprehension actual_size);
    ("country", np.random_choice (len COUNTRIES) actual_size);
    ("device_type", np.random_choice (len ["desktop"; "mobile"; "tablet"]) actual_size);
    ("session_id", drawn_comprehension actual_size);
    ("product_id", np.random_choice (len (product_ids self) + 1) actual_size);
    ("search_query", drawn_comprehension actual_size);
    ("created_at", repeated actual_size) ].

(** Generate data for a specific table. *)
Definition generate_table_data (self : IcebergTableGenerator) (table_name : string)
  (chunk_id chunk_size : Z) : outcome pd.DataFrame :=
if table_name =? "customers" then _generate_customers_data self chunk_id chunk_size
else if table_name =? "products" then _generate_products_data self chunk_id chunk_size
else if table_name =? "suppliers" then _generate_suppliers_data self chunk_id chunk_size
else if table_name =? "orders" then _generate_orders_data self chunk_id chunk_size
else if table_name =? "lineitem" then _generate_lineitem_data self chunk_id chunk_size
else if table_name =? "inventory" then _generate_inventory_data self chunk_id chunk_size
else if table_name =? "events" then _generate_events_data self chunk_id chunk_size
else Raise (ValueError ("Unknown table: " ++ table_name)).

(** Write DataFrame to Iceberg table. *)
Definition write_to_iceberg_table (table : Table) (df : pd.DataFrame) : Py bool :=
try_except
  (call env (EFromPandas df) ;;
   call env (EAppend (identifier table) df) ;;
   ret true)
  (fun e => print ("Error writing to Iceberg table: " ++ exn_str e) ;; ret false).

(** Process a single chunk for a table. *)
Definition process_table_chunk (self : IcebergTableGenerator) (table_name : string)
  (table : Table) (chunk_id chunk_size : Z) : Py bool :=
try_except
  (df <- lift (generate_table_data self table_name chunk_id chunk_size) ;;
   if pd.empty df then ret true
   else
     success <- write_to_iceberg_table table df ;;
     (if success : bool
      then print ("Successfully wrote chunk " ++ py.str chunk_id ++ " for " ++ table_name
                  ++ " (" ++ py.str (pd.len df) ++ " rows)")
      else ret tt) ;;
     ret success)
  (fun e =>
   print ("Error processing chunk " ++ py.str chunk_id ++ " for " ++ table_name ++ ": " ++ exn_str e) ;;
   ret false).

(** The loop over [as_completed(futures)]; see [Benchmark.monitor]. *)
Fixpoint monitor (futures : list (outcome bool)) (completed : Z) : Py Z :=
match futures with
| [] => ret completed
| future :: rest =>
    completed' <-
      try_except
        (result <- lift future ;;
         ret (if result : bool then completed + 1 else completed))
        (fun e => print ("Error in chunk processing: " ++ exn_str e) ;; ret completed) ;;
    monitor rest completed'
end.

(** [x > y] on numbers. *)
Definition Qgtb (x y : Q) : bool := negb (Qle_bool x y).

(** Estimate number of chunks needed. *)
Definition target_rows_of (target_size_gb : Q) : Z :=
let estimated_rows_per_gb := 1000000 in
py.int (target_size_gb * inject_Z estimated_rows_per_gb).

Definition num_chunks_of (target_size_gb : Q) : Z :=
let target_rows := target_rows_of target_size_gb in
Z.max 1 ((target_rows + CHUNK_SIZE - 1) / CHUNK_SIZE).

(** Calculate target size for this table. *)
Definition table_size_gb (self : IcebergTableGenerator) (table_config : TableConfig) : Q :=
(inject_Z (target_size_gb (settings self)) * size_ratio table_config)%Q.

(** The loop that hands every chunk of the table to the pool. *)
Definition submit_chunks (self : IcebergTableGenerator) (table_name : string) (table : Table)
  (num_chunks : Z) : Py (list (outcome bool)) :=
for_each (py.range0 num_chunks)
  (fun chunk_id =>
     submit table_name chunk_id
       (process_table_chunk self table_name table chunk_id CHUNK_SIZE)).

(** Generate complete Iceberg table.  Progress output is left out; the
    error reports of the handlers are kept. *)
Definition generate_iceberg_table (self : IcebergTableGenerator) (table_name database_name : string)
  : Py bool :=
table_config <- lift (py.dict_item ICEBERG_TABLES table_name) ;;
let num_chunks := num_chunks_of (table_size_gb self table_config) in
table <- create_iceberg_table self table_name database_name ;;
futures <- submit_chunks self table_name table num_chunks ;;
completed <- monitor futures 0 ;;
let success_rate : Q :=
  if (num_chunks >? 0)%Z then (inject_Z completed / inject_Z num_chunks)%Q else 0%Q in
try_except
  (call env (ETableInfo (identifier table)))
  (fun e => print ("Could not get table info: " ++ exn_str e)) ;;
ret (Qgtb success_rate (8 # 10)).

(** Generate all Iceberg tables: a table that fails is reported and the
    run goes on with the next one. *)
Fixpoint generate_tables (self : IcebergTableGenerator) (database_name : string)
  (tables : list string) (successful_tables : Z) : Py Z :=
match tables with
| [] => ret successful_tables
| table_name :: rest =>
    match py.dict_find ICEBERG_TABLES table_name with
    | None =>
        print ("Unknown table: " ++ table_name) ;;
        generate_tables self database_name rest successful_tables
    | Some _ =>
        success <- generate_iceberg_table self table_name database_name ;;
        if success : bool
        then generate_tables self database_name rest (successful_tables + 1)
        else (print ("Failed to generate table: " ++ table_name) ;;
              generate_tables self database_name rest successful_tables)
    end
end.

Definition generate_all_tables (self : IcebergTableGenerator) (database_name : string)
  (tables : option (list string)) : Py bool :=
let tables_to_generate :=
  match tables with
  | Some (t :: ts) => t :: ts
  | _ => py.keys ICEBERG_TABLES
  end in
create_database_if_not_exists self database_name ;;
successful_tables <- generate_tables self database_name tables_to_generate 0 ;;
ret (successful_tables =? len tables_to_generate)%Z.

End WithEnv.

End Iceberg.

(* ===================================================================== *)
(** ** Specification-side definitions *)
(* ===================================================================== *)

(** The type mapping as a table, the way the specification words it: one
    row per mapped Arrow type, and [StringType] for everything else. *)
Definition type_mapping_table (t : pa.DataType) : types.IcebergType :=
match t with
| pa.int64 => types.LongType
| pa.int32 => types.IntegerType
| pa.string => types.StringType
| pa.bool_ => types.BooleanType
| pa.float32 => types.FloatType
| pa.float64 => types.DoubleType
| pa.date32 => types.DateType
| pa.timestamp _ _ => types.TimestampType
| pa.decimal128 p sc => types.DecimalType p sc
| pa.decimal256 p sc => types.DecimalType p sc
| _ => types.StringType
end.

(** A column of the partition spec matches one of the selection rules. *)
Definition selected (partition_col : string) : bool :=
py.endswith partition_col "_date"
|| py.str_in partition_col Iceberg.IDENTITY_COLUMNS
|| (partition_col =? "customer_id").


(** The object the constructor returns once the catalog is set up. *)
Definition generator_with (self : Iceberg.Settings) (catalog : Iceberg.Catalog)
  : Iceberg.IcebergTableGenerator :=
{| Iceberg.settings := self;
   Iceberg.catalog := catalog;
   Iceberg.num_customers := 10000000;
   Iceberg.num_products := 1000000;
   Iceberg.num_suppliers := 100000;
   Iceberg.num_orders := 100000000 |}.

(** Sample environments.  In [quiet_env] every library call succeeds and
    the Databricks SDK is absent. *)
Definition quiet_env : Env :=
{| DATABRICKS_AVAILABLE := false; cpu_count := 8; fails := fun _ _ => None |}.

(** In [flaky_env] the upload of every file whose name ends in
    [1.parquet] fails, as does every append to an Iceberg table. *)
Definition flaky_env : Env :=
{| DATABRICKS_AVAILABLE := true;
   cpu_count := 8;
   fails := fun _ ev =>
     match ev with
     | EUploadFile local_path _ _ =>
         if py.endswith local_path "1.parquet"
         then Some (LibraryError "S3 upload failed") else None
     | EAppend _ _ => Some (LibraryError "commit failed")
     | _ => None
     end |}.


(** The customer identifiers a generated chunk carries (none when the
    frame is empty). *)
Definition customer_ids_of (chunk : outcome pd.DataFrame) : list Z :=
match chunk with
| Ret df =>
    match pd.column df "customer_id" with
    | Some (pd.Ints ids) => ids
    | _ => []
    end
| Raise _ => []
end.

(** A dictionary entry evaluates to a column of [n] values. *)
Definition column_ok (n : Z) (entry : string * outcome pd.Column) : Prop :=
exists c, snd entry = Ret c /\ pd.col_len c = n.


(** Small generator objects, for running the models on short chunks. *)
Definition small_generator : Benchmark.DataGenerator :=
{| Benchmark.s3_bucket := "bucket";
   Benchmark.s3_prefix := "prefix";
   Benchmark.num_workers := 2;
   Benchmark.num_customers := 10;
   Benchmark.num_products := 6;
   Benchmark.num_suppliers := 3;
   Benchmark.num_orders := 20 |}.

Definition small_iceberg_generator : Iceberg.IcebergTableGenerator :=
{| Iceberg.settings :=
     {| Iceberg.catalog_type := "hive";
        Iceberg.catalog_config := [];
        Iceberg.s3_bucket := "bucket";
        Iceberg.s3_prefix := "prefix";
        Iceberg.target_size_gb := 100;
        Iceberg.num_workers := 2 |};
   Iceberg.catalog := {| Iceberg.catalog_name := "hive_catalog"; Iceberg.properties := [] |};
   Iceberg.num_customers := 10;
   Iceberg.num_products := 6;
   Iceberg.num_suppliers := 3;
   Iceberg.num_orders := 20 |}.

(** The number of chunks that completed successfully: the futures whose
    result is [True]. *)
Fixpoint successes (futures : list (outcome bool)) : Z :=
match futures with
| [] => 0
| Ret true :: rest => 1 + successes rest
| _ :: rest => successes rest
end.

(** The chunks handed to the pool in a stretch of history, in order. *)
Fixpoint submitted (h : list Event) : list (string * Z) :=
match h with
| [] => []
| ESubmit table_name chunk_id :: rest => (table_name, chunk_id) :: submitted rest
| _ :: rest => submitted rest
end.

(** Calls into a library, as opposed to console output and pool
    bookkeeping. *)
Definition is_library_call (ev : Event) : bool :=
match ev with
| EPrint _ | ESubmit _ _ => false
| _ => true
end.

(** The exception of the first library call among [calls] that the
    environment makes raise, the calls being made one after the other
    from history [h]. *)
Fixpoint first_refused (env : Env) (h : list Event) (calls : list Event) : option exn :=
match calls with
| [] => None
| ev :: rest =>
    if is_library_call ev then
      match fails env h ev with
      | Some e => Some e
      | None => first_refused env (h ++ [ev]) rest
      end
    else first_refused env (h ++ [ev]) rest
end.

(** What a chunk task does from history [h]: it never raises; it makes no
    call twice and submits nothing; it returns [False] exactly when its
    generation or one of its library calls raised, and then its last act
    is to print a report ending in the text of that exception. *)
Definition reports_and_continues (env : Env) (generated : outcome pd.DataFrame)
  (task : Py bool) (h : list Event) : Prop :=
exists (b : bool) (acts : list Event),
  task h = (Ret b, (h ++ acts)%list) /\
  NoDup acts /\
  submitted acts = [] /\
  (forall e, generated = Raise e \/ first_refused env h acts = Some e ->
     b = false /\
     exists before text, acts = (before ++ [EPrint (text ++ ": " ++ exn_str e)])%list) /\
  (b = false -> exists e, generated = Raise e \/ first_refused env h acts = Some e).

(** Python's floats are IEEE binary64 numbers.  The scripts' float
    arithmetic is modelled by exact rationals; for the success test of the
    Iceberg script the two are compared below, on the binary64 operations
    of the standard library's executable specification. *)
Definition b64_of_Z (n : Z) : spec_float := binary_normalize 53 1024 n 0 false.

(** The literal [0.8]: the binary64 number nearest to four fifths. *)
Definition b64_0_8 : spec_float := S754_finite false 7205759403792794 (-53).

(** [completed / num_chunks > 0.8], in binary64. *)
Definition binary64_rate_above (completed num_chunks : Z) : bool :=
SFltb b64_0_8 (SFdiv 53 1024 (b64_of_Z completed) (b64_of_Z num_chunks)).

(** The binary64 test and the exact one give the same answer. *)
Definition binary64_agrees (completed num_chunks : Z) : bool :=
Bool.eqb (binary64_rate_above completed num_chunks) (4 * num_chunks <? 5 * completed)%Z.



(** The chunks one table of the Iceberg run hands to the pool; a name that
    is not configured has none. *)
Definition iceberg_table_chunks (self : Iceberg.IcebergTableGenerator) (table_name : string)
  : list (string * Z) :=
match py.dict_find Iceberg.ICEBERG_TABLES table_name with
| Some table_config =>
    map (pair table_name)
        (py.range0 (Iceberg.num_chunks_of (Iceberg.table_size_gb self table_config)))
| None => []
end.

(** The name is a key of [ICEBERG_TABLES]. *)
Definition configured (table_name : string) : Prop :=
exists table_config, py.dict_find Iceberg.ICEBERG_TABLES table_name = Some table_config.

(** [tables if tables else list(ICEBERG_TABLES.keys())] *)
Definition tables_listed (tables : option (list string)) : list string :=
match tables with
| Some (t :: ts) => t :: ts
| _ => py.keys Iceberg.ICEBERG_TABLES
end.

(** In [locked_catalog_env] the catalog refuses both to create and to load
    any table; everything else succeeds. *)
Definition locked_catalog_env : Env :=
{| DATABRICKS_AVAILABLE := true;
   cpu_count := 8;
   fails := fun _ ev =>
     match ev with
     | ECreateTable _ _ _ _ => Some (LibraryError "table already exists")
     | ELoadTable _ => Some (LibraryError "table cannot be read")
     | _ => None
     end |}.

(** [f's3://{bucket}/{prefix}/{database_name}/{table_name}/'] *)
Definition table_location (self : Iceberg.IcebergTableGenerator) (table_name database_name : string)
  : string :=
"s3://" ++ Iceberg.s3_bucket (Iceberg.settings self) ++ "/"
  ++ Iceberg.s3_prefix (Iceberg.settings self) ++ "/" ++ database_name ++ "/" ++ table_name ++ "/".

(** A table configuration whose partition spec names a date column the
    schema does not have, next to one it has and one no rule selects. *)
Definition misconfigured_table : Iceberg.TableConfig :=
{| Iceberg.size_ratio := 1 # 100;
   Iceberg.partition_spec := ["region"; "shipped_on"; "return_date"];
   Iceberg.sort_order := ["return_id"];
   Iceberg.schema := pa.schema
     [ pa.field "return_id" pa.int64;
       pa.field "region" pa.string;
       pa.field "shipped_on" pa.date32 ] |}.

(** The local file and the S3 key of a chunk, as [process_chunk] forms
    them. *)
Definition chunk_local_path (table_name : string) (chunk_id : Z) : string :=
"/tmp/" ++ (table_name ++ "_chunk_" ++ py.format_06d chunk_id ++ ".parquet").

Definition chunk_s3_key (self : Benchmark.DataGenerator) (table_name : string) (chunk_id : Z)
  : string :=
Benchmark.s3_prefix self ++ "/" ++ table_name ++ "/"
  ++ (table_name ++ "_chunk_" ++ py.format_06d chunk_id ++ ".parquet").

(** What an act of the chunk [chunk_id] of a table may be: console output,
    or a call on the chunk's own file and key. *)
Definition own_file_act (self : Benchmark.DataGenerator) (table_name : string) (chunk_id : Z)
  (ev : Event) : Prop :=
match ev with
| EPrint _ => True
| EToParquet _ local_path => local_path = chunk_local_path table_name chunk_id
| EUploadFile local_path to_bucket key =>
    local_path = chunk_local_path table_name chunk_id /\
    to_bucket = Benchmark.s3_bucket self /\
    key = chunk_s3_key self table_name chunk_id
| ERemove path => path = chunk_local_path table_name chunk_id
| _ => False
end.

(** Every library call succeeds in the environment. *)
Definition never_fails (env : Env) : Prop :=
forall h ev, fails env h ev = None.

(* ===================================================================== *)
(** ** examples/hive_catalog_example.py, examples/databricks_catalog_example.py *)
(* ===================================================================== *)

(** The two example scripts construct a generator and run it on three
    tables.  Neither has an exception handler: what the constructor or the
    run raises leaves [main].  As in the generator modules, informational
    output is left out and error output is kept. *)
Module Examples.

Section WithEnv.
Variable env : Env.
Local Open Scope py_scope.

(** [main] of [hive_catalog_example.py]; the value returned is the exit
    code. *)
Definition hive_main : Py Z :=
let catalog_config :=
  [ ("hive_metastore_uri", Some "thrift://localhost:9083");
    ("aws_region", Some "us-east-1") ] in
let s3_bucket := "your-iceberg-bucket" in
let s3_prefix := "iceberg-tables" in
generator <- Iceberg.__init__ env "hive" catalog_config s3_bucket s3_prefix 10 (Some 4) ;;
let test_tables := ["customers"; "products"; "orders"] in
success <- Iceberg.generate_all_tables env generator "benchmark_test" (Some test_tables) ;;
if success : bool then ret 0
else (print "Failed to generate tables. Check the logs for errors." ;; ret 1).

(** [main] of [databricks_catalog_example.py], given what
    [os.getenv('DATABRICKS_TOKEN')] returns. *)
Definition databricks_main (databricks_token : option string) : Py Z :=
match databricks_token with
| Some token =>
    if token =? "" then
      print "Error: DATABRICKS_TOKEN environment variable is required" ;;
      print "Set it with: export DATABRICKS_TOKEN='your_token'" ;;
      ret 1
    else
      let catalog_config :=
        [ ("catalog_uri",
           Some "https://your-workspace.cloud.databricks.com/api/2.0/unity-catalog");
          ("credential", Some token);
          ("aws_region", Some "us-east-1") ] in
      let s3_bucket := "your-iceberg-bucket" in
      let s3_prefix := "iceberg-tables" in
      generator <-
        Iceberg.__init__ env "databricks" catalog_config s3_bucket s3_prefix 10 (Some 4) ;;
      let test_tables := ["customers"; "products"; "orders"] in
      success <- Iceberg.generate_all_tables env generator "benchmark_test" (Some test_tables) ;;
      if success : bool then ret 0
      else (print "Failed to generate tables. Check the logs for errors." ;; ret 1)
| None =>
    print "Error: DATABRICKS_TOKEN environment variable is required" ;;
    print "Set it with: export DATABRICKS_TOKEN='your_token'" ;;
    ret 1
end.

End WithEnv.

End Examples.

(** A Databricks SDK is installed and every library call succeeds. *)
Definition databricks_env : Env :=
{| DATABRICKS_AVAILABLE := true; cpu_count := 8; fails := fun _ _ => None |}.

(* ===================================================================== *)
(** ** The Arrow-to-Iceberg type mapping *)
(* ===================================================================== *)

(** C4.  The conversion of an Arrow type to an Iceberg type is total and
    never raises: for every Arrow type it returns the entry of the mapping
    table (int64 to LongType, int32 to IntegerType, string to StringType,
    boolean to BooleanType, float32 to FloatType, float64 to DoubleType,
    date32 to DateType, any timestamp to TimestampType, decimal(p, s) to
    DecimalType(p, s)), and StringType for every other type. *)
Theorem convert_arrow_type_is_mapping_table :
  forall arrow_type : pa.DataType,
    Iceberg._convert_arrow_type_to_iceberg arrow_type = Ret (type_mapping_table arrow_type).
Proof.
  intros arrow_type.
  destruct arrow_type; reflexivity.
Qed.

Lemma convert_arrow_type_fallback :
  forall t,
    pa.types.is_int64 t = false -> pa.types.is_int32 t = false ->
    pa.types.is_string t = false -> pa.types.is_boolean t = false ->
    pa.types.is_float32 t = false -> pa.types.is_float64 t = false ->
    pa.types.is_date32 t = false -> pa.types.is_timestamp t = false ->
    pa.types.is_decimal t = false ->
    Iceberg._convert_arrow_type_to_iceberg t = Ret types.StringType.
Proof.
  intros t H1 H2 H3 H4 H5 H6 H7 H8 H9.
  unfold Iceberg._convert_arrow_type_to_iceberg.
  now rewrite H1, H2, H3, H4, H5, H6, H7, H8, H9.
Qed.

Example convert_decimal :
  Iceberg._convert_arrow_type_to_iceberg (pa.decimal128 12 2) = Ret (types.DecimalType 12 2).
Proof. reflexivity. Qed.

Example convert_large_string :
  Iceberg._convert_arrow_type_to_iceberg pa.large_string = Ret types.StringType.
Proof. reflexivity. Qed.

(* ===================================================================== *)
(** ** Selection of partition transforms *)
(* ===================================================================== *)








(** Every configured table gets its schema and partition spec built: the
    conversion of its column types succeeds, and every selected partition
    column is a column of its schema. *)
Lemma configured_tables_build :
  forall table_name table_config,
    py.dict_find Iceberg.ICEBERG_TABLES table_name = Some table_config ->
    exists sch spec, Iceberg.build_partition_spec table_config = Ret (sch, spec).
Proof.
  intros table_name cfg H. unfold Iceberg.ICEBERG_TABLES in H. simpl in H.
  repeat match type of H with
         | (if ?b then _ else _) = _ =>
             destruct b; [injection H as <-; vm_compute; eauto |]
         end.
  discriminate.
Qed.



Lemma partition_step_unselected :
  forall sch i col acc,
    selected col = false -> Iceberg.partition_step sch i col acc = Ret acc.
Proof.
  intros sch i col acc H. unfold selected in H.
  apply orb_false_elim in H as [H H3]. apply orb_false_elim in H as [H1 H2].
  unfold Iceberg.partition_step. now rewrite H1, H2, H3.
Qed.

Lemma partition_loop_filter :
  forall sch cols acc,
    Iceberg.partition_loop sch cols acc =
    Iceberg.partition_loop sch (filter (fun ic => selected (snd ic)) cols) acc.
Proof.
  intros sch cols; induction cols as [| [i col] rest IH]; intros acc; [reflexivity |].
  simpl. destruct (selected col) eqn:Hsel.
  - simpl. destruct (Iceberg.partition_step sch i col acc); simpl; [apply IH | reflexivity].
  - rewrite partition_step_unselected by assumption. simpl. apply IH.
Qed.

(** C8.  A partition-spec column that matches none of the selection rules
    is silently omitted: the loop builds the same fields, raising nothing
    more, as it does on the spec without such columns.  In particular, for
    the suppliers table, whose partition spec lists country and
    established_year, the spec built holds exactly one field, the identity
    field on country, and none for established_year. *)
Theorem unselected_columns_are_omitted :
  (forall sch cols acc,
     Iceberg.partition_loop sch cols acc =
     Iceberg.partition_loop sch (filter (fun ic => selected (snd ic)) cols) acc) /\
  (exists table_config sch,
     py.dict_find Iceberg.ICEBERG_TABLES "suppliers" = Some table_config /\
     Iceberg.partition_spec table_config = ["country"; "established_year"] /\
     selected "established_year" = false /\
     Iceberg.source_id_of sch "country" = Ret 7 /\
     Iceberg.build_partition_spec table_config =
       Ret (sch, {| spec_fields :=
                      [ {| source_id := 7; field_id := 1000; transform := None;
                           name := "country" |} ] |})).
Proof.
  split; [exact partition_loop_filter |].
  eexists. eexists. split; [reflexivity |].
  split; [reflexivity |]. split; [reflexivity |].
  split; [| vm_compute; reflexivity].
  reflexivity.
Qed.

(* ===================================================================== *)
(** ** Catalog setup *)
(* ===================================================================== *)

Lemma setup_catalog_other :
  forall env self h,
    Iceberg.catalog_type self <> "hive" ->
    Iceberg.catalog_type self <> "databricks" ->
    Iceberg._setup_catalog env self h =
      (Raise (ValueError ("Unsupported catalog type: " ++ Iceberg.catalog_type self)), h).
Proof.
  intros env self h H1 H2. unfold Iceberg._setup_catalog.
  apply String.eqb_neq in H1, H2. now rewrite H1, H2.
Qed.

(** C7.  Catalog registration supports exactly two catalog kinds.
    Constructing the generator with catalog type [hive] runs the Hive
    metastore setup, which loads the catalog [hive_catalog] of type hive;
    with [databricks] it runs the Unity Catalog setup, which raises
    [ImportError] when the Databricks SDK is absent and otherwise loads
    [unity_catalog]; with any other catalog type the constructor raises
    [ValueError] before any library is called. *)
Theorem catalog_kinds :
  forall env catalog_config s3_bucket s3_prefix target_size_gb num_workers,
    let settings_for ct :=
      {| Iceberg.catalog_type := ct;
         Iceberg.catalog_config := catalog_config;
         Iceberg.s3_bucket := s3_bucket;
         Iceberg.s3_prefix := s3_prefix;
         Iceberg.target_size_gb := target_size_gb;
         Iceberg.num_workers :=
           match num_workers with Some n => n | None => cpu_count env end |} in
    let construct ct :=
      Iceberg.__init__ env ct catalog_config s3_bucket s3_prefix target_size_gb num_workers in
    (* hive *)
    (construct "hive" =
       bind (Iceberg._setup_hive_catalog env (settings_for "hive"))
            (fun catalog => ret (generator_with (settings_for "hive") catalog)) /\
     forall h, exists config,
       snd (Iceberg._setup_hive_catalog env (settings_for "hive") h) =
         (h ++ [ELoadCatalog "hive_catalog" config])%list /\
       py.dict_find config "type" = Some (Some "hive")) /\
    (* databricks *)
    (construct "databricks" =
       bind (Iceberg._setup_databricks_catalog env (settings_for "databricks"))
            (fun catalog => ret (generator_with (settings_for "databricks") catalog)) /\
     (DATABRICKS_AVAILABLE env = false ->
      forall h, exists msg, construct "databricks" h = (Raise (ImportError msg), h)) /\
     (DATABRICKS_AVAILABLE env = true ->
      forall h, exists config,
        snd (Iceberg._setup_databricks_catalog env (settings_for "databricks") h) =
          (h ++ [ELoadCatalog "unity_catalog" config])%list)) /\
    (* anything else *)
    (forall ct, ct <> "hive" -> ct <> "databricks" ->
       forall h, exists msg, construct ct h = (Raise (ValueError msg), h)).
Proof.
  intros env cfg b p sz w settings_for construct.
  split; [| split].
  - split; [reflexivity |].
    intros h. eexists. split.
    + unfold Iceberg._setup_hive_catalog, Iceberg.load_catalog, bind, call.
      destruct (fails env h _); reflexivity.
    + reflexivity.
  - split; [reflexivity |]. split.
    + intros Hd h. eexists.
      unfold construct, Iceberg.__init__, bind, Iceberg._setup_catalog. simpl.
      unfold Iceberg._setup_databricks_catalog. rewrite Hd. reflexivity.
    + intros Hd h. eexists.
      unfold Iceberg._setup_databricks_catalog, Iceberg.load_catalog, bind, call.
      rewrite Hd. simpl. destruct (fails env h _); reflexivity.
  - intros ct H1 H2 h. eexists.
    unfold construct, Iceberg.__init__, bind.
    rewrite setup_catalog_other by assumption. reflexivity.
Qed.

Lemma catalog_kinds_witness :
  "glue" <> "hive" /\ "glue" <> "databricks" /\
  exists msg,
    Iceberg.__init__ quiet_env "glue" [] "bucket" "prefix" 100 (Some 4) [] =
      (Raise (ValueError msg), []).
Proof.
  assert (H1 : "glue" <> "hive") by discriminate.
  assert (H2 : "glue" <> "databricks") by discriminate.
  split; [exact H1 |]. split; [exact H2 |].
  exact (proj2 (proj2 (catalog_kinds quiet_env [] "bucket" "prefix" 100 (Some 4)))
           "glue" H1 H2 []).
Defined.

(* ===================================================================== *)
(** ** Chunk-size arithmetic *)
(* ===================================================================== *)








Example iceberg_clamps_to_one : Iceberg.num_chunks_of 0 = 1 /\ Benchmark.num_chunks_of 0 = 0.
Proof. split; reflexivity. Qed.

(* ===================================================================== *)
(** ** Ranges, columns and frames *)
(* ===================================================================== *)

Lemma range_length :
  forall a b, List.length (py.range a b) = Z.to_nat (b - a).
Proof. intros a b. unfold py.range. now rewrite length_map, length_seq. Qed.

Lemma range_len :
  forall a b, a <= b -> Z.of_nat (List.length (py.range a b)) = b - a.
Proof. intros a b H. rewrite range_length. lia. Qed.

Lemma range_In :
  forall a b x, In x (py.range a b) <-> a <= x < b.
Proof.
  intros a b x. unfold py.range. rewrite in_map_iff. split.
  - intros (k & <- & Hk). apply in_seq in Hk. lia.
  - intros H. exists (Z.to_nat (x - a)). split; [lia |]. apply in_seq. lia.
Qed.



Lemma range_empty :
  forall a b, b <= a -> py.range a b = [].
Proof.
  intros a b H. unfold py.range.
  replace (Z.to_nat (b - a)) with 0%nat by lia. reflexivity.
Qed.

Lemma eval_dict_ok :
  forall n d,
    Forall (column_ok n) d ->
    exists cols,
      pd.eval_dict d = Ret cols /\
      map fst cols = map fst d /\
      Forall (fun kc => pd.col_len (snd kc) = n) cols /\
      (forall k c rest, d = (k, Ret c) :: rest -> exists cols', cols = (k, c) :: cols').
Proof.
  intros n d H; induction H as [| [k o] d (c & Hc & Hlen) _ (cols & He & Hk & Hl & _)].
  - exists []. repeat split; auto. intros; discriminate.
  - simpl in Hc. subst o. exists ((k, c) :: cols). simpl. rewrite He. simpl.
    repeat split.
    + now rewrite Hk.
    + constructor; [exact Hlen | exact Hl].
    + intros k' c' rest E. injection E as -> -> _. now exists cols.
Qed.

Lemma same_length_ok :
  forall n cols,
    Forall (fun kc : string * pd.Column => pd.col_len (snd kc) = n) cols ->
    pd.same_length cols = true.
Proof.
  intros n cols H. destruct cols as [| [k c] r]; [reflexivity |].
  inversion H as [| ? ? Hc Hr]; subst. simpl in *.
  apply forallb_forall. intros kc Hin.
  rewrite Forall_forall in Hr. rewrite (Hr kc Hin). apply Z.eqb_refl.
Qed.

(** A dictionary whose entries all evaluate to columns of one length makes
    a frame, and the frame holds the first entry's column under its key. *)
Lemma DataFrame_ok :
  forall n k c rest,
    pd.col_len c = n ->
    Forall (column_ok n) rest ->
    exists df,
      pd.DataFrame_ ((k, Ret c) :: rest) = Ret df /\
      pd.column df k = Some c /\
      pd.len df = n.
Proof.
  intros n k c rest Hc Hrest.
  assert (Hall : Forall (column_ok n) ((k, Ret c) :: rest)).
  { constructor; [exists c; split; [reflexivity | exact Hc] | exact Hrest]. }
  destruct (eval_dict_ok n _ Hall) as (cols & He & _ & Hl & Hhd).
  destruct (Hhd k c rest eq_refl) as (cols' & ->).
  exists {| pd.columns := (k, c) :: cols' |}.
  unfold pd.DataFrame_, obind. rewrite He.
  rewrite (same_length_ok n) by exact Hl.
  repeat split.
  - unfold pd.column. simpl. now rewrite String.eqb_refl.
  - unfold pd.len. simpl. exact Hc.
Qed.

Lemma drawn_comprehension_ok :
  forall k n, 0 <= n -> column_ok n (k, drawn_comprehension n).
Proof.
  intros k n H. eexists. split; [reflexivity |]. simpl. lia.
Qed.

Lemma strs_range0_ok :
  forall k (f : Z -> string) n, 0 <= n ->
    column_ok n (k, Ret (pd.Strs (map f (py.range0 n)))).
Proof.
  intros k f n H. eexists. split; [reflexivity |]. simpl.
  rewrite length_map. unfold py.range0. rewrite range_len; lia.
Qed.

Lemma random_sized_ok :
  forall k n, 0 <= n -> column_ok n (k, np.random_sized n).
Proof.
  intros k n H. eexists. unfold np.random_sized. simpl.
  destruct (Z.ltb_spec n 0); [lia |]. split; reflexivity.
Qed.

Lemma random_choice_ok :
  forall k len_a n, 0 < len_a -> 0 <= n -> column_ok n (k, np.random_choice len_a n).
Proof.
  intros k len_a n Ha H. eexists. unfold np.random_choice. simpl.
  destruct (Z.ltb_spec n 0); [lia |].
  destruct (Z.leb_spec len_a 0); [lia |]. split; reflexivity.
Qed.

Lemma date_range_ok :
  forall k n, 0 <= n -> column_ok n (k, pd.date_range n).
Proof.
  intros k n H. eexists. unfold pd.date_range. simpl.
  destruct (Z.ltb_spec n 0); [lia |]. split; reflexivity.
Qed.

Lemma repeated_ok :
  forall k n, 0 <= n -> column_ok n (k, Iceberg.repeated n).
Proof.
  intros k n H. eexists. split; [reflexivity |]. simpl. lia.
Qed.

Lemma benchmark_fake_data_ok :
  forall k data_type n, 0 <= n -> column_ok n (k, Benchmark.generate_fake_data data_type n).
Proof.
  intros k dt n H. unfold Benchmark.generate_fake_data.
  repeat match goal with
         | |- context [if ?b then _ else _] => destruct b
         end;
    first [now apply drawn_comprehension_ok | now apply strs_range0_ok].
Qed.

Lemma iceberg_fake_data_ok :
  forall k data_type n, 0 <= n -> column_ok n (k, Iceberg.generate_fake_data data_type n).
Proof.
  intros k dt n H. unfold Iceberg.generate_fake_data.
  destruct (py.str_in dt _);
    first [now apply drawn_comprehension_ok | now apply strs_range0_ok].
Qed.


Ltac column_ok_tac :=
  first
    [ apply random_choice_ok; [reflexivity | lia]
    | apply random_sized_ok; lia
    | apply date_range_ok; lia
    | apply drawn_comprehension_ok; lia
    | apply repeated_ok; lia
    | apply benchmark_fake_data_ok; lia
    | apply iceberg_fake_data_ok; lia ].

Ltac columns_ok_tac := repeat (apply Forall_cons; [column_ok_tac |]); apply Forall_nil.

(* ===================================================================== *)
(** ** Customer chunks *)
(* ===================================================================== *)

Section CustomerChunks.

Variables (chunk_id chunk_size : Z).
Hypothesis chunk_size_pos : 0 < chunk_size.


Lemma benchmark_customers_empty :
  forall self : Benchmark.DataGenerator,
    Benchmark.num_customers self <= chunk_id * chunk_size ->
    Benchmark.generate_customers_chunk self chunk_id chunk_size = Ret pd.DataFrame_empty.
Proof.
  intros self Hge. unfold Benchmark.generate_customers_chunk.
  destruct (Z.leb_spec
              (Z.min (chunk_id * chunk_size + 1 + chunk_size) (Benchmark.num_customers self + 1)
               - (chunk_id * chunk_size + 1)) 0); [reflexivity | lia].
Qed.

Lemma iceberg_customers_full :
  forall self : Iceberg.IcebergTableGenerator,
    chunk_id * chunk_size < Iceberg.num_customers self ->
    exists df,
      Iceberg._generate_customers_data self chunk_id chunk_size = Ret df /\
      pd.column df "customer_id" =
        Some (pd.Ints (py.range (chunk_id * chunk_size + 1)
                         (Z.min ((chunk_id + 1) * chunk_size) (Iceberg.num_customers self) + 1))) /\
      pd.len df = Z.min chunk_size (Iceberg.num_customers self - chunk_id * chunk_size).
Proof.
  intros self Hlt. unfold Iceberg._generate_customers_data.
  set (N := Iceberg.num_customers self) in *.
  set (start_id := chunk_id * chunk_size + 1).
  set (actual_size := Z.min chunk_size (N - chunk_id * chunk_size)).
  assert (Hend : start_id + actual_size = Z.min ((chunk_id + 1) * chunk_size) N + 1)
    by (unfold actual_size, start_id; lia).
  destruct (Z.leb_spec actual_size 0) as [Hle | Hgt]; [lia |].
  rewrite <- Hend.
  apply DataFrame_ok.
  - simpl. rewrite range_len; lia.
  - columns_ok_tac.
Qed.

Lemma iceberg_customers_empty :
  forall self : Iceberg.IcebergTableGenerator,
    Iceberg.num_customers self <= chunk_id * chunk_size ->
    Iceberg._generate_customers_data self chunk_id chunk_size = Ret pd.DataFrame_empty.
Proof.
  intros self Hge. unfold Iceberg._generate_customers_data.
  destruct (Z.leb_spec
              (Z.min chunk_size (Iceberg.num_customers self - chunk_id * chunk_size)) 0);
    [reflexivity | lia].
Qed.

End CustomerChunks.






Example last_customer_chunk :
  customer_ids_of (Benchmark.generate_customers_chunk small_generator 2 4) = [9; 10] /\
  customer_ids_of (Iceberg._generate_customers_data small_iceberg_generator 2 4) = [9; 10] /\
  Benchmark.generate_customers_chunk small_generator 3 4 = Ret pd.DataFrame_empty.
Proof. repeat split; reflexivity. Qed.

(* ===================================================================== *)
(** ** Chunks past the end of the products and suppliers tables *)
(* ===================================================================== *)

Lemma random_choice_negative :
  forall len_a n, n < 0 ->
    np.random_choice len_a n = Raise (ValueError "negative dimensions are not allowed").
Proof.
  intros len_a n H. unfold np.random_choice.
  destruct (Z.ltb_spec n 0); [reflexivity | lia].
Qed.

Lemma products_chunk_raises :
  forall (self : Benchmark.DataGenerator) chunk_id chunk_size,
    Z.min (chunk_id * chunk_size + 1 + chunk_size) (Benchmark.num_products self + 1)
      - (chunk_id * chunk_size + 1) < 0 ->
    Benchmark.generate_products_chunk self chunk_id chunk_size =
      Raise (ValueError "negative dimensions are not allowed").
Proof.
  intros self cid cs H. unfold Benchmark.generate_products_chunk, pd.DataFrame_.
  simpl pd.eval_dict. rewrite random_choice_negative by exact H. reflexivity.
Qed.

Lemma suppliers_chunk_raises :
  forall (self : Benchmark.DataGenerator) chunk_id chunk_size,
    Z.min (chunk_id * chunk_size + 1 + chunk_size) (Benchmark.num_suppliers self + 1)
      - (chunk_id * chunk_size + 1) < 0 ->
    Benchmark.generate_suppliers_chunk self chunk_id chunk_size =
      Raise (ValueError "negative dimensions are not allowed").
Proof.
  intros self cid cs H. unfold Benchmark.generate_suppliers_chunk, pd.DataFrame_.
  simpl pd.eval_dict. rewrite random_choice_negative by exact H. reflexivity.
Qed.

(** A chunk whose generation raises is reported and counts as failed. *)
Lemma process_chunk_generation_raises :
  forall env self table_name chunk_id chunk_size generate_func e h,
    generate_func chunk_id chunk_size = Raise e ->
    Benchmark.process_chunk env self table_name chunk_id chunk_size generate_func h =
      (Ret false,
       (h ++ [EPrint ("Error processing chunk " ++ py.str chunk_id ++ " for " ++ table_name
                      ++ ": " ++ exn_str e)])%list).
Proof.
  intros env self table_name cid cs gen e h H.
  unfold Benchmark.process_chunk, try_except, bind, lift. rewrite H. reflexivity.
Qed.

(** C10.  The parquet generator treats a chunk past the end of a table
    differently from table to table.  The products and suppliers
    generators have no guard: for a chunk with
    [chunk_id * chunk_size >= num_products + chunk_size] (respectively
    [num_suppliers]) the computed [actual_size] is negative, the generator
    raises instead of returning an empty frame, and [process_chunk] returns
    [False] for the chunk; the customers generator returns the empty frame
    in the same situation. *)
Theorem over_range_chunks_asymmetric :
  forall env (self : Benchmark.DataGenerator) (chunk_id chunk_size : Z) (h : list Event),
    0 < chunk_size ->
    (chunk_id * chunk_size >= Benchmark.num_products self + chunk_size ->
     Z.min (chunk_id * chunk_size + 1 + chunk_size) (Benchmark.num_products self + 1)
       - (chunk_id * chunk_size + 1) < 0 /\
     (exists msg,
        Benchmark.generate_products_chunk self chunk_id chunk_size = Raise (ValueError msg)) /\
     (exists report,
        Benchmark.process_chunk env self "products" chunk_id chunk_size
          (Benchmark.generate_products_chunk self) h = (Ret false, (h ++ [EPrint report])%list))) /\
    (chunk_id * chunk_size >= Benchmark.num_suppliers self + chunk_size ->
     Z.min (chunk_id * chunk_size + 1 + chunk_size) (Benchmark.num_suppliers self + 1)
       - (chunk_id * chunk_size + 1) < 0 /\
     (exists msg,
        Benchmark.generate_suppliers_chunk self chunk_id chunk_size = Raise (ValueError msg)) /\
     (exists report,
        Benchmark.process_chunk env self "suppliers" chunk_id chunk_size
          (Benchmark.generate_suppliers_chunk self) h = (Ret false, (h ++ [EPrint report])%list))) /\
    (chunk_id * chunk_size >= Benchmark.num_customers self + chunk_size ->
     Benchmark.generate_customers_chunk self chunk_id chunk_size = Ret pd.DataFrame_empty).
Proof.
  intros env self cid cs h Hcs. split; [| split].
  - intros Hover.
    assert (Hneg : Z.min (cid * cs + 1 + cs) (Benchmark.num_products self + 1)
                   - (cid * cs + 1) < 0) by lia.
    split; [exact Hneg |]. split.
    + eexists. apply products_chunk_raises. exact Hneg.
    + eexists. apply process_chunk_generation_raises.
      apply products_chunk_raises. exact Hneg.
  - intros Hover.
    assert (Hneg : Z.min (cid * cs + 1 + cs) (Benchmark.num_suppliers self + 1)
                   - (cid * cs + 1) < 0) by lia.
    split; [exact Hneg |]. split.
    + eexists. apply suppliers_chunk_raises. exact Hneg.
    + eexists. apply process_chunk_generation_raises.
      apply suppliers_chunk_raises. exact Hneg.
  - intros Hover. apply benchmark_customers_empty; lia.
Qed.

Lemma over_range_chunks_asymmetric_witness :
  0 < Benchmark.CHUNK_SIZE /\
  2 * Benchmark.CHUNK_SIZE >=
    Benchmark.num_products (Benchmark.__init__ quiet_env "bucket" "prefix" (Some 4)) + Benchmark.CHUNK_SIZE /\
  exists report,
    Benchmark.process_chunk quiet_env (Benchmark.__init__ quiet_env "bucket" "prefix" (Some 4)) "products" 2
      Benchmark.CHUNK_SIZE (Benchmark.generate_products_chunk (Benchmark.__init__ quiet_env "bucket" "prefix" (Some 4)))
      [] = (Ret false, [EPrint report]).
Proof.
  assert (H1 : 0 < Benchmark.CHUNK_SIZE) by reflexivity.
  assert (H2 : 2 * Benchmark.CHUNK_SIZE >=
               Benchmark.num_products (Benchmark.__init__ quiet_env "bucket" "prefix" (Some 4))
               + Benchmark.CHUNK_SIZE) by (simpl; unfold Benchmark.CHUNK_SIZE; lia).
  split; [exact H1 |]. split; [exact H2 |].
  exact (proj2 (proj2 (proj1 (over_range_chunks_asymmetric quiet_env
           (Benchmark.__init__ quiet_env "bucket" "prefix" (Some 4)) 2 Benchmark.CHUNK_SIZE [] H1) H2))).
Defined.

Example products_chunk_past_the_end :
  Benchmark.generate_products_chunk small_generator 3 4 =
    Raise (ValueError "negative dimensions are not allowed") /\
  Benchmark.generate_suppliers_chunk small_generator 2 4 =
    Raise (ValueError "negative dimensions are not allowed") /\
  Benchmark.generate_customers_chunk small_generator 4 4 = Ret pd.DataFrame_empty.
Proof. repeat split; reflexivity. Qed.

(* ===================================================================== *)
(** ** One chunk: report and continue *)
(* ===================================================================== *)

Lemma submitted_app :
  forall h1 h2, submitted (h1 ++ h2) = (submitted h1 ++ submitted h2)%list.
Proof.
  intros h1 h2; induction h1 as [| ev h1 IH]; [reflexivity |].
  destruct ev; simpl; now rewrite ?IH.
Qed.

Ltac history_norm := repeat rewrite <- app_assoc; cbn [app].

Ltac nodup_events :=
  repeat (constructor; [simpl; intuition discriminate |]); constructor.

Lemma string_app_assoc :
  forall a b c : string, (a ++ b) ++ c = a ++ (b ++ c).
Proof.
  intros a b c; induction a as [| ch a IH]; simpl; [reflexivity | now rewrite IH].
Qed.

Lemma report_text :
  forall a b c d e : string,
    (a ++ b ++ c ++ d) ++ ": " ++ e = a ++ b ++ c ++ d ++ ": " ++ e.
Proof. intros. now rewrite !string_app_assoc. Qed.

(** The last act is the report of the handler. *)
Ltac report_last :=
  match goal with
  | |- exists before text, ?acts = _ =>
      match acts with
      | context [EPrint (?a ++ ?b ++ ?c ++ ?d ++ ": " ++ _)] =>
          exists (removelast acts), (a ++ b ++ c ++ d);
          cbn [removelast app]; rewrite report_text; reflexivity
      end
  end.


Lemma process_table_chunk_reports :
  forall env self table_name table chunk_id chunk_size h,
    reports_and_continues env (Iceberg.generate_table_data self table_name chunk_id chunk_size)
      (Iceberg.process_table_chunk env self table_name table chunk_id chunk_size) h.
Proof.
  intros env self name table cid cs h.
  unfold reports_and_continues, Iceberg.process_table_chunk, Iceberg.write_to_iceberg_table,
    try_except, bind, lift, call, print, ret.
  destruct (Iceberg.generate_table_data self name cid cs) as [df | e0] eqn:Hgen.
  - destruct (pd.empty df).
    { exists true, []. rewrite app_nil_r. split; [reflexivity |].
      split; [constructor |]. split; [reflexivity |]. split.
      - intros e [He | He]; discriminate.
      - discriminate. }
    destruct (fails env h (EFromPandas df)) as [e1 |] eqn:H1.
    { eexists false, [_; _]. history_norm. split; [reflexivity |].
      split; [nodup_events |]. split; [reflexivity |]. split.
      - intros e [He | He]; [discriminate |].
        cbn [first_refused is_library_call] in He. rewrite H1 in He.
        injection He as <-. split; [reflexivity |].
        eexists [_], "Error writing to Iceberg table". reflexivity.
      - intros _. exists e1. right. cbn [first_refused is_library_call]. now rewrite H1. }
    destruct (fails env (h ++ [EFromPandas df]) (EAppend _ df)) as [e2 |] eqn:H2.
    { eexists false, [_; _; _]. history_norm. split; [reflexivity |].
      split; [nodup_events |]. split; [reflexivity |]. split.
      - intros e [He | He]; [discriminate |].
        cbn [first_refused is_library_call] in He. rewrite H1, H2 in He.
        injection He as <-. split; [reflexivity |].
        eexists [_; _], "Error writing to Iceberg table". reflexivity.
      - intros _. exists e2. right. cbn [first_refused is_library_call]. now rewrite H1, H2. }
    eexists true, [_; _; _]. history_norm. split; [reflexivity |].
    split; [nodup_events |]. split; [reflexivity |]. split.
    + intros e [He | He]; [discriminate |].
      cbn [first_refused is_library_call] in He. rewrite H1, H2 in He. discriminate.
    + discriminate.
  - eexists false, [_]. split; [reflexivity |].
    split; [nodup_events |]. split; [reflexivity |]. split.
    + intros e [He | He]; [| discriminate]. injection He as <-. split; [reflexivity |].
      report_last.
    + intros _. exists e0. now left.
Qed.

(* ===================================================================== *)
(** ** The per-table loops *)
(* ===================================================================== *)

(** Handing chunk tasks that report and continue to the pool: every chunk
    of the list is submitted, once and in order, whatever the tasks
    return, and every future holds a result. *)
Lemma submit_all_spec :
  forall env table_name (generated : Z -> outcome pd.DataFrame) (task : Z -> Py bool),
    (forall chunk_id h, reports_and_continues env (generated chunk_id) (task chunk_id) h) ->
    forall ids h,
    exists futures acts,
      for_each ids (fun chunk_id => submit table_name chunk_id (task chunk_id)) h
        = (Ret futures, (h ++ acts)%list) /\
      List.length futures = List.length ids /\
      submitted acts = map (pair table_name) ids /\
      Forall (fun f => exists b : bool, f = Ret b) futures.
Proof.
  intros env name generated task Htask ids; induction ids as [| cid ids IH]; intros h.
  - exists [], []. rewrite app_nil_r. repeat split; constructor.
  - destruct (Htask cid (h ++ [ESubmit name cid])%list) as (b & acts1 & Hrun & _ & Hsub1 & _).
    destruct (IH ((h ++ [ESubmit name cid]) ++ acts1)%list)
      as (futures & acts2 & Hrest & Hlen & Hsub2 & Hall).
    exists (Ret b :: futures), (ESubmit name cid :: acts1 ++ acts2)%list.
    cbn [for_each]. unfold bind at 1. unfold submit at 1. rewrite Hrun.
    unfold bind at 1. rewrite Hrest. unfold ret.
    split; [| split; [| split]].
    + f_equal. now rewrite <- !app_assoc.
    + simpl. now rewrite Hlen.
    + cbn [submitted map]. rewrite submitted_app, Hsub1, Hsub2. reflexivity.
    + constructor; [now exists b | exact Hall].
Qed.

Lemma successes_bounds :
  forall futures, 0 <= successes futures <= Z.of_nat (List.length futures).
Proof.
  induction futures as [| [[|] | e] futures IH]; cbn [successes List.length]; lia.
Qed.

Lemma successes_all :
  forall futures,
    successes futures = Z.of_nat (List.length futures) <-> Forall (eq (Ret true)) futures.
Proof.
  induction futures as [| f futures IH]; [split; [constructor | reflexivity] |].
  pose proof (successes_bounds futures) as B.
  split.
  - intros H. destruct f as [[|] | e]; cbn [successes List.length] in H; try lia.
    constructor; [reflexivity | apply IH; lia].
  - intros H. inversion H as [| ? ? <- Hrest]; subst.
    cbn [successes List.length]. apply IH in Hrest. lia.
Qed.

(** The count does not depend on the order in which futures complete. *)
Lemma successes_Permutation :
  forall l l', Permutation l l' -> successes l = successes l'.
Proof.
  intros l l' H; induction H as [| x l l' _ IH | x y l | l l' l'' _ IH1 _ IH2].
  - reflexivity.
  - destruct x as [[|] | e]; simpl; now rewrite IH.
  - destruct x as [[|] | e], y as [[|] | e']; reflexivity.
  - now rewrite IH1.
Qed.

Lemma benchmark_monitor_spec :
  forall futures completed h,
    exists acts,
      Benchmark.monitor futures completed h
        = (Ret (completed + successes futures), (h ++ acts)%list) /\
      submitted acts = [].
Proof.
  induction futures as [| f futures IH]; intros c h.
  - exists []. rewrite app_nil_r, Z.add_0_r. split; reflexivity.
  - cbn [Benchmark.monitor]. unfold bind at 1, try_except, lift, bind, print, ret.
    destruct f as [[|] | e]; cbn [successes].
    + destruct (IH (c + 1) h) as (acts & -> & Hs). exists acts. split; [f_equal; f_equal; lia | exact Hs].
    + destruct (IH c h) as (acts & -> & Hs). exists acts. split; [reflexivity | exact Hs].
    + destruct (IH c (h ++ [EPrint ("Error processing chunk: " ++ exn_str e)])%list)
        as (acts & -> & Hs).
      eexists (_ :: acts). rewrite <- app_assoc. split; [reflexivity | exact Hs].
Qed.

Lemma iceberg_monitor_spec :
  forall futures completed h,
    exists acts,
      Iceberg.monitor futures completed h
        = (Ret (completed + successes futures), (h ++ acts)%list) /\
      submitted acts = [].
Proof.
  induction futures as [| f futures IH]; intros c h.
  - exists []. rewrite app_nil_r, Z.add_0_r. split; reflexivity.
  - cbn [Iceberg.monitor]. unfold bind at 1, try_except, lift, bind, print, ret.
    destruct f as [[|] | e]; cbn [successes].
    + destruct (IH (c + 1) h) as (acts & -> & Hs). exists acts. split; [f_equal; f_equal; lia | exact Hs].
    + destruct (IH c h) as (acts & -> & Hs). exists acts. split; [reflexivity | exact Hs].
    + destruct (IH c (h ++ [EPrint ("Error in chunk processing: " ++ exn_str e)])%list)
        as (acts & -> & Hs).
      eexists (_ :: acts). rewrite <- app_assoc. split; [reflexivity | exact Hs].
Qed.

Lemma monitor_Permutation :
  forall futures futures' completed h,
    Permutation futures futures' ->
    fst (Benchmark.monitor futures completed h) = fst (Benchmark.monitor futures' completed h) /\
    fst (Iceberg.monitor futures completed h) = fst (Iceberg.monitor futures' completed h).
Proof.
  intros l l' c h HP. split.
  - destruct (benchmark_monitor_spec l c h) as (a1 & -> & _).
    destruct (benchmark_monitor_spec l' c h) as (a2 & -> & _).
    simpl. now rewrite (successes_Permutation l l' HP).
  - destruct (iceberg_monitor_spec l c h) as (a1 & -> & _).
    destruct (iceberg_monitor_spec l' c h) as (a2 & -> & _).
    simpl. now rewrite (successes_Permutation l l' HP).
Qed.

(* ===================================================================== *)
(** ** A whole table: the parquet path *)
(* ===================================================================== *)






(** Nine chunks out of ten is not enough on the parquet path. *)
Example parquet_nine_of_ten :
  let run := Benchmark.generate_and_upload_table flaky_env small_generator "customers" 10 [] in
  fst run = Ret false /\
  submitted (snd run) = map (pair "customers") [0; 1; 2; 3; 4; 5; 6; 7; 8; 9] /\
  List.length (filter (fun ev => match ev with ERemove _ => true | _ => false end) (snd run))
    = 9%nat.
Proof. vm_compute. repeat split. Qed.

(* ===================================================================== *)
(** ** A whole table: the Iceberg path *)
(* ===================================================================== *)

Lemma Qgtb_spec :
  forall x y : Q, Iceberg.Qgtb x y = true <-> (y < x)%Q.
Proof.
  intros x y. unfold Iceberg.Qgtb. rewrite negb_true_iff. split.
  - intros H. apply Qnot_le_lt. intros Hle. apply Qle_bool_iff in Hle. congruence.
  - intros H. destruct (Qle_bool x y) eqn:E; [| reflexivity].
    apply Qle_bool_iff in E. exfalso. exact (Qlt_not_le _ _ H E).
Qed.

(** The threshold in integers: more than four fifths of the chunks. *)
Lemma threshold_arith :
  forall successful total,
    0 < total ->
    ((8 # 10 < inject_Z successful / inject_Z total)%Q <-> 4 * total < 5 * successful).
Proof.
  intros s n Hn. destruct n as [| n | n]; try lia.
  unfold Qlt, Qdiv, Qmult, Qinv, inject_Z. simpl Qnum. simpl Qden.
  lia.
Qed.

Lemma iceberg_num_chunks_pos :
  forall q, 1 <= Iceberg.num_chunks_of q.
Proof. intros q. unfold Iceberg.num_chunks_of. lia. Qed.


(** Creating the table hands nothing to the pool. *)
Lemma create_iceberg_table_acts :
  forall env self table_name database_name h,
    exists r acts,
      Iceberg.create_iceberg_table env self table_name database_name h = (r, (h ++ acts)%list) /\
      submitted acts = [].
Proof.
  intros env self name db h.
  unfold Iceberg.create_iceberg_table, py.dict_item, try_except, bind, lift, call, print, ret, raise.
  destruct (py.dict_find Iceberg.ICEBERG_TABLES name) as [cfg |];
    [| exists (Raise (KeyError name)), []; now rewrite app_nil_r].
  destruct (Iceberg.build_partition_spec cfg) as [built | e];
    [| exists (Raise e), []; now rewrite app_nil_r].
  destruct (fails env h (ECreateTable _ _ _ _)) as [e1 |].
  - destruct (fails env _ (ELoadTable _)) as [e2 |].
    + eexists _, [_; _; _; _]. history_norm. split; reflexivity.
    + eexists _, [_; _; _; _]. history_norm. split; reflexivity.
  - eexists _, [_; _]. history_norm. split; reflexivity.
Qed.

Lemma iceberg_table_spec :
  forall env self table_name database_name table_config h table h1,
    py.dict_find Iceberg.ICEBERG_TABLES table_name = Some table_config ->
    Iceberg.create_iceberg_table env self table_name database_name h = (Ret table, h1) ->
    let num_chunks := Iceberg.num_chunks_of (Iceberg.table_size_gb self table_config) in
    exists futures acts1 acts2,
      Iceberg.submit_chunks env self table_name table num_chunks h1
        = (Ret futures, (h1 ++ acts1)%list) /\
      Iceberg.generate_iceberg_table env self table_name database_name h
        = (Ret (Iceberg.Qgtb (inject_Z (successes futures) / inject_Z num_chunks) (8 # 10)),
           (h1 ++ acts1 ++ acts2)%list) /\
      List.length futures = Z.to_nat num_chunks /\
      submitted (acts1 ++ acts2) = map (pair table_name) (py.range0 num_chunks) /\
      Forall (fun f => exists b : bool, f = Ret b) futures.
Proof.
  intros env self name db cfg h table h1 Hcfg Hcreate num_chunks.
  pose proof (iceberg_num_chunks_pos (Iceberg.table_size_gb self cfg)) as Hpos.
  fold num_chunks in Hpos.
  destruct (submit_all_spec env name
              (fun cid => Iceberg.generate_table_data self name cid Iceberg.CHUNK_SIZE)
              (fun cid => Iceberg.process_table_chunk env self name table cid Iceberg.CHUNK_SIZE)
              (fun cid h' =>
                 process_table_chunk_reports env self name table cid Iceberg.CHUNK_SIZE h')
              (py.range0 num_chunks) h1)
    as (futures & acts1 & Hsub & Hlen & Hsubmitted & Hall).
  destruct (iceberg_monitor_spec futures 0 (h1 ++ acts1)%list) as (acts2 & Hmon & Hs2).
  assert (Hinfo : exists acts3,
             try_except (call env (ETableInfo (Iceberg.identifier table)))
               (fun e => print ("Could not get table info: " ++ exn_str e))
               ((h1 ++ acts1) ++ acts2)%list
             = (Ret tt, (((h1 ++ acts1) ++ acts2) ++ acts3)%list) /\ submitted acts3 = []).
  { unfold try_except, call, print.
    destruct (fails env _ _) as [e |].
    - eexists [_; _]. rewrite <- (app_assoc _ [_] [_]). split; reflexivity.
    - eexists [_]. split; reflexivity. }
  destruct Hinfo as (acts3 & Hinfo & Hs3).
  exists futures, acts1, (acts2 ++ acts3)%list.
  split; [exact Hsub |]. split; [| split; [| split]].
  - unfold Iceberg.generate_iceberg_table, py.dict_item. rewrite Hcfg.
    unfold bind at 1, lift. unfold bind at 1. rewrite Hcreate.
    cbv beta iota zeta. fold num_chunks.
    unfold bind at 1. unfold Iceberg.submit_chunks in Hsub. unfold Iceberg.submit_chunks.
    rewrite Hsub. unfold bind at 1. rewrite Hmon.
    unfold bind at 1. rewrite Hinfo. unfold ret.
    destruct (Z.gtb_spec num_chunks 0) as [_ | Hle]; [| lia].
    rewrite Z.add_0_l. f_equal. now rewrite <- !app_assoc.
  - rewrite Hlen. unfold py.range0. rewrite range_length. f_equal. lia.
  - rewrite !submitted_app, Hsubmitted, Hs2, Hs3. now rewrite !app_nil_r.
  - exact Hall.
Qed.

Lemma iceberg_table_creation_raises :
  forall env self table_name database_name table_config h e h1,
    py.dict_find Iceberg.ICEBERG_TABLES table_name = Some table_config ->
    Iceberg.create_iceberg_table env self table_name database_name h = (Raise e, h1) ->
    Iceberg.generate_iceberg_table env self table_name database_name h = (Raise e, h1).
Proof.
  intros env self name db cfg h e h1 Hcfg Hcreate.
  unfold Iceberg.generate_iceberg_table, py.dict_item. rewrite Hcfg.
  unfold bind at 1, lift. unfold bind at 1. now rewrite Hcreate.
Qed.



(** Nine chunks out of ten is enough on the Iceberg path; eight is not. *)
Example iceberg_nine_of_ten :
  let run :=
    Iceberg.generate_iceberg_table flaky_env small_iceberg_generator "customers" "benchmark" [] in
  fst run = Ret true /\
  submitted (snd run) = map (pair "customers") [0; 1; 2; 3; 4; 5; 6; 7; 8; 9] /\
  List.length (filter (fun ev => match ev with EAppend _ _ => true | _ => false end) (snd run))
    = 1%nat.
Proof. vm_compute. repeat split. Qed.

Example threshold_is_strict :
  Iceberg.Qgtb (inject_Z 4 / inject_Z 5) (8 # 10) = false /\
  Iceberg.Qgtb (inject_Z 9 / inject_Z 10) (8 # 10) = true /\
  Iceberg.Qgtb (inject_Z 0 / inject_Z 1) (8 # 10) = false.
Proof. repeat split; reflexivity. Qed.

Lemma forallb_range :
  forall (f : Z -> bool) a b,
    forallb f (py.range a b) = true -> forall x, a <= x < b -> f x = true.
Proof.
  intros f a b H x Hx. rewrite forallb_forall in H. apply H. now apply range_In.
Qed.

Lemma binary64_agrees_upto_120 :
  forallb (fun n => forallb (fun c => binary64_agrees c n) (py.range 0 (n + 1)))
          (py.range 1 121) = true.
Proof. vm_compute. reflexivity. Qed.

(** The success test in binary64 agrees with the exact one for every count
    of chunks up to 120, the largest count under the script's default
    target of 100 GB.  The two can only part beyond some 10^15 chunks,
    where the quotient is closer to four fifths than binary64 resolves. *)
Lemma binary64_threshold_agrees :
  forall num_chunks completed,
    1 <= num_chunks <= 120 -> 0 <= completed <= num_chunks ->
    binary64_rate_above completed num_chunks =
      Iceberg.Qgtb (inject_Z completed / inject_Z num_chunks) (8 # 10).
Proof.
  intros n c Hn Hc.
  pose proof (forallb_range _ 1 121 binary64_agrees_upto_120 n ltac:(lia)) as H1.
  cbv beta in H1.
  pose proof (forallb_range _ 0 (n + 1) H1 c ltac:(lia)) as H2.
  cbv beta in H2.
  unfold binary64_agrees in H2. apply eqb_prop in H2. rewrite H2.
  destruct (Iceberg.Qgtb (inject_Z c / inject_Z n) (8 # 10)) eqn:E.
  - apply Z.ltb_lt. apply threshold_arith; [lia |]. now apply Qgtb_spec.
  - apply Z.ltb_ge. apply Z.nlt_ge. intros Hlt.
    apply threshold_arith in Hlt; [| lia]. apply Qgtb_spec in Hlt. congruence.
Qed.

Example binary64_four_fifths :
  SFdiv 53 1024 (b64_of_Z 4) (b64_of_Z 5) = b64_0_8 /\
  binary64_rate_above 4 5 = false /\
  binary64_rate_above 9 10 = true.
Proof. vm_compute. repeat split. Qed.

(* ===================================================================== *)
(** ** Retry never; report and continue *)
(* ===================================================================== *)





(** Four chunks of a six-product table: the first holds all six products,
    the other three are past the end and raise; each is submitted once,
    each failure is reported. *)
Example products_table_run :
  let run := Benchmark.generate_and_upload_table flaky_env small_generator "products" 4 [] in
  fst run = Ret false /\
  submitted (snd run) = map (pair "products") [0; 1; 2; 3] /\
  filter (fun ev => match ev with EPrint _ => true | _ => false end) (snd run) =
    [ EPrint "Error processing chunk 1 for products: negative dimensions are not allowed";
      EPrint "Error processing chunk 2 for products: negative dimensions are not allowed";
      EPrint "Error processing chunk 3 for products: negative dimensions are not allowed" ].
Proof. vm_compute. repeat split. Qed.

(* ===================================================================== *)
(** ** Beyond the chunk loops: what each future holds *)
(* ===================================================================== *)

(** Every future of the submit loop holds what its chunk task returned
    from the history it ran in. *)
Lemma submit_all_results :
  forall env table_name (generated : Z -> outcome pd.DataFrame) (task : Z -> Py bool),
    (forall chunk_id h, reports_and_continues env (generated chunk_id) (task chunk_id) h) ->
    forall ids h futures h',
      for_each ids (fun chunk_id => submit table_name chunk_id (task chunk_id)) h
        = (Ret futures, h') ->
      Forall2 (fun chunk_id future =>
                 exists hc b hc', future = Ret b /\ task chunk_id hc = (Ret b, hc'))
              ids futures.
Proof.
  intros env name generated task Htask ids; induction ids as [| cid ids IH];
    intros h futures h' Hrun.
  - cbn in Hrun. injection Hrun as <- _. constructor.
  - destruct (Htask cid (h ++ [ESubmit name cid])%list) as (b & acts1 & Hone & _).
    cbn [for_each] in Hrun. unfold bind at 1 in Hrun. unfold submit at 1 in Hrun.
    rewrite Hone in Hrun. unfold bind at 1 in Hrun.
    destruct (for_each ids (fun chunk_id => submit name chunk_id (task chunk_id))
                ((h ++ [ESubmit name cid]) ++ acts1)%list) as [[rest | e] h2] eqn:Hrest;
      [| discriminate].
    unfold ret in Hrun. injection Hrun as <- _.
    constructor; [| eapply IH; exact Hrest].
    now exists (h ++ [ESubmit name cid])%list, b, ((h ++ [ESubmit name cid]) ++ acts1)%list.
Qed.



(* ===================================================================== *)
(** ** Parquet tables that cannot succeed *)
(* ===================================================================== *)






(* ===================================================================== *)
(** ** The parquet run over all tables *)
(* ===================================================================== *)








(* ===================================================================== *)
(** ** The Iceberg run over all tables *)
(* ===================================================================== *)

Lemma iceberg_table_run :
  forall env self table_name database_name table_config h,
    py.dict_find Iceberg.ICEBERG_TABLES table_name = Some table_config ->
    exists r acts,
      Iceberg.generate_iceberg_table env self table_name database_name h
        = (r, (h ++ acts)%list) /\
      ((exists b : bool, r = Ret b) -> submitted acts = iceberg_table_chunks self table_name).
Proof.
  intros env self name db cfg h Hcfg.
  destruct (create_iceberg_table_acts env self name db h) as (r0 & acts0 & Hcreate & Hs0).
  destruct r0 as [table | e].
  - destruct (iceberg_table_spec env self name db cfg h table _ Hcfg Hcreate)
      as (futures & acts1 & acts2 & _ & Hrun & _ & Hsub & _).
    eexists _, (acts0 ++ acts1 ++ acts2)%list. split.
    + rewrite Hrun. now rewrite <- !app_assoc.
    + intros _. unfold iceberg_table_chunks. rewrite Hcfg.
      now rewrite submitted_app, Hs0, Hsub.
  - exists (Raise e), acts0. split.
    + now apply (iceberg_table_creation_raises env self name db cfg).
    + intros (b & Hb). discriminate.
Qed.

Lemma iceberg_generate_tables_spec :
  forall env self database_name tables successful_tables h n h',
    Iceberg.generate_tables env self database_name tables successful_tables h = (Ret n, h') ->
    exists acts,
      h' = (h ++ acts)%list /\
      submitted acts = flat_map (iceberg_table_chunks self) tables /\
      successful_tables <= n <= successful_tables + Z.of_nat (List.length tables) /\
      (n = successful_tables + Z.of_nat (List.length tables) -> Forall configured tables).
Proof.
  intros env self db tables; induction tables as [| name rest IH]; intros acc h n h' Hrun.
  - cbn in Hrun. injection Hrun as <- <-. exists []. rewrite app_nil_r.
    repeat split; simpl; auto; lia.
  - cbn [Iceberg.generate_tables] in Hrun.
    destruct (py.dict_find Iceberg.ICEBERG_TABLES name) as [cfg |] eqn:Hcfg.
    + destruct (iceberg_table_run env self name db cfg h Hcfg) as (r & acts1 & Hone & Hsub).
      unfold bind at 1 in Hrun. rewrite Hone in Hrun.
      destruct r as [[|] | e]; [| | discriminate].
      * destruct (IH _ _ _ _ Hrun) as (acts & -> & Hs & Hn & Hall).
        exists (acts1 ++ acts)%list. split; [now rewrite <- app_assoc |].
        split; [| split].
        -- cbn [flat_map]. rewrite submitted_app, Hs, Hsub by eauto. reflexivity.
        -- cbn [List.length]. lia.
        -- intros Heq. constructor; [now exists cfg | apply Hall; cbn [List.length] in Heq; lia].
      * unfold bind at 1, print in Hrun.
        destruct (IH _ _ _ _ Hrun) as (acts & -> & Hs & Hn & Hall).
        eexists (acts1 ++ _ :: acts)%list. split; [now rewrite <- !app_assoc |].
        split; [| split].
        -- cbn [flat_map]. rewrite submitted_app. cbn [submitted].
           rewrite Hs, Hsub by eauto. reflexivity.
        -- cbn [List.length]. lia.
        -- intros Heq. cbn [List.length] in Heq. lia.
    + unfold bind at 1, print in Hrun.
      destruct (IH _ _ _ _ Hrun) as (acts & -> & Hs & Hn & Hall).
      eexists (_ :: acts)%list. split; [now rewrite <- !app_assoc |].
      split; [| split].
      * cbn [flat_map submitted]. unfold iceberg_table_chunks at 1. rewrite Hcfg.
        exact Hs.
      * cbn [List.length]. lia.
      * intros Heq. cbn [List.length] in Heq. lia.
Qed.

Lemma create_database_returns :
  forall env self database_name h,
    exists acts,
      Iceberg.create_database_if_not_exists env self database_name h
        = (Ret tt, (h ++ acts)%list) /\
      submitted acts = [].
Proof.
  intros env self db h.
  unfold Iceberg.create_database_if_not_exists, try_except, bind, call, print.
  destruct (fails env h (ECreateNamespace db)) as [e |].
  - eexists [_; _]. history_norm. split; reflexivity.
  - eexists [_; _]. history_norm. split; reflexivity.
Qed.

(** X4.  [generate_all_tables] of the Iceberg script goes on after a table
    that fails: whenever it returns, the chunks of every listed, configured
    table were handed to the pool, in the order listed (all seven tables
    when no list, or an empty one, is given).  A listed name that is not
    configured is skipped but still counts: the run then cannot return
    [True]. *)
Theorem iceberg_run_continues :
  forall env self database_name tables h (b : bool) h',
    Iceberg.generate_all_tables env self database_name tables h = (Ret b, h') ->
    exists acts,
      h' = (h ++ acts)%list /\
      submitted acts = flat_map (iceberg_table_chunks self) (tables_listed tables) /\
      (b = true -> Forall configured (tables_listed tables)).
Proof.
  intros env self db tables h b h' Hrun.
  unfold Iceberg.generate_all_tables in Hrun. fold (tables_listed tables) in Hrun.
  destruct (create_database_returns env self db h) as (acts0 & Hdb & Hs0).
  unfold bind at 1 in Hrun. rewrite Hdb in Hrun. unfold bind at 1 in Hrun.
  destruct (Iceberg.generate_tables env self db (tables_listed tables) 0 (h ++ acts0)%list)
    as [[n | e] h1] eqn:Hgen; [| discriminate].
  unfold ret in Hrun. injection Hrun as <- <-.
  destruct (iceberg_generate_tables_spec _ _ _ _ _ _ _ _ Hgen) as (acts & -> & Hs & Hn & Hall).
  exists (acts0 ++ acts)%list. split; [now rewrite <- app_assoc |].
  split; [now rewrite submitted_app, Hs0, Hs |].
  intros Hb. apply Z.eqb_eq in Hb. apply Hall. unfold len in Hb. lia.
Qed.

Lemma iceberg_run_continues_witness :
  exists h',
    Iceberg.generate_all_tables flaky_env small_iceberg_generator "benchmark"
      (Some ["suppliers"; "payments"; "customers"]) [] = (Ret false, h') /\
    exists acts,
      h' = ([] ++ acts)%list /\
      submitted acts =
        flat_map (iceberg_table_chunks small_iceberg_generator)
          (tables_listed (Some ["suppliers"; "payments"; "customers"])) /\
      (false = true -> Forall configured (tables_listed (Some ["suppliers"; "payments"; "customers"]))).
Proof.
  eexists. split; [vm_compute; reflexivity |].
  apply (iceberg_run_continues flaky_env small_iceberg_generator "benchmark"
           (Some ["suppliers"; "payments"; "customers"]) [] false).
  vm_compute. reflexivity.
Defined.

(* ===================================================================== *)
(** ** Creating a table, or loading the one that exists *)
(* ===================================================================== *)

(** X5.  [create_iceberg_table] asks the catalog to create the table once.
    If that succeeds it returns the new table.  If it raises, the error is
    printed and the existing table is loaded instead, once; if loading
    raises too, the exception that leaves the function is the one from the
    creation, not the one from loading, and [generate_iceberg_table] passes
    it on without handing any chunk to the pool. *)
Theorem create_table_falls_back_to_load :
  forall env self table_name database_name table_config h,
    py.dict_find Iceberg.ICEBERG_TABLES table_name = Some table_config ->
    exists sch spec,
      Iceberg.build_partition_spec table_config = Ret (sch, spec) /\
      let table_identifier := database_name ++ "." ++ table_name in
      let table := {| Iceberg.identifier := table_identifier |} in
      let create :=
        ECreateTable table_identifier sch spec (table_location self table_name database_name) in
      (fails env h create = None ->
       Iceberg.create_iceberg_table env self table_name database_name h =
         (Ret table,
          (h ++ [create; EPrint ("Created Iceberg table: " ++ table_identifier)])%list)) /\
      (forall e,
         fails env h create = Some e ->
         let h1 :=
           (h ++ [create;
                  EPrint ("Error creating table " ++ table_identifier ++ ": " ++ exn_str e)])%list in
         (fails env h1 (ELoadTable table_identifier) = None ->
          Iceberg.create_iceberg_table env self table_name database_name h =
            (Ret table,
             (h1 ++ [ELoadTable table_identifier;
                     EPrint ("Loaded existing table: " ++ table_identifier)])%list)) /\
         (forall load_error,
            fails env h1 (ELoadTable table_identifier) = Some load_error ->
            let h2 :=
              (h1 ++ [ELoadTable table_identifier;
                      EPrint ("Error loading existing table: " ++ exn_str load_error)])%list in
            Iceberg.create_iceberg_table env self table_name database_name h = (Raise e, h2) /\
            Iceberg.generate_iceberg_table env self table_name database_name h = (Raise e, h2) /\
            submitted h2 = submitted h)).
Proof.
  intros env self name db cfg h Hcfg.
  destruct (configured_tables_build name cfg Hcfg) as (sch & spec & Hbuild).
  exists sch, spec. split; [exact Hbuild |].
  intros id table create.
  assert (Hunfold :
    Iceberg.create_iceberg_table env self name db h =
    try_except
      (bind (call env create) (fun _ =>
       bind (print ("Created Iceberg table: " ++ id)) (fun _ => ret table)))
      (fun e =>
       bind (print ("Error creating table " ++ id ++ ": " ++ exn_str e)) (fun _ =>
       try_except
         (bind (call env (ELoadTable id)) (fun _ =>
          bind (print ("Loaded existing table: " ++ id)) (fun _ => ret table)))
         (fun load_error =>
          bind (print ("Error loading existing table: " ++ exn_str load_error)) (fun _ =>
          raise e)))) h).
  { unfold Iceberg.create_iceberg_table, py.dict_item. rewrite Hcfg.
    unfold bind at 1, lift. unfold bind at 1. rewrite Hbuild. reflexivity. }
  split.
  - intros Hok. rewrite Hunfold. unfold try_except, bind, call, print, ret.
    rewrite Hok. now rewrite <- app_assoc.
  - intros e Hfail h1. split.
    + intros Hload. rewrite Hunfold. unfold try_except, bind, call, print, ret.
      rewrite Hfail. unfold h1 in Hload |- *.
      rewrite <- (app_assoc h [create]). cbn [app]. rewrite Hload.
      now rewrite <- !app_assoc.
    + intros e2 Hload h2.
      assert (Hraise : Iceberg.create_iceberg_table env self name db h = (Raise e, h2)).
      { rewrite Hunfold. unfold try_except, bind, call, print, ret, raise.
        rewrite Hfail. unfold h2, h1 in Hload |- *.
        rewrite <- (app_assoc h [create]). cbn [app]. rewrite Hload.
        now rewrite <- !app_assoc. }
      split; [exact Hraise |]. split.
      * now apply (iceberg_table_creation_raises env self name db cfg).
      * unfold h2, h1. rewrite !submitted_app. cbn [submitted]. now rewrite !app_nil_r.
Qed.

Lemma create_table_falls_back_to_load_witness :
  exists table_config,
    py.dict_find Iceberg.ICEBERG_TABLES "orders" = Some table_config /\
    exists h2,
      Iceberg.generate_iceberg_table locked_catalog_env small_iceberg_generator "orders"
        "benchmark" [] = (Raise (LibraryError "table already exists"), h2) /\
      submitted h2 = [].
Proof.
  eexists. split; [reflexivity |].
  destruct (create_table_falls_back_to_load locked_catalog_env small_iceberg_generator
              "orders" "benchmark" _ [] eq_refl) as (sch & spec & _ & _ & Hfail).
  destruct (Hfail (LibraryError "table already exists") eq_refl) as (_ & Hboth).
  destruct (Hboth (LibraryError "table cannot be read") eq_refl) as (_ & Hgen & Hsub).
  eexists. split; [exact Hgen | exact Hsub].
Defined.

(* ===================================================================== *)
(** ** The Iceberg schema of an Arrow schema *)
(* ===================================================================== *)

Lemma convert_returns :
  forall t, exists ty, Iceberg._convert_arrow_type_to_iceberg t = Ret ty.
Proof. intros t. destruct t; eexists; reflexivity. Qed.

Lemma range_cons :
  forall a b, a < b -> py.range a b = a :: py.range (a + 1) b.
Proof.
  intros a b H. unfold py.range.
  replace (Z.to_nat (b - a)) with (S (Z.to_nat (b - (a + 1)))) by lia.
  cbn [seq map]. f_equal; [lia |].
  rewrite <- seq_shift, map_map. apply map_ext. intros k. lia.
Qed.

Lemma convert_fields_spec :
  forall fs i,
    exists nfs,
      Iceberg.convert_fields (py.enumerate_from i fs) = Ret nfs /\
      map schema.name nfs = map pa.name fs /\
      map schema.field_id nfs = py.range (i + 1) (i + 1 + len fs) /\
      map schema.required nfs = map (fun f => negb (pa.nullable f)) fs /\
      Forall2 (fun f nf =>
                 Iceberg._convert_arrow_type_to_iceberg (pa.type f) = Ret (schema.field_type nf))
              fs nfs.
Proof.
  induction fs as [| f fs IH]; intros i.
  - exists []. repeat split; try constructor.
    unfold len. simpl. now rewrite range_empty by lia.
  - destruct (convert_returns (pa.type f)) as (ty & Hty).
    destruct (IH (i + 1)) as (nfs & Hc & Hn & Hi & Hr & Ht).
    eexists (_ :: nfs). cbn [py.enumerate_from Iceberg.convert_fields].
    rewrite Hty, Hc. cbn [obind]. split; [reflexivity |].
    split; [| split; [| split]].
    + cbn [map schema.name]. now rewrite Hn.
    + cbn [map schema.field_id]. rewrite Hi. unfold len. cbn [List.length].
      rewrite (range_cons (i + 1)) by lia. f_equal. f_equal. lia.
    + cbn [map schema.required]. now rewrite Hr.
    + constructor; [exact Hty | exact Ht].
Qed.

Lemma iceberg_schema_conversion :
  forall arrow_schema : list pa.Field,
    exists sch,
      Iceberg.iceberg_schema_of arrow_schema = Ret sch /\
      map schema.name (schema.fields sch) = map pa.name arrow_schema /\
      map schema.field_id (schema.fields sch) = py.range 1 (len arrow_schema + 1).
Proof.
  intros fs. destruct (convert_fields_spec fs 0) as (nfs & Hc & Hn & Hi & _).
  exists {| schema.fields := nfs |}. unfold Iceberg.iceberg_schema_of, py.enumerate.
  rewrite Hc. cbn [obind schema.fields]. split; [reflexivity |].
  split; [exact Hn |]. rewrite Hi. f_equal. lia.
Qed.

(** X6.  Converting an Arrow schema never raises: the Iceberg schema has
    one field per Arrow field, in order, with the same names, the field
    identifiers 1, 2, ..., n, each field required exactly when the Arrow
    field is not nullable, and the type the conversion gives. *)
Theorem iceberg_schema_numbers_fields :
  forall arrow_schema : list pa.Field,
    exists sch,
      Iceberg.iceberg_schema_of arrow_schema = Ret sch /\
      map schema.name (schema.fields sch) = map pa.name arrow_schema /\
      map schema.field_id (schema.fields sch) = py.range 1 (len arrow_schema + 1) /\
      map schema.required (schema.fields sch)
        = map (fun f => negb (pa.nullable f)) arrow_schema /\
      Forall2 (fun f nf =>
                 Iceberg._convert_arrow_type_to_iceberg (pa.type f) = Ret (schema.field_type nf))
              arrow_schema (schema.fields sch).
Proof.
  intros fs. destruct (convert_fields_spec fs 0) as (nfs & Hc & Hn & Hi & Hr & Ht).
  exists {| schema.fields := nfs |}. unfold Iceberg.iceberg_schema_of, py.enumerate.
  rewrite Hc. cbn [obind schema.fields]. split; [reflexivity |].
  split; [exact Hn |]. split; [| split; [exact Hr | exact Ht]].
  rewrite Hi. f_equal. lia.
Qed.

Example customers_schema_ids :
  match py.dict_find Iceberg.ICEBERG_TABLES "customers" with
  | Some table_config =>
      match Iceberg.iceberg_schema_of (Iceberg.schema table_config) with
      | Ret sch =>
          map schema.field_id (schema.fields sch) = [1; 2; 3; 4; 5; 6; 7; 8; 9; 10; 11; 12; 13; 14]
          /\ Iceberg.source_id_of sch "registration_date" = Ret 8
          /\ Iceberg.source_id_of sch "signup_date" = Raise StopIteration
      | Raise _ => False
      end
  | None => False
  end.
Proof. vm_compute. repeat split. Qed.

(* ===================================================================== *)
(** ** When a partition spec can be built, and what it then holds *)
(* ===================================================================== *)

Lemma source_id_found :
  forall sch col,
    In col (map schema.name (schema.fields sch)) ->
    exists sid,
      Iceberg.source_id_of sch col = Ret sid /\
      In sid (map schema.field_id (schema.fields sch)).
Proof.
  intros sch col Hin. unfold Iceberg.source_id_of.
  destruct (find (fun f => schema.name f =? col) (schema.fields sch)) as [f |] eqn:Hf.
  - apply find_some in Hf as [Hf _]. exists (schema.field_id f). split; [reflexivity |].
    now apply in_map.
  - exfalso. apply in_map_iff in Hin as (f & Hname & Hf').
    pose proof (find_none _ _ Hf f Hf') as Hneq. cbv beta in Hneq.
    rewrite Hname, String.eqb_refl in Hneq. discriminate.
Qed.

Lemma source_id_missing :
  forall sch col,
    ~ In col (map schema.name (schema.fields sch)) ->
    Iceberg.source_id_of sch col = Raise StopIteration.
Proof.
  intros sch col Hnot. unfold Iceberg.source_id_of.
  destruct (find (fun f => schema.name f =? col) (schema.fields sch)) as [f |] eqn:Hf;
    [| reflexivity].
  exfalso. apply find_some in Hf as [Hf Heq]. apply String.eqb_eq in Heq.
  apply Hnot. rewrite <- Heq. now apply in_map.
Qed.

Lemma source_id_outcome :
  forall sch col,
    (exists sid, Iceberg.source_id_of sch col = Ret sid /\
                 In sid (map schema.field_id (schema.fields sch)) /\
                 In col (map schema.name (schema.fields sch))) \/
    (Iceberg.source_id_of sch col = Raise StopIteration /\
     ~ In col (map schema.name (schema.fields sch))).
Proof.
  intros sch col.
  destruct (in_dec string_dec col (map schema.name (schema.fields sch))) as [Hin | Hnot].
  - left. destruct (source_id_found sch col Hin) as (sid & H1 & H2). now exists sid.
  - right. split; [now apply source_id_missing | exact Hnot].
Qed.

(** One turn of the partition loop: an unselected column changes nothing;
    a selected column of the schema appends one field numbered by its
    position; a selected column that is missing raises. *)
Lemma partition_step_cases :
  forall sch i col acc,
    (selected col = false /\ Iceberg.partition_step sch i col acc = Ret acc) \/
    (selected col = true /\
     ((exists sid tr nm,
         In sid (map schema.field_id (schema.fields sch)) /\
         In col (map schema.name (schema.fields sch)) /\
         Iceberg.partition_step sch i col acc =
           Ret (acc ++ [ {| source_id := sid; field_id := 1000 + i; transform := tr;
                            name := nm |} ])%list) \/
      (~ In col (map schema.name (schema.fields sch)) /\
       Iceberg.partition_step sch i col acc = Raise StopIteration))).
Proof.
  intros sch i col acc.
  destruct (selected col) eqn:Hsel.
  - right. split; [reflexivity |]. unfold selected in Hsel. unfold Iceberg.partition_step.
    destruct (source_id_outcome sch col) as [(sid & Hs & Hin & Hname) | [Hs Hnot]];
      rewrite Hs; cbn [obind].
    + left. destruct (py.endswith col "_date");
        [| destruct (py.str_in col Iceberg.IDENTITY_COLUMNS);
           [| destruct (col =? "customer_id"); [| discriminate] ] ];
        do 3 eexists; (split; [exact Hin |]); (split; [exact Hname |]); reflexivity.
    + right. split; [exact Hnot |].
      destruct (py.endswith col "_date");
        [| destruct (py.str_in col Iceberg.IDENTITY_COLUMNS);
           [| destruct (col =? "customer_id"); [| discriminate] ] ]; reflexivity.
  - left. split; [reflexivity |]. now apply partition_step_unselected.
Qed.

Lemma partition_loop_builds :
  forall sch cols acc,
    (forall i col, In (i, col) cols -> selected col = true ->
                   In col (map schema.name (schema.fields sch))) ->
    exists fields, Iceberg.partition_loop sch cols acc = Ret fields.
Proof.
  intros sch cols; induction cols as [| [i col] rest IH]; intros acc Hall.
  - now exists acc.
  - cbn [Iceberg.partition_loop].
    destruct (partition_step_cases sch i col acc)
      as [[_ ->] | [Hsel [(sid & tr & nm & _ & _ & ->) | [Hnot _]]]]; cbn [obind].
    + apply IH. intros j c Hin. apply (Hall j c). now right.
    + apply IH. intros j c Hin. apply (Hall j c). now right.
    + exfalso. apply Hnot. apply (Hall i col); [now left | exact Hsel].
Qed.

Lemma partition_loop_stops :
  forall sch cols acc i col,
    In (i, col) cols -> selected col = true ->
    ~ In col (map schema.name (schema.fields sch)) ->
    Iceberg.partition_loop sch cols acc = Raise StopIteration.
Proof.
  intros sch cols; induction cols as [| [j c] rest IH]; intros acc i col Hin Hsel Hnot;
    [contradiction |].
  cbn [Iceberg.partition_loop].
  destruct (partition_step_cases sch j c acc)
    as [[Hs Hstep] | [Hs [(sid & tr & nm & _ & Hc & Hstep) | [_ Hstep]]]];
    rewrite Hstep; cbn [obind]; try reflexivity.
  - destruct Hin as [Heq | Hin]; [injection Heq as -> ->; congruence |].
    eapply IH; eassumption.
  - destruct Hin as [Heq | Hin]; [injection Heq as -> ->; contradiction |].
    eapply IH; eassumption.
Qed.

Lemma enumerate_from_In_inv :
  forall (A : Type) (l : list A) (k i : Z) (x : A),
    In (i, x) (py.enumerate_from k l) -> In x l.
Proof.
  intros A l; induction l as [| y l IH]; intros k i x H; [contradiction |].
  destruct H as [H | H]; [injection H as _ ->; now left | right; eapply IH; exact H].
Qed.

Lemma In_enumerate_from :
  forall (A : Type) (l : list A) (k : Z) (x : A),
    In x l -> exists i, In (i, x) (py.enumerate_from k l).
Proof.
  intros A l; induction l as [| y l IH]; intros k x H; [contradiction |].
  destruct H as [-> | H].
  - exists k. now left.
  - destruct (IH (k + 1) x H) as (i & Hi). exists i. now right.
Qed.

(** X7.  The partition spec of a table configuration can be built exactly
    when every column of its partition spec that a rule selects is a column
    of its schema; otherwise building it raises [StopIteration].  Columns
    no rule selects need not exist. *)
Theorem partition_spec_needs_its_columns :
  forall table_config : Iceberg.TableConfig,
    let names := map pa.name (Iceberg.schema table_config) in
    ((forall col, In col (Iceberg.partition_spec table_config) -> selected col = true ->
                  In col names) ->
     exists sch spec, Iceberg.build_partition_spec table_config = Ret (sch, spec)) /\
    (forall col, In col (Iceberg.partition_spec table_config) -> selected col = true ->
                 ~ In col names ->
     Iceberg.build_partition_spec table_config = Raise StopIteration).
Proof.
  intros cfg names.
  destruct (iceberg_schema_conversion (Iceberg.schema cfg)) as (sch & Hsch & Hnames & _).
  unfold Iceberg.build_partition_spec, py.enumerate. rewrite Hsch. cbn [obind].
  unfold names. rewrite <- Hnames. split.
  - intros Hall.
    destruct (partition_loop_builds sch (py.enumerate_from 0 (Iceberg.partition_spec cfg)) [])
      as (fields & ->).
    + intros i col Hin. apply Hall. exact (enumerate_from_In_inv _ _ _ _ _ Hin).
    + cbn [obind]. eauto.
  - intros col Hin Hsel Hnot.
    destruct (In_enumerate_from _ _ 0 col Hin) as (i & Hi).
    now rewrite (partition_loop_stops sch _ [] i col Hi Hsel Hnot).
Qed.

Lemma partition_spec_needs_its_columns_witness :
  In "return_date" (Iceberg.partition_spec misconfigured_table) /\
  selected "return_date" = true /\
  ~ In "return_date" (map pa.name (Iceberg.schema misconfigured_table)) /\
  Iceberg.build_partition_spec misconfigured_table = Raise StopIteration.
Proof.
  assert (H1 : In "return_date" (Iceberg.partition_spec misconfigured_table))
    by (simpl; tauto).
  assert (H2 : selected "return_date" = true) by reflexivity.
  assert (H3 : ~ In "return_date" (map pa.name (Iceberg.schema misconfigured_table))).
  { simpl. intros [H | [H | [H | H]]]; try discriminate; exact H. }
  repeat (split; [assumption |]).
  exact (proj2 (partition_spec_needs_its_columns misconfigured_table) "return_date" H1 H2 H3).
Defined.

Lemma partition_loop_fields :
  forall sch cols k acc fields,
    Iceberg.partition_loop sch (py.enumerate_from k cols) acc = Ret fields ->
    exists new,
      fields = (acc ++ new)%list /\
      List.length new = List.length (filter selected cols) /\
      StronglySorted Z.lt (map field_id new) /\
      Forall (fun f => 1000 + k <= field_id f < 1000 + k + len cols /\
                       In (source_id f) (map schema.field_id (schema.fields sch))) new.
Proof.
  intros sch cols; induction cols as [| col rest IH]; intros k acc fields Hrun.
  - cbn in Hrun. injection Hrun as <-. exists []. rewrite app_nil_r.
    repeat split; constructor.
  - cbn [py.enumerate_from Iceberg.partition_loop] in Hrun.
    assert (Hlen : len (col :: rest) = len rest + 1) by (unfold len; cbn [List.length]; lia).
    destruct (partition_step_cases sch k col acc)
      as [[Hsel Hstep] | [Hsel [(sid & tr & nm & Hsid & _ & Hstep) | [_ Hstep]]]];
      rewrite Hstep in Hrun; cbn [obind] in Hrun; [| | discriminate].
    + destruct (IH _ _ _ Hrun) as (new & -> & Hl & Hs & Hb).
      exists new. cbn [filter]. rewrite Hsel, Hlen. split; [reflexivity |].
      split; [exact Hl |]. split; [exact Hs |].
      eapply Forall_impl; [| exact Hb]. cbv beta. intros f [Hf1 Hf2]. split; [lia | exact Hf2].
    + destruct (IH _ _ _ Hrun) as (new & -> & Hl & Hs & Hb).
      eexists (_ :: new). rewrite <- app_assoc. cbn [app filter]. rewrite Hsel, Hlen.
      split; [reflexivity |]. split; [cbn [List.length]; now rewrite Hl |].
      split; [| constructor].
      * cbn [map field_id]. constructor; [exact Hs |].
        apply Forall_map. eapply Forall_impl; [| exact Hb]. cbv beta. intros f [Hf _]. lia.
      * cbn [field_id source_id]. split; [pose proof (Zle_0_nat (List.length rest)); unfold len in *; lia
                                         | exact Hsid].
      * eapply Forall_impl; [| exact Hb]. cbv beta. intros f [Hf1 Hf2].
        split; [lia | exact Hf2].
Qed.

(** X8.  Whatever partition spec is built, it holds one field per selected
    column of the configuration, in order; the field identifiers are
    [1000 +] the column's position in the partition spec, so they strictly
    increase (and skip the positions of unselected columns), and every
    source identifier is the identifier of a schema field, between 1 and
    the number of columns. *)
Theorem partition_fields_are_numbered :
  forall (table_config : Iceberg.TableConfig) sch spec,
    Iceberg.build_partition_spec table_config = Ret (sch, spec) ->
    List.length (spec_fields spec)
      = List.length (filter selected (Iceberg.partition_spec table_config)) /\
    StronglySorted Z.lt (map field_id (spec_fields spec)) /\
    Forall (fun f =>
              1000 <= field_id f < 1000 + len (Iceberg.partition_spec table_config) /\
              1 <= source_id f <= len (Iceberg.schema table_config))
           (spec_fields spec).
Proof.
  intros cfg sch spec Hbuild.
  destruct (iceberg_schema_conversion (Iceberg.schema cfg)) as (sch' & Hsch & _ & Hids).
  unfold Iceberg.build_partition_spec, py.enumerate in Hbuild. rewrite Hsch in Hbuild.
  cbn [obind] in Hbuild.
  destruct (Iceberg.partition_loop sch' (py.enumerate_from 0 (Iceberg.partition_spec cfg)) [])
    as [fields |] eqn:Hloop; cbn [obind] in Hbuild; [| discriminate].
  injection Hbuild as <- <-. cbn [spec_fields].
  destruct (partition_loop_fields _ _ _ _ _ Hloop) as (new & -> & Hl & Hs & Hb).
  cbn [app]. split; [exact Hl |]. split; [exact Hs |].
  eapply Forall_impl; [| exact Hb]. cbv beta. intros f [Hf1 Hf2].
  split; [lia |]. rewrite Hids in Hf2. apply range_In in Hf2. lia.
Qed.

Lemma partition_fields_are_numbered_witness :
  exists table_config sch spec,
    py.dict_find Iceberg.ICEBERG_TABLES "suppliers" = Some table_config /\
    Iceberg.build_partition_spec table_config = Ret (sch, spec) /\
    List.length (spec_fields spec)
      = List.length (filter selected (Iceberg.partition_spec table_config)) /\
    StronglySorted Z.lt (map field_id (spec_fields spec)) /\
    Forall (fun f =>
              1000 <= field_id f < 1000 + len (Iceberg.partition_spec table_config) /\
              1 <= source_id f <= len (Iceberg.schema table_config))
           (spec_fields spec).
Proof.
  eexists. eexists. eexists. split; [reflexivity |].
  match goal with |- ?E /\ _ => assert (Hb : E) by (vm_compute; reflexivity) end.
  split; [exact Hb | exact (partition_fields_are_numbered _ _ _ Hb)].
Defined.

(* ===================================================================== *)
(** ** The files of a chunk *)
(* ===================================================================== *)

Lemma string_app_inv_head :
  forall a x y : string, a ++ x = a ++ y -> x = y.
Proof.
  induction a as [| c a IH]; intros x y H; [exact H |].
  simpl in H. injection H as H. now apply IH.
Qed.

Lemma string_length_app :
  forall a b : string, String.length (a ++ b) = (String.length a + String.length b)%nat.
Proof. induction a as [| c a IH]; intros b; simpl; [reflexivity | now rewrite IH]. Qed.

Lemma string_app_inv_tail :
  forall x y s : string, x ++ s = y ++ s -> x = y.
Proof.
  induction x as [| c x IH]; intros y s H.
  - destruct y as [| d y]; [reflexivity |]. exfalso.
    apply (f_equal String.length) in H. simpl in H. rewrite string_length_app in H. lia.
  - destruct y as [| d y].
    + exfalso. apply (f_equal String.length) in H. simpl in H.
      rewrite string_length_app in H. lia.
    + simpl in H. injection H as -> H. f_equal. eapply IH. exact H.
Qed.

Lemma zeros_parse :
  forall k s,
    NilEmpty.uint_of_string (py.zeros k ++ s)
      = option_map (Nat.iter k Decimal.D0) (NilEmpty.uint_of_string s).
Proof.
  induction k as [| k IH]; intros s.
  - simpl. now destruct (NilEmpty.uint_of_string s).
  - cbn [py.zeros append NilEmpty.uint_of_string]. rewrite IH.
    now destruct (NilEmpty.uint_of_string s).
Qed.

Lemma of_uint_leading_zeros :
  forall k d, Z.of_uint (Nat.iter k Decimal.D0 d) = Z.of_uint d.
Proof. induction k as [| k IH]; intros d; [reflexivity | simpl; apply IH]. Qed.

Lemma str_digits :
  forall n, 0 <= n ->
    exists d, py.str n = NilEmpty.string_of_uint d /\ Z.of_uint d = n.
Proof.
  intros [| p | p] H; [| | lia].
  - exists Decimal.zero. split; reflexivity.
  - exists (Pos.to_uint p). split.
    + unfold py.str. cbn [Z.to_int NilZero.string_of_int]. unfold NilZero.string_of_uint.
      pose proof (DecimalPos.Unsigned.to_uint_nonnil p) as Hn.
      destruct (Pos.to_uint p); [contradiction | reflexivity ..].
    + exact (DecimalZ.of_to (Z.pos p)).
Qed.

(** The zero-padded chunk number reads back as the chunk number. *)
Lemma format_06d_reads_back :
  forall n, 0 <= n ->
    option_map Z.of_uint (NilEmpty.uint_of_string (py.format_06d n)) = Some n.
Proof.
  intros n H. unfold py.format_06d.
  destruct (Z.ltb_spec n 0) as [Hneg | _]; [lia |].
  rewrite Z.abs_eq by exact H.
  destruct (str_digits n H) as (d & -> & Hd).
  cbn [append]. rewrite zeros_parse, NilEmpty.usu. cbn [option_map].
  now rewrite of_uint_leading_zeros, Hd.
Qed.

Lemma format_06d_inj :
  forall n m, 0 <= n -> 0 <= m -> py.format_06d n = py.format_06d m -> n = m.
Proof.
  intros n m Hn Hm H.
  pose proof (format_06d_reads_back n Hn) as E. rewrite H, (format_06d_reads_back m Hm) in E.
  now injection E.
Qed.

Lemma chunk_local_path_inj :
  forall table_name n m,
    0 <= n -> 0 <= m ->
    chunk_local_path table_name n = chunk_local_path table_name m -> n = m.
Proof.
  intros t n m Hn Hm H. unfold chunk_local_path in H.
  apply string_app_inv_head in H. apply string_app_inv_head in H.
  apply string_app_inv_head in H. apply string_app_inv_tail in H.
  now apply format_06d_inj.
Qed.

Lemma chunk_s3_key_inj :
  forall self table_name n m,
    0 <= n -> 0 <= m ->
    chunk_s3_key self table_name n = chunk_s3_key self table_name m -> n = m.
Proof.
  intros self t n m Hn Hm H. unfold chunk_s3_key in H.
  do 6 apply string_app_inv_head in H. apply string_app_inv_tail in H.
  now apply format_06d_inj.
Qed.

(** Every call a chunk makes is on its own file and key. *)
Lemma process_chunk_files :
  forall env self table_name chunk_id chunk_size generate_func h,
    exists r acts,
      Benchmark.process_chunk env self table_name chunk_id chunk_size generate_func h
        = (r, (h ++ acts)%list) /\
      Forall (own_file_act self table_name chunk_id) acts.
Proof.
  intros env self name cid cs gen h.
  unfold Benchmark.process_chunk, try_except, bind, lift, call, print, ret.
  destruct (gen cid cs) as [df | e0].
  - destruct (fails env h (EToParquet df _)) as [e1 |].
    { eexists _, [_; _]. history_norm. split; [reflexivity |].
      repeat constructor. }
    destruct (fails env (h ++ [EToParquet df _]) (EUploadFile _ _ _)) as [e2 |].
    { eexists _, [_; _; _]. history_norm. split; [reflexivity |].
      repeat constructor. }
    destruct (fails env ((h ++ [EToParquet df _]) ++ [EUploadFile _ _ _]) (ERemove _)) as [e3 |].
    { eexists _, [_; _; _; _]. history_norm. split; [reflexivity |].
      repeat constructor. }
    eexists _, [_; _; _]. history_norm. split; [reflexivity |].
    repeat constructor.
  - eexists _, [_]. split; [reflexivity |]. repeat constructor.
Qed.

(** X9.  Two different chunks of a table never touch the same file: the
    local parquet files they write, upload and remove have different
    paths, and their S3 keys differ, so no chunk overwrites or removes the
    file of another, whatever the order the pool runs them in. *)
Theorem chunks_use_their_own_files :
  forall env self table_name chunk_size generate_func c1 c2 h1 h2 r1 r2 acts1 acts2,
    0 <= c1 -> 0 <= c2 -> c1 <> c2 ->
    Benchmark.process_chunk env self table_name c1 chunk_size generate_func h1
      = (r1, (h1 ++ acts1)%list) ->
    Benchmark.process_chunk env self table_name c2 chunk_size generate_func h2
      = (r2, (h2 ++ acts2)%list) ->
    (forall df1 p1 df2 p2,
       In (EToParquet df1 p1) acts1 -> In (EToParquet df2 p2) acts2 -> p1 <> p2) /\
    (forall p1 b1 k1 p2 b2 k2,
       In (EUploadFile p1 b1 k1) acts1 -> In (EUploadFile p2 b2 k2) acts2 ->
       p1 <> p2 /\ k1 <> k2) /\
    (forall p1 p2 df2 b2 k2,
       In (ERemove p1) acts1 ->
       In (EToParquet df2 p2) acts2 \/ In (EUploadFile p2 b2 k2) acts2 -> p1 <> p2).
Proof.
  intros env self name cs gen c1 c2 h1 h2 r1 r2 acts1 acts2 H1 H2 Hne Hrun1 Hrun2.
  destruct (process_chunk_files env self name c1 cs gen h1) as (r1' & a1 & E1 & F1).
  destruct (process_chunk_files env self name c2 cs gen h2) as (r2' & a2 & E2 & F2).
  rewrite Hrun1 in E1. injection E1 as _ E1. apply app_inv_head in E1. subst a1.
  rewrite Hrun2 in E2. injection E2 as _ E2. apply app_inv_head in E2. subst a2.
  rewrite Forall_forall in F1, F2.
  split; [| split].
  - intros df1 p1 df2 p2 Hin1 Hin2 Heq.
    pose proof (F1 _ Hin1) as P1. pose proof (F2 _ Hin2) as P2. cbn in P1, P2. subst p1 p2.
    apply Hne. now apply (chunk_local_path_inj name).
  - intros p1 b1 k1 p2 b2 k2 Hin1 Hin2.
    pose proof (F1 _ Hin1) as (P1 & _ & K1). pose proof (F2 _ Hin2) as (P2 & _ & K2).
    subst p1 p2 k1 k2. split; intros Heq; apply Hne.
    + now apply (chunk_local_path_inj name).
    + now apply (chunk_s3_key_inj self name).
  - intros p1 p2 df2 b2 k2 Hin1 [Hin2 | Hin2] Heq;
      pose proof (F1 _ Hin1) as P1; pose proof (F2 _ Hin2) as P2; cbn in P1, P2.
    + subst p1 p2. apply Hne. now apply (chunk_local_path_inj name).
    + destruct P2 as (P2 & _). subst p1 p2. apply Hne. now apply (chunk_local_path_inj name).
Qed.

Lemma chunks_use_their_own_files_witness :
  0 <= 0 /\ 0 <= 1 /\ 0 <> 1 /\
  exists r1 acts1 r2 acts2,
    Benchmark.process_chunk quiet_env small_generator "customers" 0 4
      (Benchmark.generate_customers_chunk small_generator) [] = (r1, ([] ++ acts1)%list) /\
    Benchmark.process_chunk quiet_env small_generator "customers" 1 4
      (Benchmark.generate_customers_chunk small_generator) [] = (r2, ([] ++ acts2)%list) /\
    (forall df1 p1 df2 p2,
       In (EToParquet df1 p1) acts1 -> In (EToParquet df2 p2) acts2 -> p1 <> p2).
Proof.
  assert (H0 : 0 <= 0) by lia. assert (H1 : 0 <= 1) by lia. assert (Hne : 0 <> 1) by lia.
  split; [exact H0 |]. split; [exact H1 |]. split; [exact Hne |].
  do 4 eexists.
  match goal with |- ?E1 /\ ?E2 /\ _ =>
    assert (R1 : E1) by (vm_compute; reflexivity);
    assert (R2 : E2) by (vm_compute; reflexivity)
  end.
  split; [exact R1 |]. split; [exact R2 |].
  exact (proj1 (chunks_use_their_own_files quiet_env small_generator "customers" 4
                  (Benchmark.generate_customers_chunk small_generator) 0 1 [] [] _ _ _ _
                  H0 H1 Hne R1 R2)).
Defined.

(** X10.  The local parquet file of a chunk is removed only at the end of
    a chunk that succeeds.  A chunk that returns [True] wrote its file,
    uploaded it under its key and removed it, in that order and nothing
    else.  A chunk whose upload raises has written the file and never
    attempts to remove it: the file stays in [/tmp]. *)
Theorem local_file_is_removed_only_on_success :
  forall env self table_name chunk_id chunk_size generate_func h,
    let local_path := chunk_local_path table_name chunk_id in
    let upload :=
      EUploadFile local_path (Benchmark.s3_bucket self) (chunk_s3_key self table_name chunk_id) in
    (forall acts,
       Benchmark.process_chunk env self table_name chunk_id chunk_size generate_func h
         = (Ret true, (h ++ acts)%list) ->
       exists df,
         generate_func chunk_id chunk_size = Ret df /\
         acts = [EToParquet df local_path; upload; ERemove local_path]) /\
    (forall df e,
       generate_func chunk_id chunk_size = Ret df ->
       fails env h (EToParquet df local_path) = None ->
       fails env (h ++ [EToParquet df local_path]) upload = Some e ->
       exists report,
         Benchmark.process_chunk env self table_name chunk_id chunk_size generate_func h
           = (Ret false, (h ++ [EToParquet df local_path; upload; EPrint report])%list)).
Proof.
  intros env self name cid cs gen h local_path upload. split.
  - intros acts Hrun.
    unfold Benchmark.process_chunk, try_except, bind, lift, call, print, ret in Hrun.
    fold (chunk_local_path name cid) in Hrun. fold local_path in Hrun.
    fold (chunk_s3_key self name cid) in Hrun. fold upload in Hrun.
    destruct (gen cid cs) as [df | e0]; [| discriminate].
    destruct (fails env h (EToParquet df local_path)); [discriminate |].
    destruct (fails env (h ++ [EToParquet df local_path]) upload); [discriminate |].
    destruct (fails env ((h ++ [EToParquet df local_path]) ++ [upload]) (ERemove local_path));
      [discriminate |].
    exists df. split; [reflexivity |].
    injection Hrun as Hrun. rewrite <- !app_assoc in Hrun. cbn [app] in Hrun.
    apply app_inv_head in Hrun. now symmetry.
  - intros df e Hgen Hwrite Hup. eexists.
    unfold Benchmark.process_chunk, try_except, bind, lift, call, print, ret.
    fold (chunk_local_path name cid). fold local_path.
    fold (chunk_s3_key self name cid). fold upload.
    rewrite Hgen, Hwrite, Hup. now rewrite <- !app_assoc.
Qed.

Lemma local_file_is_removed_only_on_success_witness :
  exists df e report,
    Benchmark.generate_customers_chunk small_generator 1 4 = Ret df /\
    fails flaky_env [] (EToParquet df (chunk_local_path "customers" 1)) = None /\
    fails flaky_env [EToParquet df (chunk_local_path "customers" 1)]
      (EUploadFile (chunk_local_path "customers" 1) (Benchmark.s3_bucket small_generator)
         (chunk_s3_key small_generator "customers" 1)) = Some e /\
    Benchmark.process_chunk flaky_env small_generator "customers" 1 4
      (Benchmark.generate_customers_chunk small_generator) []
      = (Ret false,
         [EToParquet df (chunk_local_path "customers" 1);
          EUploadFile (chunk_local_path "customers" 1) (Benchmark.s3_bucket small_generator)
            (chunk_s3_key small_generator "customers" 1);
          EPrint report]).
Proof.
  do 2 eexists.
  match goal with |- exists report, ?G /\ ?W /\ ?U /\ _ =>
    assert (Hg : G) by (vm_compute; reflexivity);
    assert (Hw : W) by reflexivity;
    assert (Hu : U) by (vm_compute; reflexivity)
  end.
  destruct (proj2 (local_file_is_removed_only_on_success flaky_env small_generator "customers"
                     1 4 (Benchmark.generate_customers_chunk small_generator) [])
              _ _ Hg Hw Hu) as (report & Hrun).
  exists report. repeat (split; [assumption |]). exact Hrun.
Defined.

(* ===================================================================== *)
(** ** Runs in which no library call fails *)
(* ===================================================================== *)

Lemma np_multiply_ok :
  forall k n a b,
    column_ok n (k, a) -> column_ok n (k, b) -> column_ok n (k, np_multiply a b).
Proof.
  intros k n a b (x & Hx & Hlx) (y & Hy & Hly). simpl in Hx, Hy. subst a b.
  exists (pd.Drawn n). unfold np_multiply. cbn [snd obind].
  rewrite Hlx, Hly, Z.eqb_refl. split; reflexivity.
Qed.

Lemma frame_returns :
  forall n k c rest,
    pd.col_len c = n ->
    Forall (column_ok n) rest ->
    exists df, pd.DataFrame_ ((k, Ret c) :: rest) = Ret df.
Proof.
  intros n k c rest Hc Hrest.
  destruct (DataFrame_ok n k c rest Hc Hrest) as (df & Hdf & _). now exists df.
Qed.

Lemma ids_len :
  forall num, 0 < num -> 0 < len (py.range 1 (num + 1)).
Proof. intros num H. unfold len. rewrite range_len; lia. Qed.

Ltac entry_ok :=
  first
    [ apply random_choice_ok; [first [assumption | reflexivity] | lia]
    | apply random_sized_ok; lia
    | apply date_range_ok; lia
    | apply drawn_comprehension_ok; lia
    | apply repeated_ok; lia
    | apply benchmark_fake_data_ok; lia
    | apply iceberg_fake_data_ok; lia
    | apply np_multiply_ok; entry_ok
    | eexists; split;
      [reflexivity | cbn [pd.col_len snd]; rewrite ?length_map; rewrite ?range_len; lia] ].

Ltac entries_ok := repeat (apply Forall_cons; [entry_ok |]); apply Forall_nil.

Ltac ids_column := cbn [pd.col_len]; rewrite range_len; lia.



Lemma Forall2_In_right :
  forall (A B : Type) (R : A -> B -> Prop) l l' y,
    Forall2 R l l' -> In y l' -> exists x, In x l /\ R x y.
Proof.
  intros A B R l l' y H; induction H as [| a b l l' Hab _ IH]; intros Hin; [contradiction |].
  destruct Hin as [-> | Hin].
  - exists a. split; [now left | exact Hab].
  - destruct (IH Hin) as (x & Hx & Hr). exists x. split; [now right | exact Hr].
Qed.




Lemma dict_find_key :
  forall (V : Type) (d : list (string * V)) k v,
    py.dict_find d k = Some v -> In k (py.keys d).
Proof.
  intros V d k v; induction d as [| [k' v'] d IH]; intros H; [discriminate |].
  cbn [py.dict_find] in H. unfold py.keys. cbn [map fst In].
  destruct (String.eqb_spec k' k) as [-> | Hne]; [now left | right; now apply IH].
Qed.

Ltac dates_drawn n :=
  unfold pd.date_range, np.random_randint, np.random_exponential, np.random_sized;
  destruct (Z.ltb_spec n 0) as [? | _]; [lia |]; cbn [obind Iceberg.mapped pd.col_len].

(** The Iceberg generators return a frame for every chunk of every
    configured table. *)
Lemma iceberg_chunks_return :
  forall (self : Iceberg.IcebergTableGenerator) table_name table_config chunk_id chunk_size,
    py.dict_find Iceberg.ICEBERG_TABLES table_name = Some table_config ->
    0 < chunk_size ->
    0 < Iceberg.num_customers self -> 0 < Iceberg.num_products self ->
    0 < Iceberg.num_suppliers self -> 0 < Iceberg.num_orders self ->
    exists df, Iceberg.generate_table_data self table_name chunk_id chunk_size = Ret df.
Proof.
  intros self name cfg cid cs Hcfg Hcs Hc Hp Hs Ho.
  pose proof (ids_len _ Hc) as Hlc. fold (Iceberg.customer_ids self) in Hlc.
  pose proof (ids_len _ Hp) as Hlp. fold (Iceberg.product_ids self) in Hlp.
  pose proof (ids_len _ Hs) as Hls. fold (Iceberg.supplier_ids self) in Hls.
  pose proof (ids_len _ Ho) as Hlo. fold (Iceberg.order_ids self) in Hlo.
  assert (Hlp1 : 0 < len (Iceberg.product_ids self) + 1) by lia.
  apply dict_find_key in Hcfg. simpl in Hcfg.
  destruct Hcfg as [<- | [<- | [<- | [<- | [<- | [<- | [<- | []]]]]]]].
  - change (Iceberg.generate_table_data self "customers" cid cs)
      with (Iceberg._generate_customers_data self cid cs).
    destruct (Z.lt_ge_cases (cid * cs) (Iceberg.num_customers self)) as [Hlt | Hge].
    + destruct (iceberg_customers_full cid cs Hcs self Hlt) as (df & Hdf & _). now exists df.
    + exists pd.DataFrame_empty. apply iceberg_customers_empty; lia.
  - change (Iceberg.generate_table_data self "products" cid cs)
      with (Iceberg._generate_products_data self cid cs).
    unfold Iceberg._generate_products_data.
    set (actual_size := Z.min cs (Iceberg.num_products self - cid * cs)).
    destruct (Z.leb_spec actual_size 0) as [Hle | Hgt]; [now eexists |].
    apply (frame_returns actual_size); [ids_column | entries_ok].
  - change (Iceberg.generate_table_data self "orders" cid cs)
      with (Iceberg._generate_orders_data self cid cs).
    unfold Iceberg._generate_orders_data. dates_drawn cs.
    apply (frame_returns cs); [ids_column | entries_ok].
  - change (Iceberg.generate_table_data self "lineitem" cid cs)
      with (Iceberg._generate_lineitem_data self cid cs).
    unfold Iceberg._generate_lineitem_data. dates_drawn cs.
    apply (frame_returns cs); [ids_column | entries_ok].
  - change (Iceberg.generate_table_data self "events" cid cs)
      with (Iceberg._generate_events_data self cid cs).
    unfold Iceberg._generate_events_data. dates_drawn cs.
    apply (frame_returns cs); [ids_column | entries_ok].
  - change (Iceberg.generate_table_data self "inventory" cid cs)
      with (Iceberg._generate_inventory_data self cid cs).
    unfold Iceberg._generate_inventory_data. dates_drawn cs.
    apply (frame_returns cs); [ids_column | entries_ok].
  - change (Iceberg.generate_table_data self "suppliers" cid cs)
      with (Iceberg._generate_suppliers_data self cid cs).
    unfold Iceberg._generate_suppliers_data.
    set (actual_size := Z.min cs (Iceberg.num_suppliers self - cid * cs)).
    destruct (Z.leb_spec actual_size 0) as [Hle | Hgt]; [now eexists |].
    dates_drawn actual_size.
    apply (frame_returns actual_size); [ids_column | entries_ok].
Qed.

Lemma process_table_chunk_succeeds :
  forall env self table_name table chunk_id chunk_size df h,
    never_fails env ->
    Iceberg.generate_table_data self table_name chunk_id chunk_size = Ret df ->
    fst (Iceberg.process_table_chunk env self table_name table chunk_id chunk_size h) = Ret true.
Proof.
  intros env self name table cid cs df h Hq Hgen.
  unfold Iceberg.process_table_chunk, Iceberg.write_to_iceberg_table,
    try_except, bind, lift, call, print, ret.
  rewrite Hgen. destruct (pd.empty df); [reflexivity |]. rewrite !Hq. reflexivity.
Qed.

Lemma create_iceberg_table_succeeds :
  forall env self table_name database_name table_config h,
    never_fails env ->
    py.dict_find Iceberg.ICEBERG_TABLES table_name = Some table_config ->
    exists table h1,
      Iceberg.create_iceberg_table env self table_name database_name h = (Ret table, h1).
Proof.
  intros env self name db cfg h Hq Hcfg.
  destruct (configured_tables_build name cfg Hcfg) as (sch & spec & Hbuild).
  unfold Iceberg.create_iceberg_table, py.dict_item. rewrite Hcfg.
  unfold bind at 1, lift. unfold bind at 1. rewrite Hbuild.
  unfold try_except, bind, call, print, ret. rewrite Hq. eexists _, _. reflexivity.
Qed.

(** When no library call fails, every configured Iceberg table succeeds. *)
Lemma iceberg_table_succeeds :
  forall env (self : Iceberg.IcebergTableGenerator) table_name database_name table_config h,
    never_fails env ->
    0 < Iceberg.num_customers self -> 0 < Iceberg.num_products self ->
    0 < Iceberg.num_suppliers self -> 0 < Iceberg.num_orders self ->
    py.dict_find Iceberg.ICEBERG_TABLES table_name = Some table_config ->
    exists h',
      Iceberg.generate_iceberg_table env self table_name database_name h = (Ret true, h').
Proof.
  intros env self name db cfg h Hq Hc Hp Hs Ho Hcfg.
  destruct (create_iceberg_table_succeeds env self name db cfg h Hq Hcfg)
    as (table & h1 & Hcreate).
  destruct (iceberg_table_spec env self name db cfg h table h1 Hcfg Hcreate)
    as (futures & acts1 & acts2 & Hsub & Hrun & Hlen & _ & _).
  pose proof (iceberg_num_chunks_pos (Iceberg.table_size_gb self cfg)) as Hpos.
  eexists. rewrite Hrun. f_equal. f_equal.
  assert (HF : Forall (eq (Ret true)) futures).
  { pose proof (submit_all_results env name
                  (fun cid => Iceberg.generate_table_data self name cid Iceberg.CHUNK_SIZE)
                  (fun cid => Iceberg.process_table_chunk env self name table cid Iceberg.CHUNK_SIZE)
                  (fun cid h' =>
                     process_table_chunk_reports env self name table cid Iceberg.CHUNK_SIZE h')
                  _ _ _ _ Hsub) as HF2.
    apply Forall_forall. intros f Hf.
    destruct (Forall2_In_right _ _ _ _ _ f HF2 Hf) as (c & _ & hc & b & hc' & -> & Hb).
    destruct (iceberg_chunks_return self name cfg c Iceberg.CHUNK_SIZE Hcfg eq_refl Hc Hp Hs Ho)
      as (df & Hdf).
    pose proof (process_table_chunk_succeeds env self name table c Iceberg.CHUNK_SIZE df hc
                  Hq Hdf) as Ht.
    rewrite Hb in Ht. simpl in Ht. now symmetry. }
  apply successes_all in HF. rewrite HF, Hlen.
  apply Qgtb_spec. apply threshold_arith; lia.
Qed.

Lemma iceberg_generate_tables_succeed :
  forall env (self : Iceberg.IcebergTableGenerator) database_name,
    never_fails env ->
    0 < Iceberg.num_customers self -> 0 < Iceberg.num_products self ->
    0 < Iceberg.num_suppliers self -> 0 < Iceberg.num_orders self ->
    forall tables successful_tables h,
    exists n h',
      Iceberg.generate_tables env self database_name tables successful_tables h = (Ret n, h') /\
      (Forall configured tables -> n = successful_tables + Z.of_nat (List.length tables)).
Proof.
  intros env self db Hq Hc Hp Hs Ho tables;
    induction tables as [| name rest IH]; intros acc h.
  - exists acc, h. split; [reflexivity |]. intros _. simpl. lia.
  - cbn [Iceberg.generate_tables].
    destruct (py.dict_find Iceberg.ICEBERG_TABLES name) as [cfg |] eqn:Hcfg.
    + destruct (iceberg_table_succeeds env self name db cfg h Hq Hc Hp Hs Ho Hcfg)
        as (h1 & Hone).
      unfold bind at 1. rewrite Hone.
      destruct (IH (acc + 1) h1) as (n & h2 & Hr & Hn).
      exists n, h2. split; [exact Hr |].
      intros Hall. inversion Hall as [| ? ? _ Hrest]; subst.
      rewrite (Hn Hrest). cbn [List.length]. lia.
    + unfold bind at 1, print.
      destruct (IH acc (h ++ [EPrint ("Unknown table: " ++ name)])%list) as (n & h2 & Hr & Hn).
      exists n, h2. split; [exact Hr |].
      intros Hall. inversion Hall as [| ? ? (cfg & Hsome) _]; subst. congruence.
Qed.



(* ===================================================================== *)
(** ** Iceberg chunks past the end of a table *)
(* ===================================================================== *)

Lemma empty_chunk_completes :
  forall env self table_name table chunk_id chunk_size h,
    Iceberg.generate_table_data self table_name chunk_id chunk_size = Ret pd.DataFrame_empty ->
    Iceberg.process_table_chunk env self table_name table chunk_id chunk_size h = (Ret true, h).
Proof.
  intros env self name table cid cs h Hgen.
  unfold Iceberg.process_table_chunk, try_except, bind, lift. rewrite Hgen. reflexivity.
Qed.

Lemma iceberg_products_empty :
  forall (self : Iceberg.IcebergTableGenerator) chunk_id chunk_size,
    Iceberg.num_products self <= chunk_id * chunk_size ->
    Iceberg._generate_products_data self chunk_id chunk_size = Ret pd.DataFrame_empty.
Proof.
  intros self cid cs Hge. unfold Iceberg._generate_products_data.
  destruct (Z.leb_spec (Z.min cs (Iceberg.num_products self - cid * cs)) 0);
    [reflexivity | lia].
Qed.

Lemma iceberg_suppliers_empty :
  forall (self : Iceberg.IcebergTableGenerator) chunk_id chunk_size,
    Iceberg.num_suppliers self <= chunk_id * chunk_size ->
    Iceberg._generate_suppliers_data self chunk_id chunk_size = Ret pd.DataFrame_empty.
Proof.
  intros self cid cs Hge. unfold Iceberg._generate_suppliers_data.
  destruct (Z.leb_spec (Z.min cs (Iceberg.num_suppliers self - cid * cs)) 0);
    [reflexivity | lia].
Qed.

(** X13.  On the Iceberg path a chunk of the customers, products or
    suppliers table that starts at or past the last row of the table is
    counted as completed although it does nothing: [process_table_chunk]
    returns [True] without converting or appending a frame and without
    printing, whatever the environment.  (The parquet script reports such
    a chunk of products or suppliers as failed.) *)
Theorem iceberg_chunks_past_the_end_complete :
  forall env (self : Iceberg.IcebergTableGenerator) table chunk_id chunk_size h,
    (Iceberg.num_customers self <= chunk_id * chunk_size ->
     Iceberg.process_table_chunk env self "customers" table chunk_id chunk_size h
       = (Ret true, h)) /\
    (Iceberg.num_products self <= chunk_id * chunk_size ->
     Iceberg.process_table_chunk env self "products" table chunk_id chunk_size h
       = (Ret true, h)) /\
    (Iceberg.num_suppliers self <= chunk_id * chunk_size ->
     Iceberg.process_table_chunk env self "suppliers" table chunk_id chunk_size h
       = (Ret true, h)).
Proof.
  intros env self table cid cs h. split; [| split]; intros Hge; apply empty_chunk_completes.
  - change (Iceberg.generate_table_data self "customers" cid cs)
      with (Iceberg._generate_customers_data self cid cs).
    now apply iceberg_customers_empty.
  - change (Iceberg.generate_table_data self "products" cid cs)
      with (Iceberg._generate_products_data self cid cs).
    now apply iceberg_products_empty.
  - change (Iceberg.generate_table_data self "suppliers" cid cs)
      with (Iceberg._generate_suppliers_data self cid cs).
    now apply iceberg_suppliers_empty.
Qed.

Lemma iceberg_chunks_past_the_end_complete_witness :
  Iceberg.num_suppliers (generator_with (Iceberg.settings small_iceberg_generator)
                           (Iceberg.catalog small_iceberg_generator))
    <= 1 * Iceberg.CHUNK_SIZE /\
  Iceberg.process_table_chunk flaky_env
    (generator_with (Iceberg.settings small_iceberg_generator)
       (Iceberg.catalog small_iceberg_generator))
    "suppliers" {| Iceberg.identifier := "benchmark.suppliers" |} 1 Iceberg.CHUNK_SIZE []
    = (Ret true, []).
Proof.
  assert (H : Iceberg.num_suppliers (generator_with (Iceberg.settings small_iceberg_generator)
                                       (Iceberg.catalog small_iceberg_generator))
              <= 1 * Iceberg.CHUNK_SIZE) by (vm_compute; discriminate).
  split; [exact H |].
  exact (proj2 (proj2 (iceberg_chunks_past_the_end_complete flaky_env _
                         {| Iceberg.identifier := "benchmark.suppliers" |} 1
                         Iceberg.CHUNK_SIZE [])) H).
Defined.

(* ===================================================================== *)
(** ** The order in which chunks complete *)
(* ===================================================================== *)

(** X14.  The loops over [as_completed(futures)] only count: whatever the
    order in which the chunks complete, and whatever was printed before,
    both scripts arrive at the same number of completed chunks, the number
    they started from plus the futures that hold [True]. *)
Theorem completion_order_is_irrelevant :
  forall futures futures' completed h h',
    Permutation futures futures' ->
    fst (Benchmark.monitor futures completed h) = Ret (completed + successes futures) /\
    fst (Benchmark.monitor futures' completed h') = fst (Benchmark.monitor futures completed h) /\
    fst (Iceberg.monitor futures completed h) = Ret (completed + successes futures) /\
    fst (Iceberg.monitor futures' completed h') = fst (Iceberg.monitor futures completed h).
Proof.
  intros l l' c h h' HP.
  destruct (benchmark_monitor_spec l c h) as (a1 & -> & _).
  destruct (benchmark_monitor_spec l' c h') as (a2 & -> & _).
  destruct (iceberg_monitor_spec l c h) as (a3 & -> & _).
  destruct (iceberg_monitor_spec l' c h') as (a4 & -> & _).
  cbn [fst]. rewrite (successes_Permutation l l' HP). repeat split; reflexivity.
Qed.

Lemma completion_order_is_irrelevant_witness :
  Permutation [Ret true; Ret false; Raise (LibraryError "worker died"); Ret true]
              [Raise (LibraryError "worker died"); Ret true; Ret true; Ret false] /\
  fst (Iceberg.monitor
         [Raise (LibraryError "worker died"); Ret true; Ret true; Ret false] 0 [])
    = fst (Iceberg.monitor
             [Ret true; Ret false; Raise (LibraryError "worker died"); Ret true] 0 []).
Proof.
  assert (HP : Permutation
                 [Ret true; Ret false; Raise (LibraryError "worker died"); Ret true]
                 [Raise (LibraryError "worker died"); Ret true; Ret true; Ret false]).
  { apply Permutation_trans
      with (l' := [Ret true; Raise (LibraryError "worker died"); Ret false; Ret true]).
    - apply perm_skip. apply perm_swap.
    - apply Permutation_trans
        with (l' := [Raise (LibraryError "worker died"); Ret true; Ret false; Ret true]).
      + apply perm_swap.
      + do 2 apply perm_skip. apply perm_swap. }
  split; [exact HP |].
  exact (proj2 (proj2 (proj2 (completion_order_is_irrelevant _ _ 0 [] [] HP)))).
Defined.

(* ===================================================================== *)
(** ** The configuration handed to the catalog *)
(* ===================================================================== *)

(** What is left of an optional setting once the [None]s are dropped. *)
Lemma hive_config_shape :
  forall (uri endpoint key_id secret region : option string) (warehouse : string),
    let present (v : option string) := match v with Some x => Some (Some x) | None => None end in
    let config :=
      Iceberg.drop_none
        [ ("type", Some "hive"); ("uri", uri); ("warehouse", Some warehouse);
          ("s3.endpoint", endpoint); ("s3.access-key-id", key_id);
          ("s3.secret-access-key", secret); ("s3.region", region) ] in
    Forall (fun kv : string * option string => snd kv <> None) config /\
    py.dict_find config "type" = Some (Some "hive") /\
    py.dict_find config "warehouse" = Some (Some warehouse) /\
    py.dict_find config "uri" = present uri /\
    py.dict_find config "s3.region" = present region /\
    py.dict_find config "s3.endpoint" = present endpoint /\
    py.dict_find config "s3.access-key-id" = present key_id /\
    py.dict_find config "s3.secret-access-key" = present secret.
Proof.
  intros [u |] [ep |] [ak |] [sk |] [rg |] w; cbv zeta; unfold Iceberg.drop_none;
    cbn [filter snd];
    (split; [repeat (constructor; [discriminate |]); constructor |]);
    repeat split; reflexivity.
Qed.

(** X15.  The Hive setup never hands a [None] to [load_catalog]: it always
    passes the type and the warehouse, falls back to
    [thrift://localhost:9083] and [us-east-1] when the metastore URI and
    the region are not configured, and leaves out every optional S3 setting
    that is not configured.  The Databricks setup filters nothing: a
    credential or a URI that is not configured is passed on as [None]. *)
Theorem hive_config_has_no_none :
  forall env (self : Iceberg.Settings) h,
    (exists config,
       snd (Iceberg._setup_hive_catalog env self h)
         = (h ++ [ELoadCatalog "hive_catalog" config])%list /\
       Forall (fun kv : string * option string => snd kv <> None) config /\
       py.dict_find config "type" = Some (Some "hive") /\
       py.dict_find config "warehouse" = Some (Some (Iceberg.warehouse self)) /\
       (py.dict_find (Iceberg.catalog_config self) "hive_metastore_uri" = None ->
        py.dict_find config "uri" = Some (Some "thrift://localhost:9083")) /\
       (py.dict_find (Iceberg.catalog_config self) "aws_region" = None ->
        py.dict_find config "s3.region" = Some (Some "us-east-1")) /\
       (py.dict_find (Iceberg.catalog_config self) "s3_endpoint" = None ->
        py.dict_find config "s3.endpoint" = None) /\
       (py.dict_find (Iceberg.catalog_config self) "aws_access_key_id" = None ->
        py.dict_find config "s3.access-key-id" = None) /\
       (py.dict_find (Iceberg.catalog_config self) "aws_secret_access_key" = None ->
        py.dict_find config "s3.secret-access-key" = None)) /\
    (DATABRICKS_AVAILABLE env = true ->
     exists config,
       snd (Iceberg._setup_databricks_catalog env self h)
         = (h ++ [ELoadCatalog "unity_catalog" config])%list /\
       (py.dict_find (Iceberg.catalog_config self) "credential" = None ->
        py.dict_find config "credential" = Some None) /\
       (py.dict_find (Iceberg.catalog_config self) "catalog_uri" = None ->
        py.dict_find config "uri" = Some None)).
Proof.
  intros env self h. split.
  - eexists. split.
    { unfold Iceberg._setup_hive_catalog, Iceberg.load_catalog, bind, call.
      destruct (fails env h _); reflexivity. }
    destruct (hive_config_shape
                (Iceberg.config_get (Iceberg.catalog_config self) "hive_metastore_uri"
                   (Some "thrift://localhost:9083"))
                (Iceberg.config_get (Iceberg.catalog_config self) "s3_endpoint" None)
                (Iceberg.config_get (Iceberg.catalog_config self) "aws_access_key_id" None)
                (Iceberg.config_get (Iceberg.catalog_config self) "aws_secret_access_key" None)
                (Iceberg.config_get (Iceberg.catalog_config self) "aws_region" (Some "us-east-1"))
                (Iceberg.warehouse self))
      as (Hall & Htype & Hw & Huri & Hrg & Hep & Hak & Hsk).
    split; [exact Hall |]. split; [exact Htype |]. split; [exact Hw |].
    unfold Iceberg.config_get, py.dict_get in *.
    repeat split; intros Hnone; rewrite Hnone in *; cbv beta iota in *; assumption.
  - intros Hd. eexists. split.
    { unfold Iceberg._setup_databricks_catalog, Iceberg.load_catalog, bind, call.
      rewrite Hd. cbn [negb]. destruct (fails env h _); reflexivity. }
    unfold Iceberg.config_get, py.dict_get.
    split; intros ->; reflexivity.
Qed.

Lemma hive_config_has_no_none_witness :
  DATABRICKS_AVAILABLE flaky_env = true /\
  py.dict_find (Iceberg.catalog_config (Iceberg.settings small_iceberg_generator)) "credential"
    = None /\
  exists config,
    snd (Iceberg._setup_databricks_catalog flaky_env (Iceberg.settings small_iceberg_generator) [])
      = [ELoadCatalog "unity_catalog" config] /\
    py.dict_find config "credential" = Some None.
Proof.
  assert (Hd : DATABRICKS_AVAILABLE flaky_env = true) by reflexivity.
  assert (Hc : py.dict_find (Iceberg.catalog_config (Iceberg.settings small_iceberg_generator))
                 "credential" = None) by reflexivity.
  split; [exact Hd |]. split; [exact Hc |].
  destruct (proj2 (hive_config_has_no_none flaky_env (Iceberg.settings small_iceberg_generator) [])
              Hd) as (config & Hrun & Hcred & _).
  exists config. split; [exact Hrun | exact (Hcred Hc)].
Defined.

(* ===================================================================== *)
(** ** Columns the parquet script computes from the row position *)
(* ===================================================================== *)





(* ===================================================================== *)
(** ** A table that can be neither created nor loaded *)
(* ===================================================================== *)

(** Whatever a table run does, the chunks it hands to the pool are chunks
    of its own table. *)
Lemma iceberg_table_submits_own :
  forall env self table_name database_name table_config h,
    py.dict_find Iceberg.ICEBERG_TABLES table_name = Some table_config ->
    exists r acts,
      Iceberg.generate_iceberg_table env self table_name database_name h
        = (r, (h ++ acts)%list) /\
      forall tn c, In (tn, c) (submitted acts) -> tn = table_name.
Proof.
  intros env self name db cfg h Hcfg.
  destruct (create_iceberg_table_acts env self name db h) as (r0 & acts0 & Hcreate & Hs0).
  destruct r0 as [table | e].
  - destruct (iceberg_table_spec env self name db cfg h table _ Hcfg Hcreate)
      as (futures & acts1 & acts2 & _ & Hrun & _ & Hsub & _).
    eexists _, (acts0 ++ acts1 ++ acts2)%list. split.
    + rewrite Hrun. now rewrite <- !app_assoc.
    + intros tn c Hin. rewrite submitted_app, Hs0, Hsub in Hin. cbn [app] in Hin.
      apply in_map_iff in Hin. destruct Hin as (c' & Heq & _). now injection Heq as <- _.
  - exists (Raise e), acts0. split.
    + now apply (iceberg_table_creation_raises env self name db cfg).
    + intros tn c Hin. rewrite Hs0 in Hin. contradiction.
Qed.

Lemma unavailable_table_raises :
  forall env self table_name database_name table_config e load_error h,
    py.dict_find Iceberg.ICEBERG_TABLES table_name = Some table_config ->
    (forall h' sch spec location,
       fails env h' (ECreateTable (database_name ++ "." ++ table_name) sch spec location)
         = Some e) ->
    (forall h', fails env h' (ELoadTable (database_name ++ "." ++ table_name))
                = Some load_error) ->
    exists acts,
      Iceberg.generate_iceberg_table env self table_name database_name h
        = (Raise e, (h ++ acts)%list) /\
      submitted acts = [].
Proof.
  intros env self name db cfg e e2 h Hcfg Hcreate Hload.
  destruct (configured_tables_build name cfg Hcfg) as (sch & spec & Hbuild).
  assert (Hraise : exists acts,
             Iceberg.create_iceberg_table env self name db h = (Raise e, (h ++ acts)%list) /\
             submitted acts = []).
  { unfold Iceberg.create_iceberg_table, py.dict_item. rewrite Hcfg.
    unfold bind at 1, lift. unfold bind at 1. rewrite Hbuild.
    unfold try_except, bind, call, print, ret, raise.
    rewrite Hcreate, Hload. eexists [_; _; _; _]. history_norm. split; reflexivity. }
  destruct Hraise as (acts & Hc & Hs). exists acts. split; [| exact Hs].
  now apply (iceberg_table_creation_raises env self name db cfg).
Qed.

Lemma iceberg_generate_tables_abort :
  forall env self table_name database_name e load_error,
    configured table_name ->
    (forall h' sch spec location,
       fails env h' (ECreateTable (database_name ++ "." ++ table_name) sch spec location)
         = Some e) ->
    (forall h', fails env h' (ELoadTable (database_name ++ "." ++ table_name))
                = Some load_error) ->
    forall tables successful_tables h,
      In table_name tables ->
      exists e' acts,
        Iceberg.generate_tables env self database_name tables successful_tables h
          = (Raise e', (h ++ acts)%list) /\
        (forall c, ~ In (table_name, c) (submitted acts)) /\
        (forall rest, tables = table_name :: rest -> e' = e /\ submitted acts = []).
Proof.
  intros env self name db e e2 (cfg & Hcfg) Hcreate Hload tables;
    induction tables as [| t rest IH]; intros acc h Hin; [contradiction |].
  cbn [Iceberg.generate_tables].
  destruct (String.eqb_spec t name) as [-> | Hne].
  - rewrite Hcfg.
    destruct (unavailable_table_raises env self name db cfg e e2 h Hcfg Hcreate Hload)
      as (acts & Hrun & Hs).
    exists e, acts. unfold bind at 1. rewrite Hrun.
    split; [reflexivity |]. split.
    + intros c Hc. rewrite Hs in Hc. contradiction.
    + intros _ _. now split.
  - destruct Hin as [Heq | Hin]; [congruence |].
    destruct (py.dict_find Iceberg.ICEBERG_TABLES t) as [cfg' |] eqn:Hcfg'.
    + destruct (iceberg_table_submits_own env self t db cfg' h Hcfg')
        as (r & acts1 & Hone & Hown).
      assert (Hnot1 : forall c, ~ In (name, c) (submitted acts1)).
      { intros c Hc. apply Hown in Hc. congruence. }
      unfold bind at 1. rewrite Hone.
      destruct r as [[|] | e1].
      * destruct (IH (acc + 1) (h ++ acts1)%list Hin) as (e' & acts2 & Hr & Hnot2 & _).
        exists e', (acts1 ++ acts2)%list. rewrite Hr.
        split; [now rewrite <- app_assoc |]. split.
        -- intros c Hc. rewrite submitted_app in Hc. apply in_app_or in Hc.
           destruct Hc as [Hc | Hc]; [exact (Hnot1 c Hc) | exact (Hnot2 c Hc)].
        -- intros rest' Heq. injection Heq as Heq _. congruence.
      * unfold bind at 1, print.
        destruct (IH acc ((h ++ acts1) ++ [EPrint ("Failed to generate table: " ++ t)])%list Hin)
          as (e' & acts2 & Hr & Hnot2 & _).
        exists e', (acts1 ++ EPrint ("Failed to generate table: " ++ t) :: acts2)%list.
        rewrite Hr. split; [now rewrite <- !app_assoc |]. split.
        -- intros c Hc. rewrite submitted_app in Hc. cbn [submitted] in Hc.
           apply in_app_or in Hc.
           destruct Hc as [Hc | Hc]; [exact (Hnot1 c Hc) | exact (Hnot2 c Hc)].
        -- intros rest' Heq. injection Heq as Heq _. congruence.
      * exists e1, acts1. split; [reflexivity |]. split; [exact Hnot1 |].
        intros rest' Heq. injection Heq as Heq _. congruence.
    + unfold bind at 1, print.
      destruct (IH acc (h ++ [EPrint ("Unknown table: " ++ t)])%list Hin)
        as (e' & acts2 & Hr & Hnot2 & _).
      exists e', (EPrint ("Unknown table: " ++ t) :: acts2)%list.
      rewrite Hr. split; [now rewrite <- !app_assoc |]. split.
      * intros c Hc. cbn [submitted] in Hc. exact (Hnot2 c Hc).
      * intros rest' Heq. injection Heq as Heq _. congruence.
Qed.

(** X17.  The Iceberg run goes on after a table whose chunks fail, but not
    after a table that can be neither created nor loaded: if the catalog
    refuses both for a listed, configured table, [generate_all_tables]
    raises instead of returning, no chunk of that table is ever handed to
    the pool, and the tables listed after it are not generated.  When the
    table is the first one listed, the exception is the one of the
    creation and no chunk at all is handed to the pool. *)
Theorem iceberg_run_aborts_on_unavailable_table :
  forall env self table_name database_name tables e load_error h,
    configured table_name ->
    In table_name (tables_listed tables) ->
    (forall h' sch spec location,
       fails env h' (ECreateTable (database_name ++ "." ++ table_name) sch spec location)
         = Some e) ->
    (forall h', fails env h' (ELoadTable (database_name ++ "." ++ table_name))
                = Some load_error) ->
    exists e' acts,
      Iceberg.generate_all_tables env self database_name tables h
        = (Raise e', (h ++ acts)%list) /\
      (forall c, ~ In (table_name, c) (submitted acts)) /\
      (forall rest, tables_listed tables = table_name :: rest -> e' = e /\ submitted acts = []).
Proof.
  intros env self name db tables e e2 h Hconf Hin Hcreate Hload.
  unfold Iceberg.generate_all_tables. fold (tables_listed tables).
  destruct (create_database_returns env self db h) as (acts0 & Hdb & Hs0).
  unfold bind at 1. rewrite Hdb. unfold bind at 1.
  destruct (iceberg_generate_tables_abort env self name db e e2 Hconf Hcreate Hload
              (tables_listed tables) 0 (h ++ acts0)%list Hin) as (e' & acts & Hr & Hnot & Hfirst).
  rewrite Hr. exists e', (acts0 ++ acts)%list.
  split; [now rewrite <- app_assoc |]. split.
  - intros c Hc. rewrite submitted_app, Hs0 in Hc. exact (Hnot c Hc).
  - intros rest Heq. destruct (Hfirst rest Heq) as (-> & Hs).
    split; [reflexivity |]. now rewrite submitted_app, Hs0, Hs.
Qed.

Lemma iceberg_run_aborts_on_unavailable_table_witness :
  configured "orders" /\
  In "orders" (tables_listed (Some ["orders"; "customers"])) /\
  exists acts,
    Iceberg.generate_all_tables locked_catalog_env small_iceberg_generator "benchmark"
      (Some ["orders"; "customers"]) []
      = (Raise (LibraryError "table already exists"), acts) /\
    submitted acts = [].
Proof.
  assert (Hc : configured "orders") by (eexists; reflexivity).
  assert (Hin : In "orders" (tables_listed (Some ["orders"; "customers"]))) by (simpl; tauto).
  split; [exact Hc |]. split; [exact Hin |].
  destruct (iceberg_run_aborts_on_unavailable_table locked_catalog_env small_iceberg_generator
              "orders" "benchmark" (Some ["orders"; "customers"])
              (LibraryError "table already exists") (LibraryError "table cannot be read") []
              Hc Hin (fun _ _ _ _ => eq_refl) (fun _ => eq_refl))
    as (e' & acts & Hrun & _ & Hfirst).
  destruct (Hfirst ["customers"] eq_refl) as (-> & Hs).
  exists acts. split; [exact Hrun | exact Hs].
Defined.

(* ===================================================================== *)
(** ** The example scripts *)
(* ===================================================================== *)

Lemma example_chunks :
  forall (self : Iceberg.Settings) catalog,
    Iceberg.target_size_gb self = 10 ->
    flat_map (iceberg_table_chunks (generator_with self catalog))
             ["customers"; "products"; "orders"]
      = [("customers", 0); ("products", 0); ("orders", 0); ("orders", 1)].
Proof.
  intros self catalog H. unfold iceberg_table_chunks, Iceberg.table_size_gb.
  cbn [flat_map Iceberg.settings generator_with]. rewrite H. reflexivity.
Qed.

(** When no library call fails, a run over configured tables returns
    [True] after handing the chunks of every listed table to the pool. *)
Lemma iceberg_quiet_run :
  forall env (self : Iceberg.IcebergTableGenerator) database_name tables h,
    never_fails env ->
    0 < Iceberg.num_customers self -> 0 < Iceberg.num_products self ->
    0 < Iceberg.num_suppliers self -> 0 < Iceberg.num_orders self ->
    Forall configured (tables_listed tables) ->
    exists acts,
      Iceberg.generate_all_tables env self database_name tables h
        = (Ret true, (h ++ acts)%list) /\
      submitted acts = flat_map (iceberg_table_chunks self) (tables_listed tables).
Proof.
  intros env self db tables h Hq Hc Hp Hs Ho Hall.
  unfold Iceberg.generate_all_tables. fold (tables_listed tables).
  destruct (create_database_returns env self db h) as (acts0 & Hdb & Hs0).
  unfold bind at 1. rewrite Hdb. unfold bind at 1.
  destruct (iceberg_generate_tables_succeed env self db Hq Hc Hp Hs Ho (tables_listed tables) 0
              (h ++ acts0)%list) as (n & h2 & Hr & Hn).
  destruct (iceberg_generate_tables_spec _ _ _ _ _ _ _ _ Hr) as (acts & -> & Hsub & _).
  rewrite Hr. unfold ret. exists (acts0 ++ acts)%list. split.
  - rewrite (Hn Hall). unfold len. rewrite Z.add_0_l, Z.eqb_refl. now rewrite <- app_assoc.
  - now rewrite submitted_app, Hs0, Hsub.
Qed.

Lemma example_tables_configured :
  Forall configured (tables_listed (Some ["customers"; "products"; "orders"])).
Proof. repeat (constructor; [eexists; reflexivity |]). constructor. Qed.

(** X18.  The Hive example loads the catalog [hive_catalog] with the
    metastore at [thrift://localhost:9083] and runs the customers, products
    and orders tables for 10 GB in all: one chunk each for customers and
    products, two for orders.  When no library call fails it exits with
    code 0.  It has no handler of its own: if loading the catalog raises,
    the exception leaves [main] and no exit code is returned.  Whenever it
    returns, the exit code is 0 or 1. *)
Theorem hive_example_exit_code :
  forall env h,
    let config :=
      [ ("type", Some "hive"); ("uri", Some "thrift://localhost:9083");
        ("warehouse", Some "s3://your-iceberg-bucket/iceberg-tables/");
        ("s3.region", Some "us-east-1") ] in
    (never_fails env ->
     exists acts,
       Examples.hive_main env h
         = (Ret 0, (h ++ ELoadCatalog "hive_catalog" config :: acts)%list) /\
       submitted acts = [("customers", 0); ("products", 0); ("orders", 0); ("orders", 1)]) /\
    (forall e,
       fails env h (ELoadCatalog "hive_catalog" config) = Some e ->
       Examples.hive_main env h = (Raise e, (h ++ [ELoadCatalog "hive_catalog" config])%list)) /\
    (forall code h', Examples.hive_main env h = (Ret code, h') -> code = 0 \/ code = 1).
Proof.
  intros env h config. split; [| split].
  - intros Hq.
    assert (Hinit : exists settings catalog,
               Iceberg.__init__ env "hive"
                 [("hive_metastore_uri", Some "thrift://localhost:9083");
                  ("aws_region", Some "us-east-1")]
                 "your-iceberg-bucket" "iceberg-tables" 10 (Some 4) h
               = (Ret (generator_with settings catalog),
                  (h ++ [ELoadCatalog "hive_catalog" config])%list) /\
               Iceberg.target_size_gb settings = 10).
    { eexists _, _. split.
      - unfold Iceberg.__init__, Iceberg._setup_catalog, Iceberg._setup_hive_catalog,
          Iceberg.load_catalog, bind, call, ret.
        cbn [Iceberg.catalog_type String.eqb Ascii.eqb Bool.eqb]. rewrite Hq. reflexivity.
      - reflexivity. }
    destruct Hinit as (settings & catalog & Hinit & Hsize).
    destruct (iceberg_quiet_run env (generator_with settings catalog) "benchmark_test"
                (Some ["customers"; "products"; "orders"])
                (h ++ [ELoadCatalog "hive_catalog" config])%list Hq
                eq_refl eq_refl eq_refl eq_refl example_tables_configured)
      as (acts & Hrun & Hsub).
    exists acts. unfold Examples.hive_main. unfold bind at 1. rewrite Hinit.
    unfold bind at 1. rewrite Hrun. unfold ret. split.
    + now rewrite <- app_assoc.
    + rewrite Hsub. exact (example_chunks settings catalog Hsize).
  - intros e He. unfold Examples.hive_main. unfold bind at 1.
    unfold Iceberg.__init__, Iceberg._setup_catalog, Iceberg._setup_hive_catalog,
      Iceberg.load_catalog, bind, call, ret.
    cbn [Iceberg.catalog_type String.eqb Ascii.eqb Bool.eqb].
    change (Iceberg.drop_none _) with config. now rewrite He.
  - intros code h' Hrun. unfold Examples.hive_main in Hrun. unfold bind at 1 in Hrun.
    destruct (Iceberg.__init__ _ _ _ _ _ _ _ _) as [[generator | e] h1]; [| discriminate].
    unfold bind at 1 in Hrun.
    destruct (Iceberg.generate_all_tables _ _ _ _ _) as [[[|] | e] h2]; [| | discriminate].
    + unfold ret in Hrun. injection Hrun as <- _. now left.
    + unfold bind, print, ret in Hrun. injection Hrun as <- _. now right.
Qed.

Lemma hive_example_exit_code_witness :
  never_fails quiet_env /\
  exists acts,
    Examples.hive_main quiet_env []
      = (Ret 0,
         ELoadCatalog "hive_catalog"
           [ ("type", Some "hive"); ("uri", Some "thrift://localhost:9083");
             ("warehouse", Some "s3://your-iceberg-bucket/iceberg-tables/");
             ("s3.region", Some "us-east-1") ] :: acts) /\
    submitted acts = [("customers", 0); ("products", 0); ("orders", 0); ("orders", 1)].
Proof.
  assert (Hq : never_fails quiet_env) by (intros h ev; reflexivity).
  split; [exact Hq |].
  exact (proj1 (hive_example_exit_code quiet_env []) Hq).
Defined.

(** X19.  The Databricks example needs a token: without one, or with an
    empty one, it prints two lines and exits with code 1 before anything
    else happens.  With a token it passes the token on to the catalog as
    its credential and, when no library call fails, exits with code 0 after
    the same four chunks as the Hive example.  When the Databricks SDK
    cannot be imported the [ImportError] of the constructor leaves [main]:
    the example does not turn it into an exit code. *)
Theorem databricks_example_exit_code :
  forall env h,
    (forall databricks_token,
       databricks_token = None \/ databricks_token = Some "" ->
       Examples.databricks_main env databricks_token h
         = (Ret 1,
            (h ++ [EPrint "Error: DATABRICKS_TOKEN environment variable is required";
                   EPrint "Set it with: export DATABRICKS_TOKEN='your_token'"])%list)) /\
    (forall token,
       token <> "" ->
       DATABRICKS_AVAILABLE env = false ->
       exists msg,
         Examples.databricks_main env (Some token) h = (Raise (ImportError msg), h)) /\
    (forall token,
       token <> "" ->
       DATABRICKS_AVAILABLE env = true ->
       never_fails env ->
       exists config acts,
         Examples.databricks_main env (Some token) h
           = (Ret 0, (h ++ ELoadCatalog "unity_catalog" config :: acts)%list) /\
         py.dict_find config "credential" = Some (Some token) /\
         submitted acts = [("customers", 0); ("products", 0); ("orders", 0); ("orders", 1)]).
Proof.
  intros env h. split; [| split].
  - intros token [-> | ->]; unfold Examples.databricks_main; cbn [String.eqb];
      unfold bind, print, ret; now rewrite <- app_assoc.
  - intros token Hne Hd. eexists. unfold Examples.databricks_main.
    apply String.eqb_neq in Hne. rewrite Hne. unfold bind at 1.
    unfold Iceberg.__init__, Iceberg._setup_catalog, Iceberg._setup_databricks_catalog, bind.
    cbn [Iceberg.catalog_type String.eqb Ascii.eqb Bool.eqb]. rewrite Hd. reflexivity.
  - intros token Hne Hd Hq.
    assert (Hinit : exists settings catalog config,
               Iceberg.__init__ env "databricks"
                 [("catalog_uri",
                   Some "https://your-workspace.cloud.databricks.com/api/2.0/unity-catalog");
                  ("credential", Some token);
                  ("aws_region", Some "us-east-1")]
                 "your-iceberg-bucket" "iceberg-tables" 10 (Some 4) h
               = (Ret (generator_with settings catalog),
                  (h ++ [ELoadCatalog "unity_catalog" config])%list) /\
               Iceberg.target_size_gb settings = 10 /\
               py.dict_find config "credential" = Some (Some token)).
    { eexists _, _, _. split; [| split].
      - unfold Iceberg.__init__, Iceberg._setup_catalog, Iceberg._setup_databricks_catalog,
          Iceberg.load_catalog, bind, call, ret.
        cbn [Iceberg.catalog_type String.eqb Ascii.eqb Bool.eqb]. rewrite Hd. cbn [negb]. cbv beta. rewrite Hq. reflexivity.
      - reflexivity.
      - reflexivity. }
    destruct Hinit as (settings & catalog & config & Hinit & Hsize & Hcred).
    destruct (iceberg_quiet_run env (generator_with settings catalog) "benchmark_test"
                (Some ["customers"; "products"; "orders"])
                (h ++ [ELoadCatalog "unity_catalog" config])%list Hq
                eq_refl eq_refl eq_refl eq_refl example_tables_configured)
      as (acts & Hrun & Hsub).
    exists config, acts. unfold Examples.databricks_main.
    apply String.eqb_neq in Hne. rewrite Hne. unfold bind at 1. rewrite Hinit.
    unfold bind at 1. rewrite Hrun. unfold ret. split; [| split].
    + now rewrite <- app_assoc.
    + exact Hcred.
    + rewrite Hsub. exact (example_chunks settings catalog Hsize).
Qed.

Lemma databricks_example_exit_code_witness :
  "dapi-0123456789" <> "" /\
  DATABRICKS_AVAILABLE quiet_env = false /\
  DATABRICKS_AVAILABLE databricks_env = true /\
  never_fails databricks_env /\
  (exists msg,
     Examples.databricks_main quiet_env (Some "dapi-0123456789") []
       = (Raise (ImportError msg), [])) /\
  (exists config acts,
     Examples.databricks_main databricks_env (Some "dapi-0123456789") []
       = (Ret 0, ELoadCatalog "unity_catalog" config :: acts) /\
     py.dict_find config "credential" = Some (Some "dapi-0123456789")) /\
  Examples.databricks_main quiet_env (Some "") []
    = (Ret 1,
       [EPrint "Error: DATABRICKS_TOKEN environment variable is required";
        EPrint "Set it with: export DATABRICKS_TOKEN='your_token'"]).
Proof.
  assert (Hne : "dapi-0123456789" <> "") by discriminate.
  assert (Hd : DATABRICKS_AVAILABLE quiet_env = false) by reflexivity.
  assert (Hd' : DATABRICKS_AVAILABLE databricks_env = true) by reflexivity.
  assert (Hq : never_fails databricks_env) by (intros h ev; reflexivity).
  split; [exact Hne |]. split; [exact Hd |]. split; [exact Hd' |]. split; [exact Hq |].
  split; [| split].
  - exact (proj1 (proj2 (databricks_example_exit_code quiet_env [])) _ Hne Hd).
  - destruct (proj2 (proj2 (databricks_example_exit_code databricks_env [])) _ Hne Hd' Hq)
      as (config & acts & Hrun & Hcred & _).
    exists config, acts. split; [exact Hrun | exact Hcred].
  - exact (proj1 (databricks_example_exit_code quiet_env []) (Some "") (or_intror eq_refl)).
Defined.

(* ===================================================================== *)
(** ** The partition columns of the configured tables *)
(* ===================================================================== *)

(** X20.  Of the configured tables only suppliers loses a partition
    column: its [established_year] matches no selection rule and is dropped
    without notice, so the table is partitioned by country alone.  Every
    partition column of every other table is selected and gets its field.
    No configured table uses the [bucket] rule: every partition field is a
    [days] field or an identity field. *)
Theorem configured_partition_columns :
  forall table_name table_config sch spec,
    py.dict_find Iceberg.ICEBERG_TABLES table_name = Some table_config ->
    Iceberg.build_partition_spec table_config = Ret (sch, spec) ->
    (table_name <> "suppliers" ->
     forallb selected (Iceberg.partition_spec table_config) = true /\
     List.length (spec_fields spec) = List.length (Iceberg.partition_spec table_config)) /\
    (table_name = "suppliers" ->
     Iceberg.partition_spec table_config = ["country"; "established_year"] /\
     map name (spec_fields spec) = ["country"]) /\
    Forall (fun f => transform f = Some days \/ transform f = None) (spec_fields spec).
Proof.
  intros table_name cfg sch spec H Hbuild. unfold Iceberg.ICEBERG_TABLES in H.
  cbn [py.dict_find] in H.
  repeat match type of H with
         | (if (?a =? ?b)%string then _ else _) = _ =>
             destruct (String.eqb_spec a b) as [Heq | _];
             [ subst table_name; injection H as <-; vm_compute in Hbuild; injection Hbuild as <- <-;
               split; [intros Hne; first [now contradiction Hne | split; reflexivity] |];
               split; [intros Heq; first [discriminate Heq | split; reflexivity] |];
               repeat (constructor; [first [now left | now right] |]); constructor
             |]
         end.
  discriminate.
Qed.

Lemma configured_partition_columns_witness :
  exists table_config sch spec,
    py.dict_find Iceberg.ICEBERG_TABLES "suppliers" = Some table_config /\
    Iceberg.build_partition_spec table_config = Ret (sch, spec) /\
    Iceberg.partition_spec table_config = ["country"; "established_year"] /\
    map name (spec_fields spec) = ["country"].
Proof.
  do 3 eexists.
  match goal with |- ?F /\ ?B /\ _ =>
    assert (Hf : F) by reflexivity;
    assert (Hb : B) by (vm_compute; reflexivity)
  end.
  split; [exact Hf |]. split; [exact Hb |].
  exact (proj1 (proj2 (configured_partition_columns "suppliers" _ _ _ Hf Hb)) eq_refl).
Defined.
